(** * pdf_tool: template validation, batch extraction and region editing

    A shallow embedding of [pdf_tool.py]: the worker [PDFProcessingThread.run]
    (template validation, the documents x pages x areas loops, progress and the
    catch-all error handler) and the parts of [PDFMarkupTool] that keep the
    list of selected areas (page navigation, drawing, removal, saving).

    PyMuPDF, pandas, the file system and Qt are collaborators; they appear as
    the fields of [world] or as the arguments of the handlers.  The json
    library is a collaborator too: where the text of the template file
    matters it is a [json_library], with the library's guarantee about what
    it reads back as a hypothesis. *)

From Stdlib Require Import List ZArith QArith Qround Qpower Bool Lia Lqa.
From Stdlib Require Import Ascii String.
From Stdlib Require Import Floats.SpecFloat.
Import ListNotations.

#[local] Set Warnings "-register-all".

Local Open Scope string_scope.
Local Open Scope Z_scope.

(** ** Python values and exceptions *)

(** Binary64: the [float] of Python, with IEEE addition, multiplication and
    division from the standard specification of floating-point numbers. *)
Definition float := spec_float.
Definition prec : Z := 53.
Definition emax : Z := 1024.
Definition fadd : float -> float -> float := SFadd prec emax.
Definition fmul : float -> float -> float := SFmul prec emax.
Definition fdiv : float -> float -> float := SFdiv prec emax.
Definition feqb : float -> float -> bool := SFeqb.

Definition is_finite (f : float) : bool :=
  match f with
  | S754_zero _ | S754_finite _ _ _ => true
  | S754_infinity _ | S754_nan => false
  end.

Definition is_zero (f : float) : bool :=
  match f with
  | S754_zero _ => true
  | _ => false
  end.

(** What [json.load] returns and [json.dump] accepts.  A [JDict] lists the
    items of the dict; a key is looked up from the left. *)
Inductive json : Type :=
| JNull
| JBool (b : bool)
| JInt (z : Z)
| JFloat (f : float)
| JStr (s : string)
| JList (l : list json)
| JDict (d : list (string * json)).

Inductive exn_kind : Type :=
| ValueError | TypeError | KeyError | IndexError
| ZeroDivisionError | OverflowError | OSError | RuntimeError.

(** An exception: its class and [str(e)]. *)
Record exn : Type := Raise { kind : exn_kind; message : string }.

(** A computation that returns or raises. *)
Inductive result (A : Type) : Type :=
| OK (a : A)
| Error (e : exn).
Arguments OK {A} a.
Arguments Error {A} e.

Definition bind {A B : Type} (r : result A) (k : A -> result B) : result B :=
  match r with
  | OK a => k a
  | Error e => Error e
  end.

Notation "x <- c ;; k" := (bind c (fun x => k))
  (at level 61, c at next level, right associativity).

Definition dquote : string := String "034"%char EmptyString.
Definition newline : string := String "010"%char EmptyString.

Definition type_name (v : json) : string :=
  match v with
  | JNull => "NoneType"
  | JBool _ => "bool"
  | JInt _ => "int"
  | JFloat _ => "float"
  | JStr _ => "str"
  | JList _ => "list"
  | JDict _ => "dict"
  end.

Definition isinstance_list (v : json) : bool :=
  match v with JList _ => true | _ => false end.

Definition isinstance_dict (v : json) : bool :=
  match v with JDict _ => true | _ => false end.

Fixpoint lookup (k : string) (d : list (string * json)) : option json :=
  match d with
  | [] => None
  | (k', v) :: rest => if String.eqb k k' then Some v else lookup k rest
  end.

(** [k in v], used by the validation on values known to be dicts. *)
Definition contains (k : string) (v : json) : bool :=
  match v with
  | JDict d => match lookup k d with Some _ => true | None => false end
  | _ => false
  end.

(** [v[k]] for a string key [k]. *)
Definition subscript (v : json) (k : string) : result json :=
  match v with
  | JDict d =>
      match lookup k d with
      | Some x => OK x
      | None => Error (Raise KeyError ("'" ++ k ++ "'"))
      end
  | JList _ =>
      Error (Raise TypeError "list indices must be integers or slices, not str")
  | JStr _ =>
      Error (Raise TypeError "string indices must be integers, not 'str'")
  | _ =>
      Error (Raise TypeError
               ("'" ++ type_name v ++ "' object is not subscriptable"))
  end.

Fixpoint chars (s : string) : list json :=
  match s with
  | EmptyString => []
  | String c rest => JStr (String c EmptyString) :: chars rest
  end.

(** [for x in v]: the elements the loop visits. *)
Definition iterate (v : json) : result (list json) :=
  match v with
  | JList l => OK l
  | JStr s => OK (chars s)
  | JDict d => OK (map (fun kv => JStr (fst kv)) d)
  | _ =>
      Error (Raise TypeError
               ("'" ++ type_name v ++ "' object is not iterable"))
  end.

(** Conversion of an [int] operand to [float] in mixed arithmetic. *)
Definition float_of_int (z : Z) : result float :=
  let f := binary_normalize prec emax z 0 false in
  if is_finite f then OK f
  else Error (Raise OverflowError "int too large to convert to float").

Definition int_of_bool (b : bool) : Z := if b then 1 else 0.

Definition unsupported_add (a b : json) : exn :=
  Raise TypeError ("unsupported operand type(s) for +: '" ++ type_name a
                   ++ "' and '" ++ type_name b ++ "'").

Definition add_int (x : Z) (a b : json) : result json :=
  match b with
  | JInt y => OK (JInt (x + y))
  | JBool y => OK (JInt (x + int_of_bool y))
  | JFloat y => fx <- float_of_int x ;; OK (JFloat (fadd fx y))
  | _ => Error (unsupported_add a b)
  end.

(** [a + b] *)
Definition py_add (a b : json) : result json :=
  match a with
  | JInt x => add_int x a b
  | JBool x => add_int (int_of_bool x) a b
  | JFloat x =>
      match b with
      | JFloat y => OK (JFloat (fadd x y))
      | JInt y => fy <- float_of_int y ;; OK (JFloat (fadd x fy))
      | JBool y => fy <- float_of_int (int_of_bool y) ;; OK (JFloat (fadd x fy))
      | _ => Error (unsupported_add a b)
      end
  | JStr x =>
      match b with
      | JStr y => OK (JStr (x ++ y))
      | _ => Error (Raise TypeError ("can only concatenate str (not " ++ dquote
                      ++ type_name b ++ dquote ++ ") to str"))
      end
  | JList x =>
      match b with
      | JList y => OK (JList (x ++ y))
      | _ => Error (Raise TypeError ("can only concatenate list (not " ++ dquote
                      ++ type_name b ++ dquote ++ ") to list"))
      end
  | _ => Error (unsupported_add a b)
  end.

(** [str.strip()]: the code points below 256 that Python counts as white
    space. *)
Definition isspace (c : ascii) : bool :=
  let n := Z.of_nat (nat_of_ascii c) in
  ((9 <=? n) && (n <=? 13)) || ((28 <=? n) && (n <=? 32))
  || (n =? 133) || (n =? 160).

Fixpoint lstrip (s : string) : string :=
  match s with
  | EmptyString => EmptyString
  | String c rest => if isspace c then lstrip rest else s
  end.

Fixpoint rstrip (s : string) : string :=
  match s with
  | EmptyString => EmptyString
  | String c rest =>
      match rstrip rest with
      | EmptyString => if isspace c then EmptyString else String c EmptyString
      | r => String c r
      end
  end.

Definition strip (s : string) : string := rstrip (lstrip s).

(** [sep.join(parts)] *)
Fixpoint join (sep : string) (parts : list string) : string :=
  match parts with
  | [] => EmptyString
  | [p] => p
  | p :: rest => p ++ sep ++ join sep rest
  end.

(** ** Template validation ([run], the checks before the first document) *)

Definition msg_not_list : string :=
  "Template file must contain a list of pages.".
Definition msg_page_keys : string :=
  "Each page in the template must contain 'page' and 'coordinates' keys.".
Definition msg_coordinates_list : string :=
  "The 'coordinates' key must be associated with a list of areas.".
Definition msg_area_keys : string :=
  "Each area must contain 'x', 'y', 'width', and 'height' keys.".

Definition area_keys : list string := ["x"; "y"; "width"; "height"].

Fixpoint check_areas (areas : list json) : result unit :=
  match areas with
  | [] => OK tt
  | area :: rest =>
      if negb (isinstance_dict area)
         || negb (forallb (fun k => contains k area) area_keys)
      then Error (Raise ValueError msg_area_keys)
      else check_areas rest
  end.

Fixpoint check_pages (pages : list json) : result unit :=
  match pages with
  | [] => OK tt
  | page :: rest =>
      if negb (isinstance_dict page) || negb (contains "page" page)
         || negb (contains "coordinates" page)
      then Error (Raise ValueError msg_page_keys)
      else
        coordinates <- subscript page "coordinates" ;;
        if negb (isinstance_list coordinates)
        then Error (Raise ValueError msg_coordinates_list)
        else
          areas <- iterate coordinates ;;
          _ <- check_areas areas ;;
          check_pages rest
  end.

Definition validate (template : json) : result unit :=
  if negb (isinstance_list template)
  then Error (Raise ValueError msg_not_list)
  else pages <- iterate template ;; check_pages pages.

(** ** Progress arithmetic: [int((idx + 1) / len(self.pdf_paths) * 100)]

    [int / int] and [float * float] return the binary64 number nearest to the
    exact result, ties to the even mantissa.  The operands here are positive
    and far from the ends of the exponent range (a list has fewer than 2^63
    elements), so a float is written as the rational it denotes and the
    rounding keeps 53 significant bits. *)

Local Open Scope Q_scope.

(** floor(log2 x) for 0 < x *)
Definition floor_log2 (x : Q) : Z :=
  let e := (Z.log2 (Qnum x) - Z.log2 (Zpos (Qden x)))%Z in
  if Qle_bool (2 ^ e) x then e else (e - 1)%Z.

(** the nearest integer, ties to even *)
Definition round_half_even (x : Q) : Z :=
  let f := Qfloor x in
  match (x - inject_Z f ?= 1 # 2)%Q with
  | Lt => f
  | Gt => (f + 1)%Z
  | Eq => if Z.even f then f else (f + 1)%Z
  end.

Definition round53_pos (x : Q) : Q :=
  let u := (floor_log2 x - 52)%Z in
  inject_Z (round_half_even (x / 2 ^ u)) * 2 ^ u.

Definition round53 (x : Q) : Q :=
  match Qnum x with
  | Z0 => 0
  | Zpos _ => round53_pos x
  | Zneg _ => - round53_pos (- x)
  end.

(** [a / b] on ints *)
Definition true_divide (a b : Z) : Q := round53 (inject_Z a / inject_Z b).

(** [x * y] on floats *)
Definition float_times (x y : Q) : Q := round53 (x * y).

(** [int(x)]: truncation towards zero *)
Definition int_of_float (x : Q) : Z :=
  if Qle_bool 0 x then Qfloor x else Qceiling x.

Definition progress_percent (idx len_pdf_paths : Z) : Z :=
  int_of_float (float_times (true_divide (idx + 1) len_pdf_paths) 100).

(** The rational a finite binary64 number denotes, to compare the rounding
    above with the IEEE operations. *)
Definition float_value (f : float) : Q :=
  match f with
  | S754_finite s m e =>
      (if s then - inject_Z (Zpos m) else inject_Z (Zpos m)) * 2 ^ e
  | _ => 0
  end.

Definition ieee_progress (idx len_pdf_paths : Z) : Q :=
  float_value
    (fmul (fdiv (binary_normalize prec emax (idx + 1) 0 false)
                (binary_normalize prec emax len_pdf_paths 0 false))
          (binary_normalize prec emax 100 0 false)).

(** The value the specification names, [round(100 * processed / total)]:
    what the progress would be under rounding instead of truncation. *)
Definition rounded_percent (processed total : Z) : Z :=
  round_half_even (100 * inject_Z processed / inject_Z total)%Q.

Local Close Scope Q_scope.

(** ** The worker: [PDFProcessingThread.run] *)

(** The collaborators of the worker: [open] with [json.load], PyMuPDF
    ([Document], [doc[page_num]], [Rect], [page.get_text("blocks", clip=rect)],
    of which only the text of each block is used) and pandas' [to_excel]. *)
Record world : Type := {
  doc : Type;
  page : Type;
  rect : Type;
  load_json : string -> result json;
  Document : string -> result doc;
  getitem : doc -> json -> result page;
  Rect : json -> json -> json -> json -> result rect;
  get_text_blocks : page -> rect -> result (list string);
  to_excel : list string -> string -> result unit
}.

(** What the worker does that is seen outside: the two signals, the console
    line of the handler, and the sheet written to the output path. *)
Inductive event : Type :=
| Progress (percent : Z)
| Print (line : string)
| Saved (path : string) (rows : list string)
| Finished.

Section Worker.
Variable w : world.

(** one area: the body of [for area in coordinates] up to the text *)
Definition extract_area (pg : page w) (area : json) : result string :=
  x0 <- subscript area "x" ;;
  y0 <- subscript area "y" ;;
  x <- subscript area "x" ;;
  width <- subscript area "width" ;;
  x1 <- py_add x width ;;
  y <- subscript area "y" ;;
  height <- subscript area "height" ;;
  y1 <- py_add y height ;;
  r <- Rect w x0 y0 x1 y1 ;;
  text <- get_text_blocks w pg r ;;
  OK (join newline (map strip text)).

Fixpoint areas_loop (pg : page w) (areas : list json) (data : list string)
  : result (list string) :=
  match areas with
  | [] => OK data
  | area :: rest =>
      extracted_text <- extract_area pg area ;;
      areas_loop pg rest (data ++ [extracted_text])%list
  end.

Fixpoint pages_loop (d : doc w) (pages : list json) (data : list string)
  : result (list string) :=
  match pages with
  | [] => OK data
  | page_template :: rest =>
      page_num <- subscript page_template "page" ;;
      coordinates <- subscript page_template "coordinates" ;;
      pg <- getitem w d page_num ;;
      areas <- iterate coordinates ;;
      data' <- areas_loop pg areas data ;;
      pages_loop d rest data'
  end.

(** one document, up to the blank row *)
Definition one_document (template : json) (pdf_path : string)
  (data : list string) : result (list string) :=
  d <- Document w pdf_path ;;
  pages <- iterate template ;;
  data' <- pages_loop d pages data ;;
  OK (data' ++ [""])%list.

(** [for idx, pdf_path in enumerate(self.pdf_paths)]: the signals emitted and
    the rows, or the exception that left the loop. *)
Fixpoint docs_loop (template : json) (len_pdf_paths : Z) (idx : Z)
  (paths : list string) (data : list string)
  : list event * result (list string) :=
  match paths with
  | [] => ([], OK data)
  | pdf_path :: rest =>
      match one_document template pdf_path data with
      | Error e => ([], Error e)
      | OK data' =>
          let (evs, r) :=
            docs_loop template len_pdf_paths (idx + 1) rest data' in
          (Progress (progress_percent idx len_pdf_paths) :: evs, r)
      end
  end.

(** the [try] block *)
Definition run_try (template_path : string) (pdf_paths : list string)
  (output_path : string) : list event * result unit :=
  match load_json w template_path with
  | Error e => ([], Error e)
  | OK template =>
      match validate template with
      | Error e => ([], Error e)
      | OK _ =>
          let (evs, r) :=
            docs_loop template (Z.of_nat (List.length pdf_paths)) 0 pdf_paths []
          in
          match r with
          | Error e => (evs, Error e)
          | OK data =>
              match to_excel w data output_path with
              | Error e => (evs, Error e)
              | OK _ => ((evs ++ [Saved output_path data])%list, OK tt)
              end
          end
      end
  end.

Definition run (template_path : string) (pdf_paths : list string)
  (output_path : string) : list event :=
  let (evs, r) := run_try template_path pdf_paths output_path in
  (evs
   ++ match r with
      | OK _ => []
      | Error e => [Print ("Error: " ++ message e)]
      end
   ++ [Finished])%list.

End Worker.

(** Readings of a trace. *)
Fixpoint progress_of (evs : list event) : list Z :=
  match evs with
  | [] => []
  | Progress p :: rest => p :: progress_of rest
  | _ :: rest => progress_of rest
  end.

Fixpoint saved_of (evs : list event) : list (string * list string) :=
  match evs with
  | [] => []
  | Saved path rows :: rest => (path, rows) :: saved_of rest
  | _ :: rest => saved_of rest
  end.

Fixpoint printed_of (evs : list event) : list string :=
  match evs with
  | [] => []
  | Print line :: rest => line :: printed_of rest
  | _ :: rest => printed_of rest
  end.

(** ** The editor: [PDFMarkupTool]

    The state is the attributes of the window that the handlers read or
    assign.  Graphics items are objects: the scene and [rect_items] refer to
    them by an identifier. *)

Record QPointF : Type := { px : float; py : float }.

Record QRectF : Type := {
  rx : float; ry : float; rwidth : float; rheight : float
}.

Inductive scene_item : Type :=
| Pixmap (page_index : Z) (zoom : float)
| RectItem (r : QRectF) (dotted : bool)
| TextItem (number : Z) (x y : float).

(** A row of the side list: the label [Frame No n] and the button
    [Remove No n], whose click calls [remove_rect remove_arg]. *)
Record list_entry : Type := { frame_no : Z; remove_arg : Z }.

Record gui : Type := {
  pdf_document : option Z;          (* the open document: its page count *)
  current_page_index : Z;
  selected_areas : list QRectF;     (* areas in original scale *)
  rect_items : list Z;              (* the rectangle items, by identifier *)
  scale_factor : float;
  scene : list (Z * scene_item);
  next_item : Z;                    (* identifier of the next new item *)
  rect_list : list list_entry;
  start_pos : option QPointF;
  rect_item : option Z;
  is_shift_pressed : bool;
  progress_bar : Z;
  message_boxes : list (string * string)
}.

Definition set_pdf_document v g :=
  {| pdf_document := v; current_page_index := current_page_index g;
     selected_areas := selected_areas g; rect_items := rect_items g;
     scale_factor := scale_factor g; scene := scene g;
     next_item := next_item g; rect_list := rect_list g;
     start_pos := start_pos g; rect_item := rect_item g;
     is_shift_pressed := is_shift_pressed g; progress_bar := progress_bar g;
     message_boxes := message_boxes g |}.

Definition set_current_page_index v g :=
  {| pdf_document := pdf_document g; current_page_index := v;
     selected_areas := selected_areas g; rect_items := rect_items g;
     scale_factor := scale_factor g; scene := scene g;
     next_item := next_item g; rect_list := rect_list g;
     start_pos := start_pos g; rect_item := rect_item g;
     is_shift_pressed := is_shift_pressed g; progress_bar := progress_bar g;
     message_boxes := message_boxes g |}.

Definition set_selected_areas v g :=
  {| pdf_document := pdf_document g;
     current_page_index := current_page_index g;
     selected_areas := v; rect_items := rect_items g;
     scale_factor := scale_factor g; scene := scene g;
     next_item := next_item g; rect_list := rect_list g;
     start_pos := start_pos g; rect_item := rect_item g;
     is_shift_pressed := is_shift_pressed g; progress_bar := progress_bar g;
     message_boxes := message_boxes g |}.

Definition set_rect_items v g :=
  {| pdf_document := pdf_document g;
     current_page_index := current_page_index g;
     selected_areas := selected_areas g; rect_items := v;
     scale_factor := scale_factor g; scene := scene g;
     next_item := next_item g; rect_list := rect_list g;
     start_pos := start_pos g; rect_item := rect_item g;
     is_shift_pressed := is_shift_pressed g; progress_bar := progress_bar g;
     message_boxes := message_boxes g |}.

Definition set_scale_factor v g :=
  {| pdf_document := pdf_document g;
     current_page_index := current_page_index g;
     selected_areas := selected_areas g; rect_items := rect_items g;
     scale_factor := v; scene := scene g;
     next_item := next_item g; rect_list := rect_list g;
     start_pos := start_pos g; rect_item := rect_item g;
     is_shift_pressed := is_shift_pressed g; progress_bar := progress_bar g;
     message_boxes := message_boxes g |}.

Definition set_scene v g :=
  {| pdf_document := pdf_document g;
     current_page_index := current_page_index g;
     selected_areas := selected_areas g; rect_items := rect_items g;
     scale_factor := scale_factor g; scene := v;
     next_item := next_item g; rect_list := rect_list g;
     start_pos := start_pos g; rect_item := rect_item g;
     is_shift_pressed := is_shift_pressed g; progress_bar := progress_bar g;
     message_boxes := message_boxes g |}.

Definition set_next_item v g :=
  {| pdf_document := pdf_document g;
     current_page_index := current_page_index g;
     selected_areas := selected_areas g; rect_items := rect_items g;
     scale_factor := scale_factor g; scene := scene g;
     next_item := v; rect_list := rect_list g;
     start_pos := start_pos g; rect_item := rect_item g;
     is_shift_pressed := is_shift_pressed g; progress_bar := progress_bar g;
     message_boxes := message_boxes g |}.

Definition set_rect_list v g :=
  {| pdf_document := pdf_document g;
     current_page_index := current_page_index g;
     selected_areas := selected_areas g; rect_items := rect_items g;
     scale_factor := scale_factor g; scene := scene g;
     next_item := next_item g; rect_list := v;
     start_pos := start_pos g; rect_item := rect_item g;
     is_shift_pressed := is_shift_pressed g; progress_bar := progress_bar g;
     message_boxes := message_boxes g |}.

Definition set_start_pos v g :=
  {| pdf_document := pdf_document g;
     current_page_index := current_page_index g;
     selected_areas := selected_areas g; rect_items := rect_items g;
     scale_factor := scale_factor g; scene := scene g;
     next_item := next_item g; rect_list := rect_list g;
     start_pos := v; rect_item := rect_item g;
     is_shift_pressed := is_shift_pressed g; progress_bar := progress_bar g;
     message_boxes := message_boxes g |}.

Definition set_rect_item v g :=
  {| pdf_document := pdf_document g;
     current_page_index := current_page_index g;
     selected_areas := selected_areas g; rect_items := rect_items g;
     scale_factor := scale_factor g; scene := scene g;
     next_item := next_item g; rect_list := rect_list g;
     start_pos := start_pos g; rect_item := v;
     is_shift_pressed := is_shift_pressed g; progress_bar := progress_bar g;
     message_boxes := message_boxes g |}.

Definition set_is_shift_pressed v g :=
  {| pdf_document := pdf_document g;
     current_page_index := current_page_index g;
     selected_areas := selected_areas g; rect_items := rect_items g;
     scale_factor := scale_factor g; scene := scene g;
     next_item := next_item g; rect_list := rect_list g;
     start_pos := start_pos g; rect_item := rect_item g;
     is_shift_pressed := v; progress_bar := progress_bar g;
     message_boxes := message_boxes g |}.

Definition set_progress_bar v g :=
  {| pdf_document := pdf_document g;
     current_page_index := current_page_index g;
     selected_areas := selected_areas g; rect_items := rect_items g;
     scale_factor := scale_factor g; scene := scene g;
     next_item := next_item g; rect_list := rect_list g;
     start_pos := start_pos g; rect_item := rect_item g;
     is_shift_pressed := is_shift_pressed g; progress_bar := v;
     message_boxes := message_boxes g |}.

Definition set_message_boxes v g :=
  {| pdf_document := pdf_document g;
     current_page_index := current_page_index g;
     selected_areas := selected_areas g; rect_items := rect_items g;
     scale_factor := scale_factor g; scene := scene g;
     next_item := next_item g; rect_list := rect_list g;
     start_pos := start_pos g; rect_item := rect_item g;
     is_shift_pressed := is_shift_pressed g; progress_bar := progress_bar g;
     message_boxes := v |}.

Definition float_one : float := S754_finite false 4503599627370496 (-52).
(** the literals [1.1] and [0.9] *)
Definition float_1_1 : float := S754_finite false 4953959590107546 (-52).
Definition float_0_9 : float := S754_finite false 8106479329266893 (-53).

(** [__init__], the attributes *)
Definition init : gui :=
  {| pdf_document := None; current_page_index := 0;
     selected_areas := []; rect_items := [];
     scale_factor := float_one; scene := []; next_item := 0;
     rect_list := []; start_pos := None; rect_item := None;
     is_shift_pressed := false; progress_bar := 0; message_boxes := [] |}.

(** [x / y] on floats *)
Definition py_truediv (x y : float) : result float :=
  if is_zero y then Error (Raise ZeroDivisionError "float division by zero")
  else OK (fdiv x y).

(** [del l[index]] for [0 <= index] *)
Fixpoint delete {A : Type} (index : nat) (l : list A) : list A :=
  match l, index with
  | [], _ => []
  | _ :: rest, O => rest
  | a :: rest, S i => a :: delete i rest
  end.

Definition del {A : Type} (l : list A) (index : Z) : result (list A) :=
  if (0 <=? index) && (index <? Z.of_nat (List.length l))
  then OK (delete (Z.to_nat index) l)
  else Error (Raise IndexError "list assignment index out of range").

(** [scene.addItem], [scene.addPixmap], [scene.addText]: a new item *)
Definition add_item (it : scene_item) (g : gui) : Z * gui :=
  (next_item g,
   set_next_item (next_item g + 1)
     (set_scene (scene g ++ [(next_item g, it)])%list g)).

(** [scene.removeItem] on an item of the scene; [remove_rect] hands it the
    items of [rect_items], which the scene holds in every state the editor
    reaches. *)
Definition remove_item (id : Z) (g : gui) : gui :=
  set_scene (filter (fun p => negb (fst p =? id)) (scene g)) g.

Definition in_scene (id : Z) (g : gui) : bool :=
  existsb (fun p => fst p =? id) (scene g).

(** [scene.removeItem(self.rect_item)] in the move handler: [scene.clear()]
    deletes the items it held, and PyQt raises on a deleted item. *)
Definition remove_pending (id : Z) (g : gui) : result gui :=
  if in_scene id g then OK (remove_item id g)
  else
    Error (Raise RuntimeError
             "wrapped C/C++ object of type QGraphicsRectItem has been deleted").

(** [not self.pdf_document]: no document, or one without pages *)
Definition no_document (g : gui) : bool :=
  match pdf_document g with
  | None => true
  | Some n => n =? 0
  end.

Definition scaled (r : QRectF) (s : float) : QRectF :=
  {| rx := fmul (rx r) s; ry := fmul (ry r) s;
     rwidth := fmul (rwidth r) s; rheight := fmul (rheight r) s |}.

(** what both [show_page] and the release handler do for the area at
    [index], given its rectangle in the scene *)
Definition add_frame (shown : QRectF) (index : Z) (g : gui) : gui :=
  let (fixed_rect, g1) := add_item (RectItem shown false) g in
  let g2 := set_rect_items (rect_items g1 ++ [fixed_rect])%list g1 in
  let (_, g3) := add_item (TextItem (index + 1) (rx shown) (ry shown)) g2 in
  set_rect_list
    (rect_list g3 ++ [{| frame_no := index + 1; remove_arg := index |}])%list
    g3.

(** [for index, rect in enumerate(self.selected_areas)] *)
Fixpoint reapply (areas : list QRectF) (index : Z) (g : gui) : gui :=
  match areas with
  | [] => g
  | r :: rest =>
      reapply rest (index + 1) (add_frame (scaled r (scale_factor g)) index g)
  end.

(** [self.pdf_document[i]] raises [IndexError] unless [i] is below the
    page count. *)
Definition show_page (g : gui) : result gui :=
  if no_document g then OK g
  else
    let g1 := set_rect_list [] (set_rect_items [] (set_scene [] g)) in
    match pdf_document g1 with
    | None => OK g
    | Some n =>
        if current_page_index g1 <? n
        then
          let (_, g2) :=
            add_item (Pixmap (current_page_index g1) (scale_factor g1)) g1 in
          OK (reapply (selected_areas g2) 0 g2)
        else Error (Raise IndexError "page not in document")
    end.

(** [opened]: what [Document(file_path)] gives, the page count *)
Definition load_pdf (file_path : string) (opened : result Z) (g : gui)
  : result gui :=
  if String.eqb file_path "" then OK g
  else
    n <- opened ;;
    show_page (set_current_page_index 0 (set_pdf_document (Some n) g)).

Definition prev_page (g : gui) : result gui :=
  if 0 <? current_page_index g
  then show_page (set_current_page_index (current_page_index g - 1) g)
  else OK g.

Definition next_page (g : gui) : result gui :=
  match pdf_document g with
  | None =>
      Error (Raise TypeError "object of type 'NoneType' has no len()")
  | Some n =>
      if current_page_index g <? n - 1
      then show_page (set_current_page_index (current_page_index g + 1) g)
      else OK g
  end.

Definition keyPressEvent (shift : bool) (g : gui) : gui :=
  if shift then set_is_shift_pressed true g else g.

Definition keyReleaseEvent (shift : bool) (g : gui) : gui :=
  if shift then set_is_shift_pressed false g else g.

Definition wheelEvent (control : bool) (angle_delta_y : Z) (g : gui)
  : result gui :=
  if control
  then
    show_page
      (set_scale_factor
         (fmul (scale_factor g)
               (if 0 <? angle_delta_y then float_1_1 else float_0_9)) g)
  else OK g.

Definition remove_rect (index : Z) (g : gui) : result gui :=
  if (0 <=? index) && (index <? Z.of_nat (List.length (rect_items g)))
  then
    let g1 := remove_item (nth (Z.to_nat index) (rect_items g) 0) g in
    items <- del (rect_items g1) index ;;
    let g2 := set_rect_items items g1 in
    areas <- del (selected_areas g2) index ;;
    show_page (set_selected_areas areas g2)
  else OK g.

Inductive mouse_event : Type :=
| MouseButtonPress (left_button : bool) (pos : QPointF)
| MouseMove (pos : QPointF)
| MouseButtonRelease (left_button : bool) (pos : QPointF).

Section Editor.
(** Qt: [QRectF(p, q).normalized()] and the truth value of a [QPointF];
    positions are already mapped to the scene. *)
Variable normalized : QPointF -> QPointF -> QRectF.
Variable point_bool : QPointF -> bool.

Definition start_pos_set (g : gui) : bool :=
  match start_pos g with
  | None => false
  | Some p => point_bool p
  end.

Definition on_release (start end_pos : QPointF) (g : gui) : result gui :=
  let r := normalized start end_pos in
  x <- py_truediv (rx r) (scale_factor g) ;;
  y <- py_truediv (ry r) (scale_factor g) ;;
  width <- py_truediv (rwidth r) (scale_factor g) ;;
  height <- py_truediv (rheight r) (scale_factor g) ;;
  let original_rect :=
    {| rx := x; ry := y; rwidth := width; rheight := height |} in
  let g1 :=
    set_selected_areas (selected_areas g ++ [original_rect])%list g in
  let index := Z.of_nat (List.length (selected_areas g1)) - 1 in
  OK (set_rect_item None (set_start_pos None (add_frame r index g1))).

(** the viewport's events *)
Definition eventFilter (ev : mouse_event) (g : gui) : result gui :=
  match ev with
  | MouseButtonPress left_button pos =>
      if is_shift_pressed g
      then OK (if left_button then set_start_pos (Some pos) g else g)
      else OK g
  | MouseMove pos =>
      if is_shift_pressed g && start_pos_set g
      then
        match start_pos g with
        | None => OK g
        | Some start =>
            g1 <- match rect_item g with
                  | Some old => remove_pending old g
                  | None => OK g
                  end ;;
            let (id, g2) :=
              add_item (RectItem (normalized start pos) true) g1 in
            OK (set_rect_item (Some id) g2)
        end
      else OK g
  | MouseButtonRelease left_button pos =>
      if is_shift_pressed g && left_button && start_pos_set g
      then
        match start_pos g with
        | None => OK g
        | Some start => on_release start pos g
        end
      else OK g
  end.
End Editor.

(** [save_template]: the value built and, when a path was chosen, the file
    that [json.dump] writes. *)
Definition area_json (r : QRectF) : json :=
  JDict [("x", JFloat (rx r)); ("y", JFloat (ry r));
         ("width", JFloat (rwidth r)); ("height", JFloat (rheight r))].

Definition page_json (page_index : Z) (areas : list QRectF) : json :=
  JDict [("page", JInt page_index);
         ("coordinates", JList (map area_json areas))].

Definition template_data (g : gui) : json :=
  JList [page_json (current_page_index g) (selected_areas g)].

Definition save_template (file_path : string) (g : gui)
  : option (string * json) :=
  if String.eqb file_path "" then None
  else Some (file_path, template_data g).

(** The slots of the worker's signals. *)
Definition processing_finished (g : gui) : gui :=
  set_progress_bar 0
    (set_message_boxes
       (message_boxes g
        ++ [("Processing Complete",
             "The files have been processed and saved successfully.")])%list
       g).

Definition deliver (g : gui) (ev : event) : gui :=
  match ev with
  | Progress p => set_progress_bar p g
  | Finished => processing_finished g
  | Print _ | Saved _ _ => g
  end.

(** [process_files]: the three dialogs, then the worker runs and its signals
    reach the window.  The second component is the worker's trace. *)
Definition process_files (w : world) (template_path : string)
  (pdf_paths : list string) (output_path : string) (g : gui)
  : gui * list event :=
  if String.eqb template_path "" then (g, [])
  else
    match pdf_paths with
    | [] => (g, [])
    | _ =>
        if String.eqb output_path "" then (g, [])
        else
          let evs := run w template_path pdf_paths output_path in
          (fold_left deliver evs g, evs)
    end.

(** ** The template file: written by the editor, read by the worker *)

(** A template: for each entry the page index and the areas. *)
Definition Template : Type := list (Z * list QRectF).

(** [save_template] writes one entry; [encode] is its entry literal applied
    to every entry of a template. *)
Definition encode (t : Template) : json :=
  JList (map (fun entry => page_json (fst entry) (snd entry)) t).

(** The json library as the program uses it: [json.dump] turns a value into
    the text of a file and [json.load] reads a text. *)
Record json_library : Type := {
  file_text : Type;
  json_dump : json -> file_text;
  json_load : file_text -> result json
}.




(** Lines 24 to 37 of [run]: the file is read and checked; the template
    that the loops then use is the value read. *)
Definition decode (lib : json_library) (file : file_text lib) : result json :=
  template <- json_load lib file ;;
  _ <- validate template ;;
  OK template.



(** ** Extraction in the words of the format

    What the pipeline is to do with a template's own numbers: resolve the
    page of each entry and, for each region in order, ask for the text in
    the rectangle from (x, y) to (x + width, y + height), unscaled. *)
Section TemplateExtraction.
Variable w : world.

Definition region_row (pg : page w) (r : QRectF) : result string :=
  clip <- Rect w (JFloat (rx r)) (JFloat (ry r))
            (JFloat (fadd (rx r) (rwidth r)))
            (JFloat (fadd (ry r) (rheight r))) ;;
  text <- get_text_blocks w pg clip ;;
  OK (join newline (map strip text)).

Fixpoint region_rows (pg : page w) (regions : list QRectF)
  (data : list string) : result (list string) :=
  match regions with
  | [] => OK data
  | r :: rest =>
      row <- region_row pg r ;;
      region_rows pg rest (data ++ [row])%list
  end.

Fixpoint template_rows (d : doc w) (t : Template) (data : list string)
  : result (list string) :=
  match t with
  | [] => OK data
  | entry :: rest =>
      pg <- getitem w d (JInt (fst entry)) ;;
      data' <- region_rows pg (snd entry) data ;;
      template_rows d rest data'
  end.

Definition template_document (t : Template) (pdf_path : string)
  (data : list string) : result (list string) :=
  d <- Document w pdf_path ;;
  data' <- template_rows d t data ;;
  OK (data' ++ [""])%list.
End TemplateExtraction.

(** an exception that an addition, [Rect] or [get_text] raises *)
Definition raised_in_area (w : world) (e : exn) : Prop :=
  (exists a b, py_add a b = Error e)
  \/ (exists x0 y0 x1 y1, Rect w x0 y0 x1 y1 = Error e)
  \/ (exists pg clip, get_text_blocks w pg clip = Error e).

(** ** Shapes of a raw template, in the words of the format *)

(** a mapping containing all of x, y, width, height *)
Definition area_shape (a : json) : Prop :=
  exists d, a = JDict d /\ forall k, In k area_keys -> lookup k d <> None.

(** a mapping containing both page and coordinates *)
Definition entry_shape (p : json) : Prop :=
  exists d, p = JDict d /\ lookup "page" d <> None
            /\ lookup "coordinates" d <> None.

(** ... whose coordinates is a sequence of areas *)
Definition page_shape (p : json) : Prop :=
  exists d areas,
    p = JDict d /\ lookup "page" d <> None
    /\ lookup "coordinates" d = Some (JList areas)
    /\ Forall area_shape areas.

Definition template_shape (raw : json) : Prop :=
  exists pages, raw = JList pages /\ Forall page_shape pages.

(** The four ways a raw value breaks the format. *)
Definition not_a_sequence (raw : json) : Prop :=
  forall pages, raw <> JList pages.

Definition has_bad_entry (raw : json) : Prop :=
  exists pages p, raw = JList pages /\ In p pages /\ ~ entry_shape p.

Definition has_bad_coordinates (raw : json) : Prop :=
  exists pages d c,
    raw = JList pages /\ In (JDict d) pages
    /\ lookup "coordinates" d = Some c /\ forall areas, c <> JList areas.

Definition has_bad_area (raw : json) : Prop :=
  exists pages d areas a,
    raw = JList pages /\ In (JDict d) pages
    /\ lookup "coordinates" d = Some (JList areas)
    /\ In a areas /\ ~ area_shape a.

(** ** Rows in document, page and area order *)

Section Rows.
Variable w : world.

(** the rows of one page entry on an open document, area by area *)
Definition page_rows (d : doc w) (page_template : json)
  (rows : list string) : Prop :=
  exists page_num areas pg,
    subscript page_template "page" = OK page_num
    /\ subscript page_template "coordinates" = OK (JList areas)
    /\ getitem w d page_num = OK pg
    /\ Forall2 (fun area row => extract_area w pg area = OK row) areas rows.

(** the rows of one document, page entry by page entry *)
Definition document_rows (pages : list json) (pdf_path : string)
  (rows : list string) : Prop :=
  exists d per_page,
    Document w pdf_path = OK d
    /\ Forall2 (page_rows d) pages per_page
    /\ rows = List.concat per_page.

(** the sheet: document by document, a blank row after each *)
Definition sheet_rows (pages : list json) (pdf_paths : list string)
  (rows : list string) : Prop :=
  exists per_document,
    Forall2 (document_rows pages) pdf_paths per_document
    /\ rows = List.concat (map (fun r => r ++ [""])%list per_document).
End Rows.

(** ** A small world and Qt's geometry, for the worked examples *)

Definition region_label (x : json) : string :=
  match x with
  | JInt 1 => "1"
  | JInt 2 => "2"
  | _ => "?"
  end.

(** Documents are known by name with a page count; the text under a
    rectangle names the document and the rectangle's left edge. *)
Definition demo_world (template : result json)
  (page_count : string -> option Z) (writable : bool) : world :=
  {| doc := string * Z;
     page := string * Z;
     rect := json;
     load_json := fun _ => template;
     Document := fun path =>
       match page_count path with
       | Some n => OK (path, n)
       | None => Error (Raise RuntimeError ("cannot open " ++ path))
       end;
     getitem := fun d i =>
       match i with
       | JInt z =>
           if z <? snd d then OK (fst d, z)
           else Error (Raise IndexError "page not in document")
       | _ => Error (Raise TypeError "invalid page number")
       end;
     Rect := fun x0 y0 x1 y1 =>
       match x1, y1 with
       | JInt _, JInt _ | JInt _, JFloat _
       | JFloat _, JInt _ | JFloat _, JFloat _ => OK x0
       | _, _ => Error (Raise ValueError "Rect: bad args")
       end;
     get_text_blocks := fun pg r =>
       OK [" " ++ fst pg ++ "-region" ++ region_label r ++ newline];
     to_excel := fun _ _ =>
       if writable then OK tt
       else Error (Raise OSError "Permission denied") |}.

Definition int_area (x y width height : Z) : json :=
  JDict [("x", JInt x); ("y", JInt y);
         ("width", JInt width); ("height", JInt height)].

(** one page entry with two areas *)
Definition two_area_template : json :=
  JList [JDict [("page", JInt 0);
                ("coordinates",
                 JList [int_area 1 10 30 5; int_area 2 20 30 5])]].

Definition pages_of (names : list (string * Z)) (path : string) : option Z :=
  match find (fun p => String.eqb (fst p) path) names with
  | Some p => Some (snd p)
  | None => None
  end.

Definition fsub : float -> float -> float := SFsub prec emax.

(** [QRectF(p, q).normalized()] as Qt defines it *)
Definition qt_normalized (p q : QPointF) : QRectF :=
  let w := fsub (px q) (px p) in
  let h := fsub (py q) (py p) in
  let negative v := SFltb v (S754_zero false) in
  {| rx := if negative w then fadd (px p) w else px p;
     ry := if negative h then fadd (py p) h else py p;
     rwidth := if negative w then SFopp w else w;
     rheight := if negative h then SFopp h else h |}.

(** [bool(p)]: the point is not the origin *)
Definition qt_point_bool (p : QPointF) : bool :=
  negb (is_zero (px p) && is_zero (py p)).

Definition float_of_Z (z : Z) : float := binary_normalize prec emax z 0 false.

Definition point (x y : Z) : QPointF :=
  {| px := float_of_Z x; py := float_of_Z y |}.


(** ** Progress signals of a completed prefix of the documents *)

(** [idx, idx + 1, ...], [n] of them: the values of [idx] in [enumerate] *)
Fixpoint indices (idx : Z) (n : nat) : list Z :=
  match n with
  | O => []
  | S m => idx :: indices (idx + 1) m
  end.

Definition progress_events (len_pdf_paths idx : Z) (n : nat) : list event :=
  map (fun i => Progress (progress_percent i len_pdf_paths)) (indices idx n).

(** ** Readings of the editor's display *)

(** the rows of the side list for areas [idx .. idx + n - 1]: the label is
    the position plus one *)
Definition labels (idx : Z) (n : nat) : list list_entry :=
  map (fun i => {| frame_no := i + 1; remove_arg := i |}) (indices idx n).

(** the numbers written in the scene, in the order they were added *)
Fixpoint text_numbers (items : list (Z * scene_item)) : list Z :=
  match items with
  | [] => []
  | (_, TextItem n _ _) :: rest => n :: text_numbers rest
  | _ :: rest => text_numbers rest
  end.

(** the page whose pixmap is in the scene *)
Fixpoint shown_pages (items : list (Z * scene_item)) : list Z :=
  match items with
  | [] => []
  | (_, Pixmap i _) :: rest => i :: shown_pages rest
  | _ :: rest => shown_pages rest
  end.

(** ** Worked editor sessions *)

(** Shift is held; a drag from [p] to [q] with the left button. *)
Definition drag (p q : QPointF) (g : gui) : result gui :=
  g1 <- eventFilter qt_normalized qt_point_bool (MouseButtonPress true p) g ;;
  g2 <- eventFilter qt_normalized qt_point_bool (MouseMove q) g1 ;;
  eventFilter qt_normalized qt_point_bool (MouseButtonRelease true q) g2.

Definition or_init (r : result gui) : gui :=
  match r with
  | OK g => g
  | Error _ => init
  end.

(** a two-page document is open and three areas are drawn on its first
    page *)
Definition three_areas_session : result gui :=
  g1 <- load_pdf "a.pdf" (OK 2) init ;;
  g2 <- drag (point 10 10) (point 50 50) (keyPressEvent true g1) ;;
  g3 <- drag (point 90 40) (point 60 20) g2 ;;
  drag (point 10 70) (point 30 90) g3.

Definition three_areas : gui := or_init three_areas_session.

(** one area is drawn on the first page, the next page is shown, and a
    second area is drawn there *)
Definition two_pages_session : result gui :=
  g1 <- load_pdf "a.pdf" (OK 2) init ;;
  g2 <- drag (point 10 10) (point 50 50) (keyPressEvent true g1) ;;
  g3 <- next_page g2 ;;
  drag (point 90 40) (point 60 20) g3.

Definition two_pages : gui := or_init two_pages_session.

Definition rect_of (x y width height : Z) : QRectF :=
  {| rx := float_of_Z x; ry := float_of_Z y;
     rwidth := float_of_Z width; rheight := float_of_Z height |}.


(** one area is drawn on the first page of a two-page document *)
Definition one_area_session : result gui :=
  g1 <- load_pdf "a.pdf" (OK 2) init ;;
  drag (point 10 10) (point 50 50) (keyPressEvent true g1).

Definition one_area : gui := or_init one_area_session.

(** ** The progress arithmetic against the IEEE operations *)

(** [ieee_progress] and the rounding above give the same number for every
    [1 <= k <= n] up to a bound. *)
Definition agree_on (k n : Z) : bool :=
  Qeq_bool (ieee_progress (k - 1) n) (float_times (true_divide k n) 100).

Definition agree_up_to (bound : nat) : bool :=
  forallb
    (fun n => forallb (fun k => agree_on k n) (indices 1 (Z.to_nat n)))
    (indices 1 bound).

(** three documents of one page each *)
Definition three_documents : string -> option Z :=
  pages_of [("doc1", 1); ("doc2", 1); ("doc3", 1)].

(** ** Worked runs *)

(** [doc1] has one page and [doc2] three; no other document opens *)
Definition demo : world :=
  demo_world (OK two_area_template) (pages_of [("doc1", 1); ("doc2", 3)])
    true.

(** two page entries, for pages 0 and 1 *)
Definition two_entry_template : json :=
  JList [JDict [("page", JInt 0);
                ("coordinates", JList [int_area 1 10 30 5])];
         JDict [("page", JInt 1);
                ("coordinates", JList [int_area 2 20 30 5])]].

(** [doc1] has both pages, [doc2] only the first *)
Definition short_second_document : world :=
  demo_world (OK two_entry_template) (pages_of [("doc1", 2); ("doc2", 1)])
    true.

Definition three_documents_world : world :=
  demo_world (OK two_area_template) three_documents true.

(** values of the wrong types under the right keys *)
Definition ill_typed_template : json :=
  JList [JDict [("page", JStr "first");
                ("coordinates",
                 JList [JDict [("x", JInt 1); ("y", JNull);
                               ("width", JStr "wide");
                               ("height", JInt (-4))]])];
         JDict [("page", JInt (-1)); ("coordinates", JList [])]].

(** a string where the width should be *)
Definition string_width_template : json :=
  JList [JDict [("page", JInt 0);
                ("coordinates",
                 JList [JDict [("x", JInt 1); ("y", JInt 2);
                               ("width", JStr "wide");
                               ("height", JInt 4)]])]].

(** What the loop over the page entries answers: the first entry that
    breaks a rule decides the message. *)
Inductive pages_verdict (pages : list json) : result unit -> Prop :=
| verdict_ok :
    Forall page_shape pages -> pages_verdict pages (OK tt)
| verdict_entry p :
    In p pages -> ~ entry_shape p ->
    pages_verdict pages (Error (Raise ValueError msg_page_keys))
| verdict_coordinates d c :
    In (JDict d) pages -> lookup "coordinates" d = Some c ->
    (forall areas, c <> JList areas) ->
    pages_verdict pages (Error (Raise ValueError msg_coordinates_list))
| verdict_area d areas a :
    In (JDict d) pages -> lookup "coordinates" d = Some (JList areas) ->
    In a areas -> ~ area_shape a ->
    pages_verdict pages (Error (Raise ValueError msg_area_keys)).

(** ** The states the editor can reach *)

(** One thing that happens to the window: a button, a key, the wheel, a
    mouse event on the viewport, or a signal of the worker. *)
Inductive action : Type :=
| LoadPdf (file_path : string) (opened : result Z)
| PrevPage
| NextPage
| KeyPress (shift : bool)
| KeyRelease (shift : bool)
| Wheel (control : bool) (angle_delta_y : Z)
| Mouse (ev : mouse_event)
| RemoveRect (index : Z)
| Signal (ev : event).

Definition perform (normalized : QPointF -> QPointF -> QRectF)
  (point_bool : QPointF -> bool) (a : action) (g : gui) : result gui :=
  match a with
  | LoadPdf file_path opened => load_pdf file_path opened g
  | PrevPage => prev_page g
  | NextPage => next_page g
  | KeyPress shift => OK (keyPressEvent shift g)
  | KeyRelease shift => OK (keyReleaseEvent shift g)
  | Wheel control angle_delta_y => wheelEvent control angle_delta_y g
  | Mouse ev => eventFilter normalized point_bool ev g
  | RemoveRect index => remove_rect index g
  | Signal ev => OK (deliver g ev)
  end.

Inductive reachable (normalized : QPointF -> QPointF -> QRectF)
  (point_bool : QPointF -> bool) : gui -> Prop :=
| reachable_init : reachable normalized point_bool init
| reachable_step a g g' :
    reachable normalized point_bool g ->
    perform normalized point_bool a g = OK g' ->
    reachable normalized point_bool g'.

(** shift is held and three areas are drawn before any document is
    loaded *)
Definition no_document_session : result gui :=
  g1 <- drag (point 10 10) (point 50 50) (keyPressEvent true init) ;;
  g2 <- drag (point 90 40) (point 60 20) g1 ;;
  drag (point 10 70) (point 30 90) g2.

Definition three_areas_no_document : gui := or_init no_document_session.

(** Every rectangle item stands for one selected area. *)
Definition same_lengths (g : gui) : Prop :=
  List.length (rect_items g) = List.length (selected_areas g).

(** ** More worked runs *)

(** the output file cannot be written *)
Definition read_only_output : world :=
  demo_world (OK two_area_template) (pages_of [("doc1", 1); ("doc2", 3)])
    false.

(** a template without page entries *)
Definition empty_template_world : world :=
  demo_world (OK (JList [])) (pages_of [("doc1", 1); ("doc2", 3)]) true.

(** an entry without [page] between a good entry and one that is not a
    mapping *)
Definition broken_second_entry : list json :=
  [JDict [("page", JInt 0); ("coordinates", JList [])];
   JDict [("coordinates", JList [])];
   JStr "not an entry"].

(** how often [finished] is emitted *)
Fixpoint finished_count (evs : list event) : nat :=
  match evs with
  | [] => O
  | Finished :: rest => S (finished_count rest)
  | _ :: rest => finished_count rest
  end.

(** ** What holds of the editor's state *)

(** the page index is a page of the open document, and 0 without one *)
Definition page_in_range (g : gui) : Prop :=
  match pdf_document g with
  | None => current_page_index g = 0
  | Some n =>
      (n = 0 /\ current_page_index g = 0) \/ 0 <= current_page_index g < n
  end.

(** with a document shown, the side list has one row per area, labelled by
    position *)
Definition labels_in_place (g : gui) : Prop :=
  no_document g = false ->
  rect_list g = labels 0 (List.length (selected_areas g)).

Definition consistent (g : gui) : Prop :=
  same_lengths g /\ page_in_range g /\ labels_in_place g.

(** the rectangle items are different items of the scene, and the dotted
    rectangle of a drag is none of them *)
Definition items_in_scene (g : gui) : Prop :=
  NoDup (rect_items g)
  /\ (forall id, In id (rect_items g) ->
                 in_scene id g = true /\ id < next_item g)
  /\ (forall id, rect_item g = Some id ->
                 ~ In id (rect_items g) /\ id < next_item g).

(** a sequence of actions, stopped by the first one that raises *)
Fixpoint perform_all (normalized : QPointF -> QPointF -> QRectF)
  (point_bool : QPointF -> bool) (actions : list action) (g : gui)
  : result gui :=
  match actions with
  | [] => OK g
  | a :: rest =>
      g' <- perform normalized point_bool a g ;;
      perform_all normalized point_bool rest g'
  end.

Definition drag_actions (p q : QPointF) : list action :=
  [Mouse (MouseButtonPress true p); Mouse (MouseMove q);
   Mouse (MouseButtonRelease true q)].

(** the actions of [three_areas_session] *)
Definition three_areas_actions : list action :=
  ([LoadPdf "a.pdf" (OK 2); KeyPress true]
   ++ drag_actions (point 10 10) (point 50 50)
   ++ drag_actions (point 90 40) (point 60 20)
   ++ drag_actions (point 10 70) (point 30 90))%list.

(** the actions of [no_document_session] *)
Definition no_document_actions : list action :=
  ([KeyPress true]
   ++ drag_actions (point 10 10) (point 50 50)
   ++ drag_actions (point 90 40) (point 60 20)
   ++ drag_actions (point 10 70) (point 30 90))%list.

(** the row of the side list for the area at position [n] *)
Definition entry_at (n : nat) : list_entry :=
  {| frame_no := Z.of_nat n + 1; remove_arg := Z.of_nat n |}.

(** the area that a drag leaves, in the document's scale *)
Definition unscaled (r : QRectF) (s : float) : QRectF :=
  {| rx := fdiv (rx r) s; ry := fdiv (ry r) s;
     rwidth := fdiv (rwidth r) s; rheight := fdiv (rheight r) s |}.

Definition completion_box : string * string :=
  ("Processing Complete",
   "The files have been processed and saved successfully.").

(** shift is held, a two-page document is open and a press at (10, 10) is
    pending *)
Definition pending_press : gui :=
  or_init
    (g1 <- load_pdf "a.pdf" (OK 2) init ;;
     eventFilter qt_normalized qt_point_bool
       (MouseButtonPress true (point 10 10)) (keyPressEvent true g1)).


(** the rectangles of the solid frames in the scene, in the order they
    were added *)
Fixpoint shown_rects (items : list (Z * scene_item)) : list QRectF :=
  match items with
  | [] => []
  | (_, RectItem r false) :: rest => r :: shown_rects rest
  | _ :: rest => shown_rects rest
  end.

(** * Theorems *)

(** ** Validation *)

Lemma contains_dict (k : string) (d : list (string * json)) :
  contains k (JDict d) = true <-> lookup k d <> None.
Proof.
  unfold contains. destruct (lookup k d); split; intro H;
    congruence || discriminate || reflexivity.
Qed.

Lemma area_shape_check (a : json) :
  area_shape a <->
  negb (isinstance_dict a)
  || negb (forallb (fun k => contains k a) area_keys) = false.
Proof.
  rewrite orb_false_iff, !negb_false_iff, forallb_forall. split.
  - intros (d & -> & Hk). split; [reflexivity|].
    intros k Hin. apply contains_dict, Hk, Hin.
  - intros [Hd Hk]. destruct a; try discriminate Hd.
    exists d. split; [reflexivity|].
    intros k Hin. apply contains_dict, Hk, Hin.
Qed.

Lemma entry_shape_check (p : json) :
  entry_shape p <->
  negb (isinstance_dict p) || negb (contains "page" p)
  || negb (contains "coordinates" p) = false.
Proof.
  rewrite !orb_false_iff, !negb_false_iff. split.
  - intros (d & -> & Hp & Hc). repeat split; try apply contains_dict; auto.
  - intros [[Hd Hp] Hc]. destruct p; try discriminate Hd.
    exists d. repeat split; apply contains_dict; assumption.
Qed.

Lemma check_areas_ok (areas : list json) :
  check_areas areas = OK tt <-> Forall area_shape areas.
Proof.
  induction areas as [|a rest IH]; cbn [check_areas].
  - split; auto.
  - destruct (negb (isinstance_dict a)
              || negb (forallb (fun k => contains k a) area_keys)) eqn:E.
    + split; [discriminate|]. intro H. inversion H as [|? ? Ha _]; subst.
      apply area_shape_check in Ha. congruence.
    + rewrite IH. split.
      * intro H. constructor; [apply area_shape_check; exact E | exact H].
      * intro H. inversion H; assumption.
Qed.

Lemma check_areas_error (areas : list json) (e : exn) :
  check_areas areas = Error e ->
  e = Raise ValueError msg_area_keys
  /\ exists a, In a areas /\ ~ area_shape a.
Proof.
  induction areas as [|a rest IH]; cbn [check_areas]; [discriminate|].
  destruct (negb (isinstance_dict a)
            || negb (forallb (fun k => contains k a) area_keys)) eqn:E.
  - intro H. injection H as <-. split; [reflexivity|].
    exists a. split; [left; reflexivity|].
    intro Ha. apply area_shape_check in Ha. congruence.
  - intro H. destruct (IH H) as (-> & a' & Hin & Hbad).
    split; [reflexivity|]. exists a'. split; [right; exact Hin | exact Hbad].
Qed.

Lemma pages_verdict_cons (p : json) (rest : list json) (r : result unit) :
  page_shape p -> pages_verdict rest r -> pages_verdict (p :: rest) r.
Proof.
  intros Hp H. destruct H.
  - apply verdict_ok. constructor; assumption.
  - eapply verdict_entry; [right|]; eassumption.
  - eapply verdict_coordinates; [right| |]; eassumption.
  - eapply verdict_area; [right| | |]; eassumption.
Qed.

Lemma check_pages_verdict (pages : list json) :
  pages_verdict pages (check_pages pages).
Proof.
  induction pages as [|p rest IH]; cbn [check_pages].
  - apply verdict_ok. constructor.
  - destruct (negb (isinstance_dict p) || negb (contains "page" p)
              || negb (contains "coordinates" p)) eqn:E.
    + apply verdict_entry with p; [left; reflexivity|].
      intro Hp. apply entry_shape_check in Hp. congruence.
    + apply entry_shape_check in E. destruct E as (d & -> & Hpage & Hc).
      simpl. destruct (lookup "coordinates" d) as [c|] eqn:Ec;
        [|congruence]. simpl.
      destruct c; simpl;
        try (eapply verdict_coordinates;
             [left; reflexivity | exact Ec | intros areas; discriminate]).
      destruct (check_areas l) as [[]|e] eqn:Ea; simpl.
      * apply pages_verdict_cons; [|exact IH].
        exists d, l. repeat split; try assumption.
        apply check_areas_ok, Ea.
      * destruct (check_areas_error _ _ Ea) as (-> & a & Hin & Hbad).
        eapply verdict_area; [left; reflexivity | exact Ec | exact Hin
                             | exact Hbad].
Qed.

Lemma validate_ok_iff (raw : json) :
  validate raw = OK tt <-> template_shape raw.
Proof.
  unfold validate, template_shape. split.
  - destruct raw; simpl; try discriminate. intro H.
    exists l. split; [reflexivity|].
    pose proof (check_pages_verdict l) as V. rewrite H in V.
    inversion V. assumption.
  - intros (pages & -> & Hall). simpl.
    induction Hall as [|p rest Hp _ IH]; [reflexivity|].
    destruct Hp as (d & areas & -> & Hpage & Hc & Hareas). simpl.
    destruct (lookup "page" d) eqn:Ep; [|congruence].
    rewrite Hc. simpl.
    apply check_areas_ok in Hareas. rewrite Hareas. simpl. exact IH.
Qed.

Lemma validate_error (raw : json) (e : exn) :
  validate raw = Error e ->
  kind e = ValueError
  /\ ((message e = msg_not_list /\ not_a_sequence raw)
      \/ (message e = msg_page_keys /\ has_bad_entry raw)
      \/ (message e = msg_coordinates_list /\ has_bad_coordinates raw)
      \/ (message e = msg_area_keys /\ has_bad_area raw)).
Proof.
  unfold validate.
  destruct raw; simpl;
    try (intro H; injection H as <-; split; [reflexivity|]; left;
         split; [reflexivity | intros pages; discriminate]).
  intro H. pose proof (check_pages_verdict l) as V. rewrite H in V.
  inversion V; subst; simpl; (split; [reflexivity|]).
  - right; left. split; [reflexivity|]. exists l, p. auto.
  - right; right; left. split; [reflexivity|]. exists l, d, c. auto.
  - right; right; right. split; [reflexivity|]. exists l, d, areas, a. auto.
Qed.

Lemma shape_excludes_violations (raw : json) :
  template_shape raw ->
  ~ (not_a_sequence raw \/ has_bad_entry raw
     \/ has_bad_coordinates raw \/ has_bad_area raw).
Proof.
  intros (pages & -> & Hall) [H | [H | [H | H]]].
  - exact (H pages eq_refl).
  - destruct H as (pages' & p & Heq & Hin & Hbad). injection Heq as <-.
    rewrite Forall_forall in Hall.
    destruct (Hall p Hin) as (d & areas & -> & Hp & Hc & _).
    apply Hbad. exists d. repeat split; congruence.
  - destruct H as (pages' & d & c & Heq & Hin & Hc & Hbad).
    injection Heq as <-. rewrite Forall_forall in Hall.
    destruct (Hall _ Hin) as (d' & areas & Hd & _ & Hc' & _).
    injection Hd as <-. apply (Hbad areas). congruence.
  - destruct H as (pages' & d & areas & a & Heq & Hin & Hc & Ha & Hbad).
    injection Heq as <-. rewrite Forall_forall in Hall.
    destruct (Hall _ Hin) as (d' & areas' & Hd & _ & Hc' & Hareas).
    injection Hd as <-. rewrite Hc in Hc'. injection Hc' as <-.
    rewrite Forall_forall in Hareas. exact (Hbad (Hareas a Ha)).
Qed.

(** ** The loops of the worker *)

Section WorkerFacts.
Variable w : world.

Lemma areas_loop_spec (pg : page w) (areas : list json) :
  forall data data',
    areas_loop w pg areas data = OK data' <->
    exists rows,
      Forall2 (fun area row => extract_area w pg area = OK row) areas rows
      /\ data' = (data ++ rows)%list.
Proof.
  induction areas as [|a rest IH]; intros data data'; cbn [areas_loop].
  - split.
    + intro H. injection H as <-. exists []. split; [constructor|].
      now rewrite app_nil_r.
    + intros (rows & H & ->). inversion H. now rewrite app_nil_r.
  - destruct (extract_area w pg a) as [row|e] eqn:E; cbn [bind].
    + rewrite IH. split.
      * intros (rows & H & ->). exists (row :: rows). split.
        -- constructor; assumption.
        -- now rewrite <- app_assoc.
      * intros (rows & H & ->). inversion H as [|? r ? rows' Hr Hrest];
          subst. exists rows'. split; [assumption|].
        rewrite E in Hr. injection Hr as <-. now rewrite <- app_assoc.
    + split; [discriminate|]. intros (rows & H & _).
      inversion H; subst. congruence.
Qed.

Lemma page_rows_dict (d : doc w) (dict : list (string * json))
  (page_num : json) (areas : list json) (rows : list string) :
  lookup "page" dict = Some page_num ->
  lookup "coordinates" dict = Some (JList areas) ->
  page_rows w d (JDict dict) rows <->
  exists pg,
    getitem w d page_num = OK pg
    /\ Forall2 (fun area row => extract_area w pg area = OK row)
         areas rows.
Proof.
  intros Hp Hc. unfold page_rows. cbn [subscript]. rewrite Hp, Hc. split.
  - intros (pn & ar & pg & Hpn & Har & Hg & Hf).
    injection Hpn as <-. injection Har as <-. eauto.
  - intros (pg & Hg & Hf). exists page_num, areas, pg. auto.
Qed.

Lemma pages_loop_spec (d : doc w) (pages : list json) :
  Forall page_shape pages ->
  forall data data',
    pages_loop w d pages data = OK data' <->
    exists per_page,
      Forall2 (page_rows w d) pages per_page
      /\ data' = (data ++ List.concat per_page)%list.
Proof.
  induction 1 as [|p rest Hp _ IH]; intros data data'; cbn [pages_loop].
  - split.
    + intro H. injection H as <-. exists []. split; [constructor|].
      simpl. now rewrite app_nil_r.
    + intros (pp & H & ->). inversion H. simpl. now rewrite app_nil_r.
  - destruct Hp as (dict & areas & -> & Hpage & Hc & _).
    destruct (lookup "page" dict) as [page_num|] eqn:Ep; [|congruence].
    cbn [subscript]. rewrite Ep, Hc. cbn [bind iterate].
    destruct (getitem w d page_num) as [pg|e] eqn:Eg; cbn [bind].
    + destruct (areas_loop w pg areas data) as [data1|e] eqn:Ea;
        cbn [bind].
      * apply areas_loop_spec in Ea. destruct Ea as (rows & Hrows & ->).
        rewrite IH. split.
        -- intros (pp & H & ->). exists (rows :: pp). split.
           ++ constructor; [|assumption].
              apply (page_rows_dict d dict page_num areas rows Ep Hc).
              eauto.
           ++ simpl. now rewrite app_assoc.
        -- intros (pp & H & ->).
           inversion H as [|? r ? pp' Hr Hrest]; subst.
           exists pp'. split; [assumption|].
           apply (page_rows_dict d dict page_num areas r Ep Hc) in Hr.
           destruct Hr as (pg' & Hg & Hf).
           rewrite Eg in Hg. injection Hg as <-.
           assert (Hok : areas_loop w pg areas data = OK (data ++ r)%list)
             by (apply areas_loop_spec; eauto).
           assert (Hok' : areas_loop w pg areas data
                          = OK (data ++ rows)%list)
             by (apply areas_loop_spec; eauto).
           rewrite Hok in Hok'. injection Hok' as Heq.
           apply app_inv_head in Heq. subst r.
           simpl. now rewrite app_assoc.
      * split; [discriminate|]. intros (pp & H & _).
        inversion H as [|? r ? pp' Hr Hrest]; subst.
        apply (page_rows_dict d dict page_num areas r Ep Hc) in Hr.
        destruct Hr as (pg' & Hg & Hf).
        rewrite Eg in Hg. injection Hg as <-.
        assert (Hok : areas_loop w pg areas data = OK (data ++ r)%list)
          by (apply areas_loop_spec; eauto).
        congruence.
    + split; [discriminate|]. intros (pp & H & _).
      inversion H as [|? r ? pp' Hr Hrest]; subst.
      apply (page_rows_dict d dict page_num areas r Ep Hc) in Hr.
      destruct Hr as (pg' & Hg & Hf). congruence.
Qed.

Lemma one_document_spec (pages : list json) (pdf_path : string) :
  Forall page_shape pages ->
  forall data data',
    one_document w (JList pages) pdf_path data = OK data' <->
    exists rows,
      document_rows w pages pdf_path rows
      /\ data' = (data ++ rows ++ [""])%list.
Proof.
  intros Hshape data data'. unfold one_document, document_rows.
  destruct (Document w pdf_path) as [d|e] eqn:Ed; cbn [bind iterate].
  - destruct (pages_loop w d pages data) as [data1|e] eqn:Ep; cbn [bind].
    + apply (pages_loop_spec d pages Hshape) in Ep.
      destruct Ep as (pp & Hpp & ->). split.
      * intro H. injection H as <-. exists (List.concat pp). split.
        -- exists d, pp. auto.
        -- now rewrite <- app_assoc.
      * intros (rows & (d' & pp' & Hd & Hpp' & ->) & ->).
        injection Hd as <-.
        assert (Hok : pages_loop w d pages data
                      = OK (data ++ List.concat pp')%list)
          by (apply pages_loop_spec; eauto).
        assert (Hok' : pages_loop w d pages data
                       = OK (data ++ List.concat pp)%list)
          by (apply pages_loop_spec; eauto).
        rewrite Hok in Hok'. injection Hok' as Heq.
        rewrite <- Heq, <- app_assoc. reflexivity.
    + split; [discriminate|].
      intros (rows & (d' & pp' & Hd & Hpp' & ->) & _).
      injection Hd as <-.
      assert (Hok : pages_loop w d pages data
                    = OK (data ++ List.concat pp')%list)
        by (apply pages_loop_spec; eauto).
      congruence.
  - split; [discriminate|].
    intros (rows & (d' & pp' & Hd & _) & _). discriminate.
Qed.

(** The loop over the documents either completes, with one progress signal
    per document, or stops at the first document that raises, after the
    signals of the documents before it. *)
Lemma docs_loop_cases (template : json) (n : Z) (paths : list string) :
  forall idx data,
    (exists data',
       docs_loop w template n idx paths data
       = (progress_events n idx (List.length paths), OK data'))
    \/ (exists k e,
          (k < List.length paths)%nat
          /\ docs_loop w template n idx paths data
             = (progress_events n idx k, Error e)).
Proof.
  induction paths as [|p rest IH]; intros idx data; cbn [docs_loop].
  - left. exists data. reflexivity.
  - destruct (one_document w template p data) as [data1|e] eqn:E.
    + destruct (IH (idx + 1) data1) as [(data' & H) | (k & e & Hk & H)];
        rewrite H.
      * left. exists data'. reflexivity.
      * right. exists (S k), e. split; [simpl; lia | reflexivity].
    + right. exists O, e. split; [simpl; lia | reflexivity].
Qed.

Lemma docs_loop_ok (pages : list json) (n : Z) (paths : list string) :
  Forall page_shape pages ->
  forall idx data evs data',
    docs_loop w (JList pages) n idx paths data = (evs, OK data') <->
    evs = progress_events n idx (List.length paths)
    /\ exists per_document,
         Forall2 (document_rows w pages) paths per_document
         /\ data'
            = (data ++ List.concat
                         (map (fun r => r ++ [""]) per_document))%list.
Proof.
  intro Hshape.
  induction paths as [|p rest IH]; intros idx data evs data';
    cbn [docs_loop].
  - split.
    + intro H. injection H as <- <-. split; [reflexivity|].
      exists []. split; [constructor|]. simpl. now rewrite app_nil_r.
    + intros (-> & pd & H & ->). inversion H. simpl.
      now rewrite app_nil_r.
  - destruct (one_document w (JList pages) p data) as [data1|e] eqn:E.
    + apply (one_document_spec pages p Hshape) in E.
      destruct E as (rows & Hrows & ->).
      destruct (docs_loop w (JList pages) n (idx + 1) rest
                  (data ++ rows ++ [""])%list) as [evs1 r1] eqn:El.
      split.
      * intro H. injection H as <- ->.
        apply IH in El. destruct El as (-> & pd & Hpd & ->).
        split; [reflexivity|]. exists (rows :: pd). split.
        -- constructor; assumption.
        -- simpl. now rewrite <- !app_assoc.
      * intros (-> & pd & H & ->).
        inversion H as [|? r ? pd' Hr Hrest]; subst.
        assert (Hsame : one_document w (JList pages) p data
                        = OK (data ++ r ++ [""])%list)
          by (apply one_document_spec; eauto).
        assert (Hsame' : one_document w (JList pages) p data
                         = OK (data ++ rows ++ [""])%list)
          by (apply one_document_spec; eauto).
        rewrite Hsame in Hsame'. injection Hsame' as Heq.
        apply app_inv_head in Heq. apply app_inv_tail in Heq. subst r.
        assert (Hl : docs_loop w (JList pages) n (idx + 1) rest
                       (data ++ rows ++ [""])%list
                     = (progress_events n (idx + 1) (List.length rest),
                        OK ((data ++ rows ++ [""])
                            ++ List.concat
                                 (map (fun r => r ++ [""]) pd'))%list))
          by (apply IH; eauto).
        rewrite El in Hl. injection Hl as -> ->.
        simpl. now rewrite <- !app_assoc.
    + split; [discriminate|]. intros (_ & pd & H & _).
      inversion H as [|? r ? pd' Hr Hrest]; subst.
      assert (Hsame : one_document w (JList pages) p data
                      = OK (data ++ r ++ [""])%list)
        by (apply one_document_spec; eauto).
      congruence.
Qed.

End WorkerFacts.

(** ** Traces of a run *)

Lemma saved_of_app (a b : list event) :
  saved_of (a ++ b) = (saved_of a ++ saved_of b)%list.
Proof.
  induction a as [|ev a IH]; [reflexivity|].
  destruct ev; simpl; rewrite IH; reflexivity.
Qed.

Lemma progress_of_app (a b : list event) :
  progress_of (a ++ b) = (progress_of a ++ progress_of b)%list.
Proof.
  induction a as [|ev a IH]; [reflexivity|].
  destruct ev; simpl; rewrite IH; reflexivity.
Qed.

Lemma printed_of_app (a b : list event) :
  printed_of (a ++ b) = (printed_of a ++ printed_of b)%list.
Proof.
  induction a as [|ev a IH]; [reflexivity|].
  destruct ev; simpl; rewrite IH; reflexivity.
Qed.

Lemma saved_of_progress_events (n idx : Z) (k : nat) :
  saved_of (progress_events n idx k) = [].
Proof.
  unfold progress_events. revert idx.
  induction k as [|k IH]; intro idx; simpl; auto.
Qed.

Lemma printed_of_progress_events (n idx : Z) (k : nat) :
  printed_of (progress_events n idx k) = [].
Proof.
  unfold progress_events. revert idx.
  induction k as [|k IH]; intro idx; simpl; auto.
Qed.

Lemma progress_of_progress_events (n idx : Z) (k : nat) :
  progress_of (progress_events n idx k)
  = map (fun i => progress_percent i n) (indices idx k).
Proof.
  unfold progress_events. revert idx.
  induction k as [|k IH]; intro idx; simpl; [|rewrite IH]; reflexivity.
Qed.

Section RunFacts.
Variable w : world.
Variables (template_path : string) (pdf_paths : list string)
          (output_path : string).

(** A run either writes the sheet after every document has reported
    progress, or stops with an exception after the progress of the
    documents completed so far. *)
Lemma run_try_cases :
  (exists rows,
     run_try w template_path pdf_paths output_path
     = ((progress_events (Z.of_nat (List.length pdf_paths)) 0
           (List.length pdf_paths)
         ++ [Saved output_path rows])%list, OK tt))
  \/ (exists k e,
        (k <= List.length pdf_paths)%nat
        /\ run_try w template_path pdf_paths output_path
           = (progress_events (Z.of_nat (List.length pdf_paths)) 0 k, Error e)).
Proof.
  unfold run_try.
  destruct (load_json w template_path) as [template|e].
  2:{ right. exists O, e. split; [lia | reflexivity]. }
  destruct (validate template) as [u|e].
  2:{ right. exists O, e. split; [lia | reflexivity]. }
  destruct (docs_loop_cases w template (Z.of_nat (List.length pdf_paths))
              pdf_paths 0 [])
    as [(data & H) | (k & e & Hk & H)]; rewrite H.
  - destruct (to_excel w data output_path) as [u'|e].
    + left. exists data. reflexivity.
    + right. exists (List.length pdf_paths), e.
      split; [lia | reflexivity].
  - right. exists k, e. split; [lia | reflexivity].
Qed.

Lemma run_of_error (k : nat) (e : exn) :
  run_try w template_path pdf_paths output_path
  = (progress_events (Z.of_nat (List.length pdf_paths)) 0 k, Error e) ->
  run w template_path pdf_paths output_path
  = (progress_events (Z.of_nat (List.length pdf_paths)) 0 k
     ++ [Print ("Error: " ++ message e); Finished])%list.
Proof. unfold run. intros ->. reflexivity. Qed.

Lemma run_of_success (rows : list string) :
  run_try w template_path pdf_paths output_path
  = ((progress_events (Z.of_nat (List.length pdf_paths)) 0
        (List.length pdf_paths)
      ++ [Saved output_path rows])%list, OK tt) ->
  run w template_path pdf_paths output_path
  = (progress_events (Z.of_nat (List.length pdf_paths)) 0
       (List.length pdf_paths)
     ++ [Saved output_path rows; Finished])%list.
Proof.
  unfold run. intros ->. cbn [app]. rewrite <- app_assoc. reflexivity.
Qed.

(** The sheet is written exactly when the try block returns. *)
Lemma saved_iff_returned (rows : list string) :
  saved_of (run w template_path pdf_paths output_path)
  = [(output_path, rows)] <->
  exists evs,
    run_try w template_path pdf_paths output_path
    = ((evs ++ [Saved output_path rows])%list, OK tt).
Proof.
  destruct run_try_cases as [(rows' & H) | (k & e & Hk & H)].
  - rewrite (run_of_success _ H), saved_of_app, saved_of_progress_events.
    simpl. split.
    + intro Heq. injection Heq as <-. eauto.
    + intros (evs & Heq). rewrite H in Heq. injection Heq as Heq.
      apply app_inj_tail in Heq. destruct Heq as [_ Heq].
      injection Heq as <-. reflexivity.
  - rewrite (run_of_error _ _ H), saved_of_app, saved_of_progress_events.
    simpl. split; [discriminate|].
    intros (evs & Heq). rewrite H in Heq. discriminate.
Qed.

(** With a validated template, the sheet holds the rows in document, page
    and area order. *)
Lemma saved_rows (pages : list json) (rows : list string) :
  load_json w template_path = OK (JList pages) ->
  validate (JList pages) = OK tt ->
  saved_of (run w template_path pdf_paths output_path)
  = [(output_path, rows)] <->
  sheet_rows w pages pdf_paths rows
  /\ to_excel w rows output_path = OK tt.
Proof.
  intros Hload Hvalid.
  assert (Hshape : Forall page_shape pages).
  { apply validate_ok_iff in Hvalid.
    destruct Hvalid as (pages' & Heq & H). now injection Heq as <-. }
  rewrite saved_iff_returned. unfold run_try. rewrite Hload, Hvalid.
  destruct (docs_loop w (JList pages) (Z.of_nat (List.length pdf_paths)) 0
              pdf_paths [])
    as [evs r] eqn:El.
  unfold sheet_rows. destruct r as [data|e].
  - apply (docs_loop_ok w pages (Z.of_nat (List.length pdf_paths))
             pdf_paths Hshape) in El.
    destruct El as (-> & pd & Hpd & ->). cbn [app]. split.
    + intros (evs & H).
      destruct (to_excel w (List.concat (map (fun r => (r ++ [""])%list) pd))
                  output_path) eqn:Ex; [|discriminate].
      injection H as H. apply app_inj_tail in H. destruct H as [_ H].
      injection H as <-. split; [eauto|]. rewrite Ex. now destruct a.
    + intros ((pd' & Hpd' & ->) & Hx).
      assert (Hl : docs_loop w (JList pages)
                     (Z.of_nat (List.length pdf_paths)) 0 pdf_paths []
                   = (progress_events (Z.of_nat (List.length pdf_paths)) 0
                        (List.length pdf_paths),
                      OK ([] ++ List.concat
                                  (map (fun r => r ++ [""]) pd'))%list))
        by (apply docs_loop_ok; eauto).
      assert (Hl' : docs_loop w (JList pages)
                     (Z.of_nat (List.length pdf_paths)) 0 pdf_paths []
                   = (progress_events (Z.of_nat (List.length pdf_paths)) 0
                        (List.length pdf_paths),
                       OK ([] ++ List.concat
                                   (map (fun r => r ++ [""]) pd))%list))
        by (apply docs_loop_ok; eauto).
      rewrite Hl in Hl'. injection Hl' as Heq. cbn [app] in Heq.
      rewrite <- Heq, Hx. eauto.
  - split.
    + intros (evs' & H). discriminate.
    + intros ((pd & Hpd & ->) & _).
      assert (Hl : docs_loop w (JList pages)
                     (Z.of_nat (List.length pdf_paths)) 0 pdf_paths []
                   = (progress_events (Z.of_nat (List.length pdf_paths)) 0
                        (List.length pdf_paths),
                      OK ([] ++ List.concat
                                  (map (fun r => r ++ [""]) pd))%list))
        by (apply docs_loop_ok; eauto).
      rewrite El in Hl. discriminate.
Qed.

End RunFacts.

(** ** The worker: errors, the sheet and its order *)

Lemma Forall2_pick {A B : Type} (R : A -> B -> Prop) (l : list A)
  (l' : list B) (a : A) :
  Forall2 R l l' -> In a l -> exists b, R a b.
Proof.
  induction 1 as [|x y l l' Hxy _ IH]; simpl; [contradiction|].
  intros [<- | Hin]; eauto.
Qed.

(** The exception of an area, of a page entry or of a document does not
    depend on the rows collected before it. *)
Section FirstFailure.
Variable w : world.

Lemma areas_loop_error (pg : page w) (areas : list json) :
  forall data e,
    areas_loop w pg areas data = Error e ->
    forall data', areas_loop w pg areas data' = Error e.
Proof.
  induction areas as [|a rest IH]; intros data e H data';
    cbn [areas_loop] in *; [discriminate|].
  destruct (extract_area w pg a) as [row|e0]; cbn [bind] in *.
  - exact (IH _ _ H _).
  - exact H.
Qed.

Lemma areas_loop_returns (pg : page w) (areas : list json) :
  forall data data1,
    areas_loop w pg areas data = OK data1 ->
    forall data', exists data1', areas_loop w pg areas data' = OK data1'.
Proof.
  intros data data1 H data'. apply areas_loop_spec in H.
  destruct H as (rows & Hrows & _). exists (data' ++ rows)%list.
  apply areas_loop_spec. eauto.
Qed.

Lemma pages_loop_error (d : doc w) (pages : list json) :
  forall data e,
    pages_loop w d pages data = Error e ->
    forall data', pages_loop w d pages data' = Error e.
Proof.
  induction pages as [|p rest IH]; intros data e H data';
    cbn [pages_loop] in *; [discriminate|].
  destruct (subscript p "page") as [page_num|e0]; cbn [bind] in *;
    [|exact H].
  destruct (subscript p "coordinates") as [coordinates|e0]; cbn [bind] in *;
    [|exact H].
  destruct (getitem w d page_num) as [pg|e0]; cbn [bind] in *; [|exact H].
  destruct (iterate coordinates) as [areas|e0]; cbn [bind] in *; [|exact H].
  destruct (areas_loop w pg areas data) as [data1|e0] eqn:Ea;
    cbn [bind] in H.
  - destruct (areas_loop_returns pg areas data data1 Ea data')
      as (data1' & ->).
    cbn [bind]. exact (IH _ _ H _).
  - rewrite (areas_loop_error pg areas data e0 Ea data'). exact H.
Qed.

Lemma one_document_error (template : json) (pdf_path : string) :
  forall data e,
    one_document w template pdf_path data = Error e ->
    forall data', one_document w template pdf_path data' = Error e.
Proof.
  intros data e H data'. unfold one_document in *.
  destruct (Document w pdf_path) as [d|e0]; cbn [bind] in *; [|exact H].
  destruct (iterate template) as [pages|e0]; cbn [bind] in *; [|exact H].
  destruct (pages_loop w d pages data) as [data1|e0] eqn:Ep;
    cbn [bind] in H; [discriminate|].
  rewrite (pages_loop_error d pages data e0 Ep data'). exact H.
Qed.

(** When the loop over the documents raises, it is at the first document
    that raises, after the progress of exactly the documents before it. *)
Lemma docs_loop_error_position (pages : list json) (n : Z)
  (paths : list string) :
  Forall page_shape pages ->
  forall idx data evs e,
    docs_loop w (JList pages) n idx paths data = (evs, Error e) ->
    exists before pdf_path after,
      paths = (before ++ pdf_path :: after)%list
      /\ Forall (fun q => exists rows, document_rows w pages q rows) before
      /\ (forall data', one_document w (JList pages) pdf_path data' = Error e)
      /\ evs = progress_events n idx (List.length before).
Proof.
  intro Hshape.
  induction paths as [|p rest IH]; intros idx data evs e H;
    cbn [docs_loop] in H; [discriminate|].
  destruct (one_document w (JList pages) p data) as [data1|e0] eqn:E.
  - destruct (docs_loop w (JList pages) n (idx + 1) rest data1)
      as [evs1 r1] eqn:El.
    injection H as <- ->.
    destruct (IH _ _ _ _ El) as (before & q & after & -> & Hb & Hq & ->).
    exists (p :: before), q, after. split; [reflexivity|].
    split; [|split; [exact Hq | reflexivity]].
    constructor; [|exact Hb].
    apply (one_document_spec w pages p Hshape) in E.
    destruct E as (rows & Hrows & _). eauto.
  - injection H as <- <-. exists [], p, rest.
    split; [reflexivity|]. split; [constructor|].
    split; [|reflexivity].
    intro data'. exact (one_document_error _ _ _ _ E data').
Qed.

End FirstFailure.

(** C1 (as the code has it): when anything raises during a run, the run
    stops at that point.  The progress signals of the documents completed
    before it are followed by the console line [Error: <message>] and by
    [finished]; the exception does not leave [run], and no sheet is recorded.
    The number of progress signals says where the run stopped: none when the
    template could not be read or failed validation; those of the documents
    before the first one that raises, however many documents follow it; all
    of them only when every document was extracted and it is the write that
    raises. *)
Theorem run_prints_error_and_stops (w : world) (template_path : string)
  (pdf_paths : list string) (output_path : string) (e : exn) :
  snd (run_try w template_path pdf_paths output_path) = Error e ->
  exists k,
    run w template_path pdf_paths output_path
    = (progress_events (Z.of_nat (List.length pdf_paths)) 0 k
       ++ [Print ("Error: " ++ message e); Finished])%list
    /\ saved_of (run w template_path pdf_paths output_path) = []
    /\ ((k = O
         /\ (load_json w template_path = Error e
             \/ exists template,
                  load_json w template_path = OK template
                  /\ validate template = Error e))
        \/ (exists pages before pdf_path after,
              load_json w template_path = OK (JList pages)
              /\ validate (JList pages) = OK tt
              /\ pdf_paths = (before ++ pdf_path :: after)%list
              /\ k = List.length before
              /\ Forall (fun q => exists rows, document_rows w pages q rows)
                   before
              /\ forall data,
                   one_document w (JList pages) pdf_path data = Error e)
        \/ (exists pages rows,
              load_json w template_path = OK (JList pages)
              /\ validate (JList pages) = OK tt
              /\ k = List.length pdf_paths
              /\ sheet_rows w pages pdf_paths rows
              /\ to_excel w rows output_path = Error e)).
Proof.
  intro H.
  assert (Hstop : forall k,
            run_try w template_path pdf_paths output_path
            = (progress_events (Z.of_nat (List.length pdf_paths)) 0 k,
               Error e) ->
            run w template_path pdf_paths output_path
            = (progress_events (Z.of_nat (List.length pdf_paths)) 0 k
               ++ [Print ("Error: " ++ message e); Finished])%list
            /\ saved_of (run w template_path pdf_paths output_path) = []).
  { intros k Hr. pose proof (run_of_error _ _ _ _ _ _ Hr) as Hrun.
    split; [exact Hrun|].
    rewrite Hrun, saved_of_app, saved_of_progress_events. reflexivity. }
  unfold run_try in H, Hstop.
  destruct (load_json w template_path) as [template|e0] eqn:Hload.
  2:{ cbn [snd] in H. injection H as ->. exists O.
      destruct (Hstop O eq_refl) as [Hrun Hsaved].
      split; [exact Hrun|]. split; [exact Hsaved|]. left. auto. }
  destruct (validate template) as [[]|e0] eqn:Hvalid.
  2:{ cbn [snd] in H. injection H as ->. exists O.
      destruct (Hstop O eq_refl) as [Hrun Hsaved].
      split; [exact Hrun|]. split; [exact Hsaved|]. left.
      split; [reflexivity|]. right. exists template. auto. }
  assert (Hshape : exists pages,
            template = JList pages /\ Forall page_shape pages)
    by (apply validate_ok_iff; exact Hvalid).
  destruct Hshape as (pages & -> & Hshape).
  destruct (docs_loop w (JList pages) (Z.of_nat (List.length pdf_paths)) 0
              pdf_paths []) as [evs r] eqn:El.
  destruct r as [data|e0].
  - pose proof El as Hok.
    apply (docs_loop_ok w pages _ pdf_paths Hshape) in Hok.
    destruct Hok as (-> & per_document & Hrows & Hdata).
    cbn [app] in Hdata.
    destruct (to_excel w data output_path) as [u|e0] eqn:Hx;
      cbn [snd] in H; [discriminate|].
    injection H as ->. exists (List.length pdf_paths).
    destruct (Hstop _ eq_refl) as [Hrun Hsaved].
    split; [exact Hrun|]. split; [exact Hsaved|]. right. right.
    exists pages, data. repeat split; try assumption.
    exists per_document. auto.
  - cbn [snd] in H. injection H as ->.
    destruct (docs_loop_error_position w pages _ pdf_paths Hshape _ _ _ _ El)
      as (before & pdf_path & after & Hpaths & Hbefore & Hfail & ->).
    exists (List.length before).
    destruct (Hstop _ eq_refl) as [Hrun Hsaved].
    split; [exact Hrun|]. split; [exact Hsaved|]. right. left.
    exists pages, before, pdf_path, after. repeat split; assumption.
Qed.

(** C2: if some page index of the template does not resolve on some
    document of the batch, nothing is written, whatever was extracted from
    the documents before it: the run ends with the printed error. *)
Theorem page_index_failure_writes_nothing (w : world)
  (template_path : string) (pdf_paths : list string) (output_path : string)
  (pages : list json) (pdf_path : string) (d : doc w)
  (page_template page_num : json) (e : exn) :
  load_json w template_path = OK (JList pages) ->
  In pdf_path pdf_paths ->
  Document w pdf_path = OK d ->
  In page_template pages ->
  subscript page_template "page" = OK page_num ->
  getitem w d page_num = Error e ->
  saved_of (run w template_path pdf_paths output_path) = []
  /\ exists k e',
       (k < List.length pdf_paths)%nat
       /\ run w template_path pdf_paths output_path
          = (progress_events (Z.of_nat (List.length pdf_paths)) 0 k
             ++ [Print ("Error: " ++ message e'); Finished])%list.
Proof.
  intros Hload Hpath Hdoc Hpt Hnum Hget.
  assert (Hfail : exists k e',
             (k < List.length pdf_paths)%nat
             /\ run_try w template_path pdf_paths output_path
                = (progress_events (Z.of_nat (List.length pdf_paths)) 0 k,
                   Error e')).
  { unfold run_try. rewrite Hload.
    destruct (validate (JList pages)) as [[]|ev] eqn:Hv.
    2:{ exists O, ev. split; [|reflexivity].
        destruct pdf_paths; [contradiction | simpl; lia]. }
    assert (Hshape : Forall page_shape pages).
    { apply validate_ok_iff in Hv.
      destruct Hv as (pages' & Heq & H). now injection Heq as <-. }
    destruct (docs_loop_cases w (JList pages)
                (Z.of_nat (List.length pdf_paths)) pdf_paths 0 [])
      as [(data & H) | (k & e' & Hk & H)]; rewrite H.
    - exfalso.
      apply (docs_loop_ok w pages _ pdf_paths Hshape) in H.
      destruct H as (_ & pd & Hpd & _).
      destruct (Forall2_pick _ _ _ pdf_path Hpd Hpath)
        as (rows & (d' & pp & Hd & Hpp & _)).
      rewrite Hdoc in Hd. injection Hd as <-.
      destruct (Forall2_pick _ _ _ page_template Hpp Hpt)
        as (r & (pn & areas & pg & Hpn & _ & Hg & _)).
      congruence.
    - exists k, e'. split; [exact Hk | reflexivity]. }
  destruct Hfail as (k & e' & Hk & Hr).
  pose proof (run_of_error _ _ _ _ _ _ Hr) as Hrun.
  split.
  - rewrite Hrun, saved_of_app, saved_of_progress_events. reflexivity.
  - exists k, e'. split; [exact Hk | exact Hrun].
Qed.

(** C3: a raw template that is not a sequence, or has an entry that is not
    a mapping with both keys, or has coordinates that are not a sequence, or
    has an area that is not a mapping with the four keys, fails validation
    with a [ValueError]; its message is one of four different messages and
    names a rule that the value does break; and the run then consists of the
    printed error alone, whatever the documents are. *)
Theorem malformed_template_fails_before_extraction (raw : json) :
  not_a_sequence raw \/ has_bad_entry raw
  \/ has_bad_coordinates raw \/ has_bad_area raw ->
  exists msg,
    validate raw = Error (Raise ValueError msg)
    /\ ((msg = msg_not_list /\ not_a_sequence raw)
        \/ (msg = msg_page_keys /\ has_bad_entry raw)
        \/ (msg = msg_coordinates_list /\ has_bad_coordinates raw)
        \/ (msg = msg_area_keys /\ has_bad_area raw))
    /\ NoDup [msg_not_list; msg_page_keys; msg_coordinates_list;
              msg_area_keys]
    /\ forall (w : world) template_path pdf_paths output_path,
         load_json w template_path = OK raw ->
         run w template_path pdf_paths output_path
         = [Print ("Error: " ++ msg); Finished].
Proof.
  intro Hbad.
  destruct (validate raw) as [[]|e] eqn:Hv.
  - apply validate_ok_iff in Hv.
    exfalso. exact (shape_excludes_violations raw Hv Hbad).
  - destruct (validate_error raw e Hv) as (Hkind & Hmsg).
    destruct e as [k msg]. simpl in Hkind, Hmsg. subst k.
    exists msg. split; [reflexivity|]. split; [exact Hmsg|]. split.
    + repeat constructor; simpl; intuition discriminate.
    + intros w template_path pdf_paths output_path Hload.
      unfold run, run_try. rewrite Hload, Hv. reflexivity.
Qed.

(** C4: with a validated template, the sheet that a run writes holds the
    rows document by document, within a document page entry by page entry,
    within an entry area by area, with one blank row after each document; two
    documents under a template of one entry with two areas give six rows. *)
Theorem rows_in_document_page_area_order (w : world)
  (template_path : string) (pdf_paths : list string) (output_path : string)
  (pages : list json) :
  load_json w template_path = OK (JList pages) ->
  validate (JList pages) = OK tt ->
  (forall rows,
     saved_of (run w template_path pdf_paths output_path)
     = [(output_path, rows)] <->
     sheet_rows w pages pdf_paths rows
     /\ to_excel w rows output_path = OK tt)
  /\ (forall p1 p2 entry page_num a1 a2 d1 d2 g1 g2 r11 r12 r21 r22,
        pdf_paths = [p1; p2] -> pages = [entry] ->
        subscript entry "page" = OK page_num ->
        subscript entry "coordinates" = OK (JList [a1; a2]) ->
        Document w p1 = OK d1 -> getitem w d1 page_num = OK g1 ->
        extract_area w g1 a1 = OK r11 -> extract_area w g1 a2 = OK r12 ->
        Document w p2 = OK d2 -> getitem w d2 page_num = OK g2 ->
        extract_area w g2 a1 = OK r21 -> extract_area w g2 a2 = OK r22 ->
        to_excel w [r11; r12; ""; r21; r22; ""] output_path = OK tt ->
        saved_of (run w template_path pdf_paths output_path)
        = [(output_path, [r11; r12; ""; r21; r22; ""])]).
Proof.
  intros Hload Hvalid. split.
  - intro rows. apply saved_rows; assumption.
  - intros p1 p2 entry page_num a1 a2 d1 d2 g1 g2 r11 r12 r21 r22
      -> -> Hpn Hc Hd1 Hg1 H11 H12 Hd2 Hg2 H21 H22 Hx.
    apply (saved_rows w template_path [p1; p2] output_path [entry]
             [r11; r12; ""; r21; r22; ""] Hload Hvalid).
    split; [|exact Hx].
    exists [[r11; r12]; [r21; r22]]. split; [|reflexivity].
    constructor; [|constructor; [|constructor]].
    + exists d1, [[r11; r12]]. split; [exact Hd1|]. split; [|reflexivity].
      constructor; [|constructor].
      exists page_num, [a1; a2], g1. repeat split; try assumption.
      repeat constructor; assumption.
    + exists d2, [[r21; r22]]. split; [exact Hd2|]. split; [|reflexivity].
      constructor; [|constructor].
      exists page_num, [a1; a2], g2. repeat split; try assumption.
      repeat constructor; assumption.
Qed.

(** C9: validation looks at container shapes and key presence only: a list
    of mappings with [page] and [coordinates], the latter a list of mappings
    with [x], [y], [width] and [height], is accepted whatever the values
    stored under those keys are.  With such a template nothing is raised
    before the documents: a run over no document writes the empty sheet, and
    the first document is opened before any value of the template is
    used. *)
Theorem validation_checks_shape_only (raw : json) :
  template_shape raw ->
  validate raw = OK tt
  /\ (forall (w : world) template_path output_path,
        load_json w template_path = OK raw ->
        to_excel w [] output_path = OK tt ->
        run w template_path [] output_path
        = [Saved output_path []; Finished])
  /\ (forall (w : world) template_path pdf_path rest output_path e,
        load_json w template_path = OK raw ->
        Document w pdf_path = Error e ->
        run w template_path (pdf_path :: rest) output_path
        = [Print ("Error: " ++ message e); Finished]).
Proof.
  intro Hshape. apply validate_ok_iff in Hshape.
  split; [exact Hshape|]. split.
  - intros w template_path output_path Hload Hx.
    unfold run, run_try. rewrite Hload, Hshape. cbn [docs_loop].
    rewrite Hx. reflexivity.
  - intros w template_path pdf_path rest output_path e Hload Hdoc.
    unfold run, run_try. rewrite Hload, Hshape.
    cbn [docs_loop]. unfold one_document. rewrite Hdoc. reflexivity.
Qed.

(** ** The editor *)

Lemma text_numbers_app (a b : list (Z * scene_item)) :
  text_numbers (a ++ b) = (text_numbers a ++ text_numbers b)%list.
Proof.
  induction a as [|[id it] a IH]; [reflexivity|].
  destruct it; simpl; rewrite IH; reflexivity.
Qed.

Lemma shown_pages_app (a b : list (Z * scene_item)) :
  shown_pages (a ++ b) = (shown_pages a ++ shown_pages b)%list.
Proof.
  induction a as [|[id it] a IH]; [reflexivity|].
  destruct it; simpl; rewrite IH; reflexivity.
Qed.

(** What drawing the frame of one area changes. *)
Lemma add_frame_fields (shown : QRectF) (index : Z) (g : gui) :
  let g' := add_frame shown index g in
  selected_areas g' = selected_areas g
  /\ pdf_document g' = pdf_document g
  /\ current_page_index g' = current_page_index g
  /\ scale_factor g' = scale_factor g
  /\ rect_list g'
     = (rect_list g ++ [{| frame_no := index + 1; remove_arg := index |}])%list
  /\ List.length (rect_items g') = S (List.length (rect_items g))
  /\ text_numbers (scene g')
     = (text_numbers (scene g) ++ [index + 1])%list
  /\ shown_pages (scene g') = shown_pages (scene g).
Proof.
  unfold add_frame, add_item. cbn.
  repeat split.
  - rewrite length_app. simpl. lia.
  - rewrite !text_numbers_app. simpl. now rewrite app_nil_r.
  - rewrite !shown_pages_app. simpl. now rewrite !app_nil_r.
Qed.

Lemma labels_cons (idx : Z) (n : nat) :
  labels idx (S n)
  = {| frame_no := idx + 1; remove_arg := idx |} :: labels (idx + 1) n.
Proof. reflexivity. Qed.

(** What redrawing all the areas changes. *)
Lemma reapply_fields (areas : list QRectF) :
  forall (index : Z) (g : gui),
    let g' := reapply areas index g in
    selected_areas g' = selected_areas g
    /\ pdf_document g' = pdf_document g
    /\ current_page_index g' = current_page_index g
    /\ scale_factor g' = scale_factor g
    /\ rect_list g'
       = (rect_list g ++ labels index (List.length areas))%list
    /\ List.length (rect_items g')
       = (List.length (rect_items g) + List.length areas)%nat
    /\ text_numbers (scene g')
       = (text_numbers (scene g)
          ++ map (fun i => i + 1) (indices index (List.length areas)))%list
    /\ shown_pages (scene g') = shown_pages (scene g).
Proof.
  induction areas as [|r rest IH]; intros index g; cbn [reapply].
  - cbn. rewrite !app_nil_r. repeat split; lia.
  - destruct (IH (index + 1) (add_frame (scaled r (scale_factor g)) index g))
      as (Ha & Hd & Hi & Hs & Hl & Hr & Ht & Hp).
    destruct (add_frame_fields (scaled r (scale_factor g)) index g)
      as (Ha' & Hd' & Hi' & Hs' & Hl' & Hr' & Ht' & Hp').
    cbn zeta. rewrite Ha, Hd, Hi, Hs, Hl, Hr, Ht, Hp.
    rewrite Ha', Hd', Hi', Hs', Hl', Hr', Ht', Hp'.
    cbn [List.length indices map]. rewrite labels_cons.
    rewrite <- !app_assoc. repeat split. simpl. lia.
Qed.

(** [show_page] with a document whose current page exists: everything is
    drawn again from [selected_areas], numbered by position. *)
Lemma show_page_redraws (g : gui) (n : Z) :
  pdf_document g = Some n -> n <> 0 -> current_page_index g < n ->
  exists g',
    show_page g = OK g'
    /\ selected_areas g' = selected_areas g
    /\ pdf_document g' = pdf_document g
    /\ current_page_index g' = current_page_index g
    /\ rect_list g' = labels 0 (List.length (selected_areas g))
    /\ List.length (rect_items g') = List.length (selected_areas g)
    /\ text_numbers (scene g')
       = map (fun i => i + 1) (indices 0 (List.length (selected_areas g)))
    /\ shown_pages (scene g') = [current_page_index g].
Proof.
  intros Hdoc Hn Hidx. unfold show_page, no_document. rewrite Hdoc.
  apply Z.eqb_neq in Hn. rewrite Hn. cbn. rewrite Hdoc.
  apply Z.ltb_lt in Hidx. rewrite Hidx.
  eexists. split; [reflexivity|].
  match goal with
  | |- context [reapply ?a ?i ?s] =>
      destruct (reapply_fields a i s) as (Ha & Hd & Hi & Hs & Hl & Hr & Ht & Hp)
  end.
  cbn zeta in *. rewrite Ha, Hd, Hi, Hl, Hr, Ht, Hp. cbn.
  repeat split; auto.
Qed.

(** [show_page] never changes the areas, the document or the page index. *)
Lemma show_page_keeps (g g' : gui) :
  show_page g = OK g' ->
  selected_areas g' = selected_areas g
  /\ pdf_document g' = pdf_document g
  /\ current_page_index g' = current_page_index g.
Proof.
  unfold show_page. destruct (no_document g) eqn:Hno.
  - intro H. injection H as <-. auto.
  - unfold no_document in Hno. cbn.
    destruct (pdf_document g) as [n|] eqn:Hdoc; [|discriminate].
    destruct (current_page_index g <? n) eqn:Hidx; [|discriminate].
    intro H. injection H as <-.
    match goal with
    | |- context [reapply ?a ?i ?s] =>
        destruct (reapply_fields a i s) as (Ha & Hd & Hi & _)
    end.
    cbn zeta in *. rewrite Ha, Hd, Hi. cbn. auto.
Qed.

Lemma delete_length {A : Type} (l : list A) :
  forall i, (i < List.length l)%nat ->
            List.length (delete i l) = pred (List.length l).
Proof.
  induction l as [|a l IH]; intros i Hi; simpl in *; [lia|].
  destruct i; [reflexivity|]. simpl. rewrite IH by lia. lia.
Qed.

Lemma delete_before {A : Type} (l : list A) :
  forall i j, (j < i)%nat -> nth_error (delete i l) j = nth_error l j.
Proof.
  induction l as [|a l IH]; intros i j Hj; [destruct i; reflexivity|].
  destruct i; [lia|]. destruct j; [reflexivity|].
  simpl. apply IH. lia.
Qed.

Lemma delete_after {A : Type} (l : list A) :
  forall i j, (i <= j)%nat -> nth_error (delete i l) j = nth_error l (S j).
Proof.
  induction l as [|a l IH]; intros i j Hj.
  - destruct i, j; reflexivity.
  - destruct i; [reflexivity|]. destruct j; [lia|].
    simpl. apply IH. lia.
Qed.

Lemma show_page_ok_redraws (g g' : gui) :
  show_page g = OK g' -> no_document g = false ->
  rect_list g' = labels 0 (List.length (selected_areas g))
  /\ text_numbers (scene g')
     = map (fun i => i + 1) (indices 0 (List.length (selected_areas g)))
  /\ shown_pages (scene g') = [current_page_index g].
Proof.
  intros Hshow Hno. unfold no_document in Hno.
  destruct (pdf_document g) as [n|] eqn:Hdoc; [|discriminate].
  apply Z.eqb_neq in Hno.
  destruct (Z.lt_ge_cases (current_page_index g) n) as [Hlt | Hge].
  - destruct (show_page_redraws g n Hdoc Hno Hlt)
      as (g1 & H1 & _ & _ & _ & Hl & _ & Ht & Hp).
    rewrite Hshow in H1. injection H1 as <-. auto.
  - exfalso. unfold show_page, no_document in Hshow. rewrite Hdoc in Hshow.
    apply Z.eqb_neq in Hno. rewrite Hno in Hshow. cbn in Hshow.
    rewrite Hdoc in Hshow. apply Z.ltb_ge in Hge. rewrite Hge in Hshow.
    discriminate.
Qed.

Lemma show_page_same_lengths (g g' : gui) :
  same_lengths g -> show_page g = OK g' -> same_lengths g'.
Proof.
  intros Hg Hs. unfold same_lengths. destruct (no_document g) eqn:Hno.
  - unfold show_page in Hs. rewrite Hno in Hs. injection Hs as <-. exact Hg.
  - unfold no_document in Hno.
    destruct (pdf_document g) as [n|] eqn:Hdoc; [|discriminate].
    apply Z.eqb_neq in Hno.
    destruct (Z.lt_ge_cases (current_page_index g) n) as [Hlt | Hge].
    + destruct (show_page_redraws g n Hdoc Hno Hlt)
        as (g1 & H1 & Ha & _ & _ & _ & Hr & _).
      rewrite Hs in H1. injection H1 as <-. congruence.
    + exfalso. unfold show_page, no_document in Hs. rewrite Hdoc in Hs.
      apply Z.eqb_neq in Hno. rewrite Hno in Hs. cbn in Hs.
      rewrite Hdoc in Hs. apply Z.ltb_ge in Hge. rewrite Hge in Hs.
      discriminate.
Qed.

Lemma remove_rect_same_lengths (index : Z) (g g' : gui) :
  same_lengths g -> remove_rect index g = OK g' -> same_lengths g'.
Proof.
  intros Hg Hr. unfold remove_rect in Hr.
  destruct ((0 <=? index)
            && (index <? Z.of_nat (List.length (rect_items g)))) eqn:Hguard.
  - unfold del, remove_item in Hr.
    cbn [rect_items selected_areas set_scene set_rect_items] in Hr.
    rewrite Hguard in Hr.
    cbn [bind rect_items selected_areas set_scene set_rect_items] in Hr.
    unfold same_lengths in Hg. rewrite <- Hg, Hguard in Hr. cbn [bind] in Hr.
    apply (show_page_same_lengths _ _) in Hr; [exact Hr|].
    unfold same_lengths. cbn.
    apply andb_true_iff in Hguard. destruct Hguard as [H0 Hlt].
    apply Z.leb_le in H0. apply Z.ltb_lt in Hlt.
    rewrite !delete_length by lia. congruence.
  - injection Hr as <-. exact Hg.
Qed.

Lemma eventFilter_same_lengths (normalized : QPointF -> QPointF -> QRectF)
  (point_bool : QPointF -> bool) (ev : mouse_event) (g g' : gui) :
  same_lengths g -> eventFilter normalized point_bool ev g = OK g' ->
  same_lengths g'.
Proof.
  intros Hg He. unfold same_lengths in *.
  destruct ev as [left pos|pos|left pos]; cbn [eventFilter] in He.
  - destruct (is_shift_pressed g); [destruct left|]; injection He as <-;
      exact Hg.
  - destruct (is_shift_pressed g && start_pos_set point_bool g);
      [|injection He as <-; exact Hg].
    destruct (start_pos g); [|injection He as <-; exact Hg].
    destruct (rect_item g) as [old|];
      [unfold remove_pending in He; destruct (in_scene old g);
       [|discriminate]|];
      cbn [bind] in He; injection He as <-; exact Hg.
  - destruct (is_shift_pressed g && left && start_pos_set point_bool g);
      [|injection He as <-; exact Hg].
    destruct (start_pos g) as [start|]; [|injection He as <-; exact Hg].
    unfold on_release in He.
    destruct (py_truediv (rx (normalized start pos)) (scale_factor g));
      [|discriminate].
    destruct (py_truediv (ry (normalized start pos)) (scale_factor g));
      [|discriminate].
    destruct (py_truediv (rwidth (normalized start pos)) (scale_factor g));
      [|discriminate].
    destruct (py_truediv (rheight (normalized start pos)) (scale_factor g));
      [|discriminate].
    cbn [bind] in He. injection He as <-.
    match goal with
    | |- context [add_frame ?r ?i ?s] =>
        destruct (add_frame_fields r i s) as (Ha & _ & _ & _ & _ & Hr & _)
    end.
    cbn zeta in Ha, Hr. cbn [rect_items selected_areas set_rect_item
                               set_start_pos].
    rewrite Ha, Hr. cbn [rect_items selected_areas set_selected_areas].
    rewrite length_app. simpl. lia.
Qed.

(** In every state the editor can reach, the rectangle items and the
    selected areas are equally many. *)
Lemma reachable_same_lengths (normalized : QPointF -> QPointF -> QRectF)
  (point_bool : QPointF -> bool) (g : gui) :
  reachable normalized point_bool g -> same_lengths g.
Proof.
  induction 1 as [|a g g' _ IH Hstep]; [reflexivity|].
  destruct a; cbn [perform] in Hstep.
  - unfold load_pdf in Hstep. destruct (String.eqb file_path "").
    + injection Hstep as <-. exact IH.
    + destruct opened as [n|e]; [|discriminate]. cbn [bind] in Hstep.
      apply (fun H => show_page_same_lengths _ _ H Hstep); exact IH.
  - unfold prev_page in Hstep. destruct (0 <? current_page_index g).
    + apply (fun H => show_page_same_lengths _ _ H Hstep); exact IH.
    + injection Hstep as <-. exact IH.
  - unfold next_page in Hstep.
    destruct (pdf_document g) as [n|]; [|discriminate].
    destruct (current_page_index g <? n - 1).
    + apply (fun H => show_page_same_lengths _ _ H Hstep); exact IH.
    + injection Hstep as <-. exact IH.
  - injection Hstep as <-. destruct shift; exact IH.
  - injection Hstep as <-. destruct shift; exact IH.
  - unfold wheelEvent in Hstep. destruct control.
    + apply (fun H => show_page_same_lengths _ _ H Hstep); exact IH.
    + injection Hstep as <-. exact IH.
  - exact (eventFilter_same_lengths _ _ _ _ _ IH Hstep).
  - exact (remove_rect_same_lengths _ _ _ IH Hstep).
  - injection Hstep as <-. destruct ev; exact IH.
Qed.

(** C7 (as the code has it): [remove_rect] with an index outside the
    list returns without raising and changes nothing; with an index inside,
    on an open document, it deletes that area, the areas before it stay
    where they are, each later area moves one position down, and the labels
    in the side list and in the scene are written again from the positions,
    so that the label of each later area is one less than before.
    ([same_lengths] holds in every state the editor reaches.) *)
Theorem remove_rect_guarded_and_renumbering (g : gui) (index : Z) :
  (index < 0 \/ Z.of_nat (List.length (rect_items g)) <= index ->
   remove_rect index g = OK g)
  /\ (forall n,
        0 <= index < Z.of_nat (List.length (rect_items g)) ->
        same_lengths g ->
        pdf_document g = Some n -> n <> 0 -> current_page_index g < n ->
        exists g',
          remove_rect index g = OK g'
          /\ selected_areas g' = delete (Z.to_nat index) (selected_areas g)
          /\ (forall j, (j < Z.to_nat index)%nat ->
                nth_error (selected_areas g') j
                = nth_error (selected_areas g) j)
          /\ (forall j, (Z.to_nat index <= j)%nat ->
                nth_error (selected_areas g') j
                = nth_error (selected_areas g) (S j))
          /\ rect_list g'
             = labels 0 (pred (List.length (selected_areas g)))
          /\ text_numbers (scene g')
             = map (fun i => i + 1)
                 (indices 0 (pred (List.length (selected_areas g))))).
Proof.
  split.
  - intro Hout. unfold remove_rect.
    replace ((0 <=? index)
             && (index <? Z.of_nat (List.length (rect_items g))))
      with false; [reflexivity|].
    symmetry. apply andb_false_iff.
    destruct Hout; [left; apply Z.leb_gt | right; apply Z.ltb_ge]; lia.
  - intros n Hin Hlen Hdoc Hn Hidx. unfold same_lengths in Hlen.
    symmetry in Hlen. unfold remove_rect, del.
    assert (Hguard : (0 <=? index)
                     && (index <? Z.of_nat (List.length (rect_items g)))
                     = true).
    { apply andb_true_iff. split; [apply Z.leb_le | apply Z.ltb_lt]; lia. }
    rewrite Hguard. unfold remove_item.
    cbn [rect_items selected_areas set_scene set_rect_items].
    rewrite Hguard. cbn [bind rect_items selected_areas set_scene
                           set_rect_items].
    rewrite Hlen, Hguard. cbn [bind].
    match goal with
    | |- context [show_page ?s] =>
        destruct (show_page_redraws s n Hdoc Hn Hidx)
          as (g' & Hs & Ha & _ & _ & Hl & _ & Ht & _)
    end.
    exists g'. cbn in Ha, Hl, Ht.
    assert (Hd : List.length (delete (Z.to_nat index) (selected_areas g))
                 = pred (List.length (selected_areas g)))
      by (apply delete_length; lia).
    rewrite Hd in Hl, Ht.
    split; [exact Hs|]. split; [exact Ha|]. rewrite Ha.
    split; [intros j Hj; apply delete_before; exact Hj|].
    split; [intros j Hj; apply delete_after; exact Hj|].
    rewrite <- Hlen. split; [exact Hl | exact Ht].
Qed.

(** C8 (as the code has it): showing the previous or the next page
    leaves the list of selected areas as it is; when the page does change on
    an open document, the same areas are drawn again, numbered from one, over
    the new page. *)
Theorem page_change_keeps_areas (g g' : gui) :
  prev_page g = OK g' \/ next_page g = OK g' ->
  selected_areas g' = selected_areas g
  /\ (current_page_index g' <> current_page_index g ->
      no_document g = false ->
      shown_pages (scene g') = [current_page_index g']
      /\ rect_list g' = labels 0 (List.length (selected_areas g))
      /\ text_numbers (scene g')
         = map (fun i => i + 1)
             (indices 0 (List.length (selected_areas g)))).
Proof.
  assert (Hmove : forall i,
             show_page (set_current_page_index i g) = OK g' ->
             selected_areas g' = selected_areas g
             /\ (current_page_index g' <> current_page_index g ->
                 no_document g = false ->
                 shown_pages (scene g') = [current_page_index g']
                 /\ rect_list g' = labels 0 (List.length (selected_areas g))
                 /\ text_numbers (scene g')
                    = map (fun i => i + 1)
                        (indices 0 (List.length (selected_areas g))))).
  { intros i Hs. destruct (show_page_keeps _ _ Hs) as (Ha & _ & Hi).
    cbn in Ha, Hi. split; [exact Ha|]. intros _ Hno.
    destruct (show_page_ok_redraws _ _ Hs Hno) as (Hl & Ht & Hp).
    cbn in Hl, Ht, Hp. rewrite Hi. auto. }
  assert (Hstay : g' = g ->
             selected_areas g' = selected_areas g
             /\ (current_page_index g' <> current_page_index g ->
                 no_document g = false ->
                 shown_pages (scene g') = [current_page_index g']
                 /\ rect_list g' = labels 0 (List.length (selected_areas g))
                 /\ text_numbers (scene g')
                    = map (fun i => i + 1)
                        (indices 0 (List.length (selected_areas g))))).
  { intros ->. split; [reflexivity | congruence]. }
  intros [H | H].
  - unfold prev_page in H. destruct (0 <? current_page_index g).
    + exact (Hmove _ H).
    + injection H as <-. apply Hstay. reflexivity.
  - unfold next_page in H. destruct (pdf_document g) as [n|]; [|discriminate].
    destruct (current_page_index g <? n - 1).
    + exact (Hmove _ H).
    + injection H as <-. apply Hstay. reflexivity.
Qed.

(** ** The template file *)

Lemma encode_shape (t : Template) : template_shape (encode t).
Proof.
  exists (map (fun entry => page_json (fst entry) (snd entry)) t).
  split; [reflexivity|]. apply Forall_forall. intros p Hin.
  apply in_map_iff in Hin. destruct Hin as ([i areas] & <- & _).
  eexists _, (map area_json areas). split; [reflexivity|].
  split; [discriminate|]. split; [reflexivity|].
  apply Forall_forall. intros a Ha. apply in_map_iff in Ha.
  destruct Ha as (r & <- & _). eexists. split; [reflexivity|].
  intros k [<- | [<- | [<- | [<- | []]]]]; discriminate.
Qed.






(** The worker's loops on an encoded template read the template's own
    numbers. *)
Section EncodedTemplate.
Variable w : world.

Lemma extract_area_encoded (pg : page w) (r : QRectF) :
  extract_area w pg (area_json r) = region_row w pg r.
Proof. reflexivity. Qed.

Lemma areas_loop_encoded (pg : page w) (regions : list QRectF) :
  forall data,
    areas_loop w pg (map area_json regions) data
    = region_rows w pg regions data.
Proof.
  induction regions as [|r rest IH]; intro data; [reflexivity|].
  cbn [map areas_loop region_rows]. rewrite extract_area_encoded.
  destruct (region_row w pg r) as [row|e]; cbn [bind]; [apply IH|].
  reflexivity.
Qed.

Lemma pages_loop_encoded (d : doc w) (t : Template) :
  forall data,
    pages_loop w d (map (fun entry => page_json (fst entry) (snd entry)) t)
      data
    = template_rows w d t data.
Proof.
  induction t as [|[i areas] rest IH]; intro data; [reflexivity|].
  cbn [map pages_loop template_rows fst snd]. unfold page_json at 1 2.
  cbn [subscript lookup String.eqb Ascii.eqb Bool.eqb bind iterate].
  destruct (getitem w d (JInt i)) as [pg|e]; cbn [bind]; [|reflexivity].
  rewrite areas_loop_encoded.
  destruct (region_rows w pg areas data) as [data'|e]; cbn [bind];
    [apply IH | reflexivity].
Qed.

Lemma one_document_encoded (t : Template) (pdf_path : string)
  (data : list string) :
  one_document w (encode t) pdf_path data
  = template_document w t pdf_path data.
Proof.
  unfold one_document, template_document, encode.
  destruct (Document w pdf_path) as [d|e]; cbn [bind iterate];
    [|reflexivity].
  rewrite pages_loop_encoded. reflexivity.
Qed.

End EncodedTemplate.

(** What [run] does with a template file is [decode] followed by the loop
    over the documents and the write. *)
Lemma run_try_reads_through_decode (lib : json_library) (w : world)
  (template_path : string) (file : file_text lib)
  (pdf_paths : list string) (output_path : string) :
  load_json w template_path = json_load lib file ->
  run_try w template_path pdf_paths output_path
  = match decode lib file with
    | Error e => ([], Error e)
    | OK template =>
        let (evs, r) :=
          docs_loop w template (Z.of_nat (List.length pdf_paths)) 0
            pdf_paths [] in
        match r with
        | Error e => (evs, Error e)
        | OK data =>
            match to_excel w data output_path with
            | Error e => (evs, Error e)
            | OK _ => ((evs ++ [Saved output_path data])%list, OK tt)
            end
        end
    end.
Proof.
  intro Hload. unfold run_try, decode. rewrite Hload.
  destruct (json_load lib file) as [template|e]; cbn [bind]; [|reflexivity].
  destruct (validate template) as [u|e]; reflexivity.
Qed.


(** ** Rounding to 53 bits *)

Section Rounding.
Local Open Scope Q_scope.

Lemma pow2_pos (e : Z) : 0 < 2 ^ e.
Proof. apply Qpower_0_lt. reflexivity. Qed.

Lemma pow2_plus (a b : Z) : 2 ^ (a + b) == 2 ^ a * 2 ^ b.
Proof. apply Qpower_plus. discriminate. Qed.

Lemma pow2_succ (a : Z) : 2 ^ (a + 1) == 2 * 2 ^ a.
Proof. rewrite pow2_plus. change (2 ^ 1) with 2. ring. Qed.

Lemma pow2_lt (a b : Z) : (a < b)%Z -> 2 ^ a < 2 ^ b.
Proof. intro H. apply Qpower_lt_compat_l; [exact H | reflexivity]. Qed.

Lemma pow2_le (a b : Z) : (a <= b)%Z -> 2 ^ a <= 2 ^ b.
Proof. intro H. apply Qpower_le_compat_l; [exact H | discriminate]. Qed.

Lemma pow2_lt_inv (a b : Z) : 2 ^ a < 2 ^ b -> (a < b)%Z.
Proof. intro H. apply (Qpower_lt_compat_l_inv 2); [exact H | reflexivity]. Qed.

Lemma pow2_inject (z : Z) : (0 <= z)%Z -> inject_Z (2 ^ z) == 2 ^ z.
Proof. intro H. apply (Zpower_Qpower 2 z H). Qed.

(** a positive integer lies between the powers of two that [Z.log2]
    names *)
Lemma log2_bounds (a : Z) :
  (0 < a)%Z ->
  2 ^ Z.log2 a <= inject_Z a /\ inject_Z a < 2 * 2 ^ Z.log2 a.
Proof.
  intro Ha. destruct (Z.log2_spec a Ha) as [Hlo Hhi].
  pose proof (Z.log2_nonneg a) as Hnn.
  rewrite <- pow2_succ, <- !pow2_inject by lia.
  rewrite <- Zle_Qle, <- Zlt_Qlt.
  replace (Z.log2 a + 1)%Z with (Z.succ (Z.log2 a)) by lia.
  split; assumption.
Qed.

Lemma floor_log2_spec (x : Q) :
  0 < x -> 2 ^ floor_log2 x <= x /\ x < 2 * 2 ^ floor_log2 x.
Proof.
  intro Hx. unfold floor_log2.
  destruct x as [a b]. cbn [Qnum Qden].
  assert (Ha : (0 < a)%Z).
  { unfold Qlt in Hx. cbn in Hx. lia. }
  destruct (log2_bounds a Ha) as [Halo Hahi].
  destruct (log2_bounds (Zpos b) eq_refl) as [Hblo Hbhi].
  set (la := Z.log2 a) in *. set (lb := Z.log2 (Zpos b)) in *.
  assert (Hb : 0 < inject_Z (Zpos b)) by reflexivity.
  assert (Hx' : a # b == inject_Z a / inject_Z (Zpos b))
    by apply Qmake_Qdiv.
  assert (Hsplit : 2 ^ la == 2 ^ (la - lb) * 2 ^ lb).
  { rewrite <- pow2_plus. replace (la - lb + lb)%Z with la by lia.
    reflexivity. }
  assert (Hpred : 2 ^ (la - lb) == 2 * 2 ^ (la - lb - 1)).
  { rewrite <- pow2_succ. replace (la - lb - 1 + 1)%Z with (la - lb)%Z by lia.
    reflexivity. }
  pose proof (pow2_pos (la - lb)) as Hp.
  pose proof (pow2_pos (la - lb - 1)) as Hp1.
  pose proof (pow2_pos lb) as Hpb.
  destruct (Qle_bool (2 ^ (la - lb)) (a # b)) eqn:E.
  - apply Qle_bool_iff in E. split; [exact E|].
    rewrite Hx'. apply Qlt_shift_div_r; [exact Hb|].
    nra.
  - assert (Hlt : a # b < 2 ^ (la - lb)).
    { apply Qnot_le_lt. intro H. apply Qle_bool_iff in H. congruence. }
    split.
    + rewrite Hx'. apply Qle_shift_div_l; [exact Hb|]. nra.
    + rewrite <- Hpred. exact Hlt.
Qed.

Lemma floor_log2_mono (x y : Q) :
  0 < x -> x <= y -> (floor_log2 x <= floor_log2 y)%Z.
Proof.
  intros Hx Hxy.
  destruct (floor_log2_spec x Hx) as [Hlo _].
  destruct (floor_log2_spec y) as [_ Hhi]; [lra|].
  rewrite <- pow2_succ in Hhi.
  assert (H : 2 ^ floor_log2 x < 2 ^ (floor_log2 y + 1)) by lra.
  apply pow2_lt_inv in H. lia.
Qed.

(** [round_half_even] is the floor or the floor plus one *)
Lemma round_half_even_cases (x : Q) :
  round_half_even x = Qfloor x \/ round_half_even x = (Qfloor x + 1)%Z.
Proof.
  unfold round_half_even.
  destruct (x - inject_Z (Qfloor x) ?= 1 # 2); auto.
  destruct (Z.even (Qfloor x)); auto.
Qed.

Lemma floor_bounds (x : Q) :
  inject_Z (Qfloor x) <= x /\ x < inject_Z (Qfloor x) + 1.
Proof.
  split; [apply Qfloor_le|].
  pose proof (Qlt_floor x) as H. rewrite inject_Z_plus in H. exact H.
Qed.

Lemma round_half_even_mono (x y : Q) :
  x <= y -> (round_half_even x <= round_half_even y)%Z.
Proof.
  intro Hxy. pose proof (Qfloor_resp_le x y Hxy) as Hf.
  destruct (Z.eq_dec (Qfloor x) (Qfloor y)) as [Heq | Hne].
  - unfold round_half_even. rewrite <- Heq.
    destruct (Qcompare_spec (x - inject_Z (Qfloor x)) (1 # 2)) as [Ex|Ex|Ex];
      destruct (Qcompare_spec (y - inject_Z (Qfloor x)) (1 # 2))
        as [Ey|Ey|Ey];
      try destruct (Z.even (Qfloor x)); try lia; exfalso; lra.
  - destruct (round_half_even_cases x) as [-> | ->];
      destruct (round_half_even_cases y) as [-> | ->]; lia.
Qed.

Lemma round_half_even_Z (n : Z) : round_half_even (inject_Z n) = n.
Proof.
  unfold round_half_even. rewrite Qfloor_Z.
  destruct (Qcompare_spec (inject_Z n - inject_Z n) (1 # 2)) as [E|E|E];
    [exfalso; lra | reflexivity | exfalso; lra].
Qed.

Lemma round_half_even_ge (n : Z) (x : Q) :
  inject_Z n <= x -> (n <= round_half_even x)%Z.
Proof.
  intro H. rewrite <- (round_half_even_Z n).
  apply round_half_even_mono, H.
Qed.

Lemma round_half_even_le (n : Z) (x : Q) :
  x <= inject_Z n -> (round_half_even x <= n)%Z.
Proof.
  intro H. rewrite <- (round_half_even_Z n).
  apply round_half_even_mono, H.
Qed.

(** the rounded value of [x] stays in the binade of [x], ends included *)
Lemma round53_pos_bounds (x : Q) :
  0 < x ->
  2 ^ floor_log2 x <= round53_pos x
  /\ round53_pos x <= 2 * 2 ^ floor_log2 x.
Proof.
  intro Hx. destruct (floor_log2_spec x Hx) as [Hlo Hhi].
  unfold round53_pos. set (e := floor_log2 x) in *.
  pose proof (pow2_pos (e - 52)) as Hu.
  assert (He : 2 ^ e == 2 ^ 52 * 2 ^ (e - 52)).
  { rewrite <- pow2_plus. replace (52 + (e - 52))%Z with e by lia.
    reflexivity. }
  assert (H52 : inject_Z (2 ^ 52) == 2 ^ 52) by (apply pow2_inject; lia).
  assert (H53 : inject_Z (2 ^ 53) == 2 * 2 ^ 52)
    by (rewrite <- pow2_succ; apply pow2_inject; lia).
  assert (Hge : (2 ^ 52 <= round_half_even (x / 2 ^ (e - 52)))%Z).
  { apply round_half_even_ge. apply Qle_shift_div_l; [exact Hu|].
    rewrite H52, <- He. exact Hlo. }
  assert (Hle : (round_half_even (x / 2 ^ (e - 52)) <= 2 ^ 53)%Z).
  { apply round_half_even_le. apply Qle_shift_div_r; [exact Hu|].
    rewrite H53. rewrite <- Qmult_assoc, <- He. lra. }
  rewrite Zle_Qle in Hge, Hle. rewrite H52 in Hge. rewrite H53 in Hle.
  set (m := inject_Z (round_half_even (x / 2 ^ (e - 52)))) in *.
  split.
  - rewrite He. apply Qmult_le_compat_r; lra.
  - rewrite He, Qmult_assoc. apply Qmult_le_compat_r; lra.
Qed.

Lemma round53_pos_mono (x y : Q) :
  0 < x -> x <= y -> round53_pos x <= round53_pos y.
Proof.
  intros Hx Hxy. assert (Hy : 0 < y) by lra.
  pose proof (floor_log2_mono x y Hx Hxy) as He.
  destruct (Z.eq_dec (floor_log2 x) (floor_log2 y)) as [Heq | Hne].
  - unfold round53_pos. rewrite <- Heq.
    pose proof (pow2_pos (floor_log2 x - 52)) as Hu.
    apply Qmult_le_compat_r; [|lra].
    rewrite <- Zle_Qle. apply round_half_even_mono.
    apply Qmult_le_compat_r; [exact Hxy|].
    apply Qlt_le_weak, Qinv_lt_0_compat, Hu.
  - destruct (round53_pos_bounds x Hx) as [_ Hhi].
    destruct (round53_pos_bounds y Hy) as [Hlo _].
    rewrite <- pow2_succ in Hhi.
    assert (Hp : 2 ^ (floor_log2 x + 1) <= 2 ^ floor_log2 y)
      by (apply pow2_le; lia).
    lra.
Qed.

Lemma round53_of_pos (x : Q) : 0 < x -> round53 x = round53_pos x.
Proof.
  intro Hx. unfold round53. destruct x as [[|p|p] d]; try reflexivity;
    unfold Qlt in Hx; cbn in Hx; lia.
Qed.

Lemma round53_pos_positive (x : Q) : 0 < x -> 0 < round53_pos x.
Proof.
  intro Hx. destruct (round53_pos_bounds x Hx) as [Hlo _].
  pose proof (pow2_pos (floor_log2 x)). lra.
Qed.

Lemma round53_mono (x y : Q) :
  0 < x -> x <= y -> round53 x <= round53 y.
Proof.
  intros Hx Hxy. rewrite !round53_of_pos by lra.
  apply round53_pos_mono; assumption.
Qed.

Lemma round53_positive (x : Q) : 0 < x -> 0 < round53 x.
Proof.
  intro Hx. rewrite round53_of_pos by exact Hx.
  apply round53_pos_positive, Hx.
Qed.

(** a value that rounds to itself is reached from any equal rational *)
Lemma round53_fixed (x c : Q) :
  0 < c -> round53 c == c -> x == c -> round53 x == c.
Proof.
  intros Hc Hfix Hx. apply Qle_antisym.
  - rewrite <- Hfix. apply round53_mono; lra.
  - rewrite <- Hfix at 1. apply round53_mono; lra.
Qed.
End Rounding.

(** ** Progress *)

Example rounding_agrees_with_ieee : agree_up_to 64 = true.
Proof. vm_compute. reflexivity. Qed.

Example progress_29_of_100 :
  progress_percent 28 100 = 28 /\ agree_on 29 100 = true.
Proof. vm_compute. split; reflexivity. Qed.

Section Progress.
Local Open Scope Q_scope.

Lemma int_of_float_mono (x y : Q) :
  0 <= x -> x <= y -> (int_of_float x <= int_of_float y)%Z.
Proof.
  intros Hx Hxy. unfold int_of_float.
  assert (Hy : 0 <= y) by lra.
  apply Qle_bool_iff in Hx, Hy. rewrite Hx, Hy.
  apply Qfloor_resp_le, Hxy.
Qed.

Lemma inject_Z_positive (a : Z) : (0 < a)%Z -> 0 < inject_Z a.
Proof. intro Ha. rewrite Zlt_Qlt in Ha. exact Ha. Qed.

Lemma true_divide_positive (a b : Z) :
  (0 < a)%Z -> (0 < b)%Z -> 0 < inject_Z a / inject_Z b.
Proof.
  intros Ha Hb. apply inject_Z_positive in Ha, Hb.
  apply Qlt_shift_div_l; [exact Hb | rewrite Qmult_0_l; exact Ha].
Qed.

Lemma progress_percent_mono (i j n : Z) :
  (0 <= i <= j)%Z -> (0 < n)%Z ->
  (progress_percent i n <= progress_percent j n)%Z.
Proof.
  intros Hij Hn. unfold progress_percent, float_times, true_divide.
  pose proof (true_divide_positive (i + 1) n ltac:(lia) Hn) as Hi.
  assert (Hq : inject_Z (i + 1) / inject_Z n
               <= inject_Z (j + 1) / inject_Z n).
  { apply Qmult_le_compat_r.
    - rewrite <- Zle_Qle. lia.
    - apply Qlt_le_weak, Qinv_lt_0_compat, inject_Z_positive, Hn. }
  pose proof (round53_positive _ Hi) as Hri.
  pose proof (round53_mono _ _ Hi Hq) as Hr.
  assert (Hi100 : 0 < round53 (inject_Z (i + 1) / inject_Z n) * 100) by lra.
  apply int_of_float_mono.
  - apply Qlt_le_weak, round53_positive, Hi100.
  - apply round53_mono; [exact Hi100 | lra].
Qed.

Lemma progress_percent_last (n : Z) :
  (0 < n)%Z -> progress_percent (n - 1) n = 100%Z.
Proof.
  intro Hn. unfold progress_percent, float_times, true_divide.
  replace (n - 1 + 1)%Z with n by lia.
  assert (Hone : inject_Z n / inject_Z n == 1).
  { apply inject_Z_positive in Hn. field. lra. }
  assert (H1 : round53 (inject_Z n / inject_Z n) == 1)
    by (apply round53_fixed; [reflexivity | reflexivity | exact Hone]).
  assert (H100 : round53 (round53 (inject_Z n / inject_Z n) * 100) == 100).
  { apply round53_fixed; [reflexivity | reflexivity |].
    rewrite H1. reflexivity. }
  unfold int_of_float.
  assert (Hnn : Qle_bool 0
                  (round53 (round53 (inject_Z n / inject_Z n) * 100))
                = true)
    by (apply Qle_bool_iff; rewrite H100; discriminate).
  rewrite Hnn, H100. reflexivity.
Qed.
End Progress.

Lemma indices_length (idx : Z) (n : nat) : List.length (indices idx n) = n.
Proof. revert idx. induction n; intro idx; simpl; auto. Qed.

Lemma indices_nth (n : nat) :
  forall idx i d, (i < n)%nat -> nth i (indices idx n) d = idx + Z.of_nat i.
Proof.
  induction n as [|n IH]; intros idx i d Hi; [lia|].
  destruct i; simpl; [lia|]. rewrite IH by lia. lia.
Qed.

Lemma last_is_nth {A : Type} (l : list A) (d : A) :
  last l d = nth (pred (List.length l)) l d.
Proof.
  induction l as [|a l IH]; [reflexivity|].
  destruct l as [|b l]; [reflexivity|].
  change (last (a :: b :: l) d) with (last (b :: l) d).
  rewrite IH. reflexivity.
Qed.

Lemma progress_values_nth (N : Z) (n i : nat) :
  (i < n)%nat ->
  nth i (map (fun idx => progress_percent idx N) (indices 0 n)) 0
  = progress_percent (Z.of_nat i) N.
Proof.
  intro Hi.
  rewrite (nth_indep _ 0 (progress_percent 0 N))
    by (rewrite length_map, indices_length; exact Hi).
  rewrite (map_nth (fun idx => progress_percent idx N) (indices 0 n) 0 i).
  rewrite indices_nth by exact Hi. reflexivity.
Qed.

(** C5 (as the code has it): a run that completes over N documents emits
    exactly N progress values, the one after document number idx + 1 being
    [int((idx + 1) / N * 100)], the float product cut to an integer; the
    values never decrease and the last one is 100. *)
Theorem progress_once_per_document (w : world) (template_path : string)
  (pdf_paths : list string) (output_path : string) :
  snd (run_try w template_path pdf_paths output_path) = OK tt ->
  let N := Z.of_nat (List.length pdf_paths) in
  let values := progress_of (run w template_path pdf_paths output_path) in
  values
  = map (fun idx => progress_percent idx N)
      (indices 0 (List.length pdf_paths))
  /\ List.length values = List.length pdf_paths
  /\ (forall i j,
        (i <= j < List.length pdf_paths)%nat ->
        nth i values 0 <= nth j values 0)
  /\ (pdf_paths <> [] -> last values 0 = 100).
Proof.
  intros Hok N values.
  assert (Hvalues : values
                    = map (fun idx => progress_percent idx N)
                        (indices 0 (List.length pdf_paths))).
  { destruct (run_try_cases w template_path pdf_paths output_path)
      as [(rows & Hr) | (k & e & _ & Hr)].
    - unfold values. rewrite (run_of_success _ _ _ _ _ Hr).
      rewrite progress_of_app, progress_of_progress_events. simpl.
      now rewrite app_nil_r.
    - rewrite Hr in Hok. discriminate. }
  split; [exact Hvalues|]. rewrite Hvalues. split; [|split].
  - rewrite length_map. apply indices_length.
  - intros i j Hij. rewrite !progress_values_nth by lia.
    apply progress_percent_mono; unfold N; lia.
  - intro Hne.
    assert (Hlen : (0 < List.length pdf_paths)%nat)
      by (destruct pdf_paths; [congruence | simpl; lia]).
    rewrite last_is_nth, length_map, indices_length.
    rewrite progress_values_nth by lia.
    replace (Z.of_nat (pred (List.length pdf_paths))) with (N - 1)
      by (unfold N; lia).
    apply progress_percent_last. unfold N. lia.
Qed.

(** * Worked cases *)

(** C1, as stated, fails: the second document cannot be opened; the error
    is a console line, [finished] follows as after a good run, and the window
    then reports success. *)
Lemma open_error_is_printed_and_reported_as_success :
  run demo "t.json" ["doc1"; "missing"] "out.xlsx"
  = [Progress 50; Print "Error: cannot open missing"; Finished]
  /\ message_boxes
       (fst (process_files demo "t.json" ["doc1"; "missing"] "out.xlsx" init))
     = [("Processing Complete",
         "The files have been processed and saved successfully.")].
Proof. vm_compute. split; reflexivity. Qed.

Lemma run_prints_error_and_stops_witness :
  snd (run_try demo "t.json" ["doc1"; "missing"; "doc2"] "out.xlsx")
  = Error (Raise RuntimeError "cannot open missing")
  /\ exists k,
       run demo "t.json" ["doc1"; "missing"; "doc2"] "out.xlsx"
       = (progress_events 3 0 k
          ++ [Print "Error: cannot open missing"; Finished])%list
       /\ saved_of (run demo "t.json" ["doc1"; "missing"; "doc2"] "out.xlsx")
          = []
       /\ ((k = O
            /\ (load_json demo "t.json"
                = Error (Raise RuntimeError "cannot open missing")
                \/ exists template,
                     load_json demo "t.json" = OK template
                     /\ validate template
                        = Error (Raise RuntimeError "cannot open missing")))
           \/ (exists pages before pdf_path after,
                 load_json demo "t.json" = OK (JList pages)
                 /\ validate (JList pages) = OK tt
                 /\ ["doc1"; "missing"; "doc2"]
                    = (before ++ pdf_path :: after)%list
                 /\ k = List.length before
                 /\ Forall
                      (fun q => exists rows, document_rows demo pages q rows)
                      before
                 /\ forall data,
                      one_document demo (JList pages) pdf_path data
                      = Error (Raise RuntimeError "cannot open missing"))
           \/ (exists pages rows,
                 load_json demo "t.json" = OK (JList pages)
                 /\ validate (JList pages) = OK tt
                 /\ k = List.length ["doc1"; "missing"; "doc2"]
                 /\ sheet_rows demo pages ["doc1"; "missing"; "doc2"] rows
                 /\ to_excel demo rows "out.xlsx"
                    = Error (Raise RuntimeError "cannot open missing"))).
Proof.
  split; [reflexivity|].
  apply (run_prints_error_and_stops demo "t.json" ["doc1"; "missing"; "doc2"]
           "out.xlsx" (Raise RuntimeError "cannot open missing")).
  reflexivity.
Defined.

(** The second of three documents cannot be opened: the third is not
    reached. *)
Example documents_after_the_failure_are_left :
  run demo "t.json" ["doc1"; "missing"; "doc2"] "out.xlsx"
  = [Progress 33; Print "Error: cannot open missing"; Finished]
  /\ Document demo "doc2" = OK ("doc2", 3).
Proof. vm_compute. split; reflexivity. Qed.

Lemma page_index_failure_writes_nothing_witness :
  run short_second_document "t.json" ["doc1"; "doc2"] "out.xlsx"
  = [Progress 50; Print "Error: page not in document"; Finished]
  /\ saved_of (run short_second_document "t.json" ["doc1"; "doc2"] "out.xlsx")
     = [].
Proof.
  split; [vm_compute; reflexivity|].
  apply (page_index_failure_writes_nothing short_second_document "t.json"
           ["doc1"; "doc2"] "out.xlsx"
           [JDict [("page", JInt 0);
                   ("coordinates", JList [int_area 1 10 30 5])];
            JDict [("page", JInt 1);
                   ("coordinates", JList [int_area 2 20 30 5])]]
           "doc2" ("doc2", 1)
           (JDict [("page", JInt 1);
                   ("coordinates", JList [int_area 2 20 30 5])])
           (JInt 1) (Raise IndexError "page not in document")).
  - reflexivity.
  - simpl. auto.
  - reflexivity.
  - simpl. auto.
  - reflexivity.
  - reflexivity.
Defined.

(** The rejected templates of the format's examples, each with its
    message. *)
Example rejected_templates :
  validate (JDict []) = Error (Raise ValueError msg_not_list)
  /\ validate (JList [JDict [("coordinates", JList [])]])
     = Error (Raise ValueError msg_page_keys)
  /\ validate (JList [JDict [("page", JInt 0); ("coordinates", JDict [])]])
     = Error (Raise ValueError msg_coordinates_list)
  /\ validate
       (JList [JDict [("page", JInt 0);
                      ("coordinates",
                       JList [JDict [("x", JInt 1); ("y", JInt 1);
                                     ("width", JInt 1)]])]])
     = Error (Raise ValueError msg_area_keys).
Proof. repeat split. Qed.

Lemma malformed_template_fails_witness :
  not_a_sequence (JDict [])
  /\ exists msg,
       validate (JDict []) = Error (Raise ValueError msg)
       /\ ((msg = msg_not_list /\ not_a_sequence (JDict []))
           \/ (msg = msg_page_keys /\ has_bad_entry (JDict []))
           \/ (msg = msg_coordinates_list /\ has_bad_coordinates (JDict []))
           \/ (msg = msg_area_keys /\ has_bad_area (JDict [])))
       /\ NoDup [msg_not_list; msg_page_keys; msg_coordinates_list;
                 msg_area_keys]
       /\ forall (w : world) template_path pdf_paths output_path,
            load_json w template_path = OK (JDict []) ->
            run w template_path pdf_paths output_path
            = [Print ("Error: " ++ msg); Finished].
Proof.
  assert (H : not_a_sequence (JDict [])) by (intros pages; discriminate).
  split; [exact H|].
  apply (malformed_template_fails_before_extraction (JDict [])).
  left. exact H.
Defined.

Lemma rows_in_document_page_area_order_witness :
  load_json demo "t.json" = OK two_area_template
  /\ validate two_area_template = OK tt
  /\ saved_of (run demo "t.json" ["doc1"; "doc2"] "out.xlsx")
     = [("out.xlsx",
         ["doc1-region1"; "doc1-region2"; "";
          "doc2-region1"; "doc2-region2"; ""])].
Proof.
  split; [reflexivity|]. split; [reflexivity|].
  apply (proj2 (rows_in_document_page_area_order demo "t.json"
                  ["doc1"; "doc2"] "out.xlsx"
                  [JDict [("page", JInt 0);
                          ("coordinates",
                           JList [int_area 1 10 30 5; int_area 2 20 30 5])]]
                  eq_refl eq_refl)
           "doc1" "doc2"
           (JDict [("page", JInt 0);
                   ("coordinates",
                    JList [int_area 1 10 30 5; int_area 2 20 30 5])])
           (JInt 0) (int_area 1 10 30 5) (int_area 2 20 30 5)
           ("doc1", 1) ("doc2", 3) ("doc1", 0) ("doc2", 0));
    reflexivity.
Defined.

(** C5, as stated, fails: with three documents the second value is 66,
    where rounding 200/3 gives 67. *)
Lemma progress_is_cut_not_rounded :
  progress_of (run three_documents_world "t.json" ["doc1"; "doc2"; "doc3"]
                 "out.xlsx")
  = [33; 66; 100]
  /\ map (fun processed => rounded_percent processed 3) [1; 2; 3]
     = [33; 67; 100].
Proof. vm_compute. split; reflexivity. Qed.

Lemma progress_once_per_document_witness :
  snd (run_try three_documents_world "t.json" ["doc1"; "doc2"; "doc3"]
         "out.xlsx") = OK tt
  /\ progress_of (run three_documents_world "t.json"
                    ["doc1"; "doc2"; "doc3"] "out.xlsx")
     = map (fun idx => progress_percent idx 3) (indices 0 3)
  /\ last (progress_of (run three_documents_world "t.json"
                          ["doc1"; "doc2"; "doc3"] "out.xlsx")) 0 = 100.
Proof.
  split; [vm_compute; reflexivity|].
  destruct (progress_once_per_document three_documents_world "t.json"
              ["doc1"; "doc2"; "doc3"] "out.xlsx")
    as (Hvalues & _ & _ & Hlast).
  - vm_compute. reflexivity.
  - split; [exact Hvalues | apply Hlast; discriminate].
Defined.


(** C7, as stated, fails: with three areas, removing at 5 or at -1
    returns normally, with the state as it was. *)
Lemma remove_out_of_range_is_silent :
  three_areas_session = OK three_areas
  /\ List.length (selected_areas three_areas) = 3%nat
  /\ remove_rect 5 three_areas = OK three_areas
  /\ remove_rect (-1) three_areas = OK three_areas.
Proof. vm_compute. repeat split. Qed.

(** Without a document [show_page] returns at once: the area is removed
    and the side list and the scene keep the three old numbers. *)
Example remove_without_document_keeps_labels :
  no_document_session = OK three_areas_no_document
  /\ exists g',
       remove_rect 0 three_areas_no_document = OK g'
       /\ selected_areas g' = [rect_of 60 20 30 20; rect_of 10 70 20 20]
       /\ map frame_no (rect_list g') = [1; 2; 3]
       /\ text_numbers (scene g') = [1; 2; 3].
Proof.
  split; [vm_compute; reflexivity|].
  eexists. split; [vm_compute; reflexivity|]. repeat split.
Qed.

Lemma remove_rect_guarded_and_renumbering_witness :
  remove_rect 3 three_areas = OK three_areas
  /\ exists g',
       remove_rect 0 three_areas = OK g'
       /\ selected_areas g' = [rect_of 60 20 30 20; rect_of 10 70 20 20]
       /\ rect_list g'
          = [{| frame_no := 1; remove_arg := 0 |};
             {| frame_no := 2; remove_arg := 1 |}]
       /\ text_numbers (scene g') = [1; 2].
Proof.
  split.
  - apply (proj1 (remove_rect_guarded_and_renumbering three_areas 3)).
    right. vm_compute. discriminate.
  - destruct (proj2 (remove_rect_guarded_and_renumbering three_areas 0) 2)
      as (g' & Hr & Ha & _ & _ & Hl & Ht).
    + vm_compute. split; [discriminate | reflexivity].
    + reflexivity.
    + reflexivity.
    + discriminate.
    + reflexivity.
    + exists g'. split; [exact Hr|]. split; [exact Ha|].
      split; [exact Hl | exact Ht].
Defined.

(** C8, as stated, fails: the area drawn on the first page is still
    selected, and drawn, when the second page is shown. *)
Lemma next_page_carries_areas_over :
  one_area_session = OK one_area
  /\ current_page_index one_area = 0
  /\ selected_areas one_area = [rect_of 10 10 40 40]
  /\ exists g',
       next_page one_area = OK g'
       /\ current_page_index g' = 1
       /\ shown_pages (scene g') = [1]
       /\ selected_areas g' = [rect_of 10 10 40 40]
       /\ rect_list g' = [{| frame_no := 1; remove_arg := 0 |}].
Proof.
  split; [vm_compute; reflexivity|]. split; [reflexivity|].
  split; [vm_compute; reflexivity|].
  eexists. split; [vm_compute; reflexivity|]. repeat split.
Qed.

Lemma page_change_keeps_areas_witness :
  next_page one_area = OK (or_init (next_page one_area))
  /\ selected_areas (or_init (next_page one_area)) = selected_areas one_area
  /\ rect_list (or_init (next_page one_area))
     = [{| frame_no := 1; remove_arg := 0 |}].
Proof.
  assert (H : next_page one_area = OK (or_init (next_page one_area)))
    by (vm_compute; reflexivity).
  destruct (page_change_keeps_areas one_area (or_init (next_page one_area))
              (or_intror H)) as (Ha & Hredraw).
  split; [exact H|]. split; [exact Ha|].
  destruct Hredraw as (_ & Hl & _).
  - vm_compute. discriminate.
  - reflexivity.
  - exact Hl.
Defined.

Lemma validation_checks_shape_only_witness :
  template_shape ill_typed_template
  /\ validate ill_typed_template = OK tt.
Proof.
  assert (H : template_shape ill_typed_template).
  { eexists. split; [reflexivity|].
    constructor; [|constructor; [|constructor]].
    - eexists _, _. split; [reflexivity|]. split; [discriminate|].
      split; [reflexivity|]. constructor; [|constructor].
      eexists. split; [reflexivity|].
      intros k [<- | [<- | [<- | [<- | []]]]]; discriminate.
    - eexists _, _. split; [reflexivity|]. split; [discriminate|].
      split; [reflexivity | constructor]. }
  split; [exact H|].
  exact (proj1 (validation_checks_shape_only ill_typed_template H)).
Defined.

(** A template that validation accepts and extraction cannot use: the
    string under [width] raises when the first area of the first document is
    reached. *)
Example string_width_raises_in_extraction :
  validate string_width_template = OK tt
  /\ run (demo_world (OK string_width_template)
            (pages_of [("doc1", 1)]) true)
       "t.json" ["doc1"] "out.xlsx"
     = [Print "Error: unsupported operand type(s) for +: 'int' and 'str'";
        Finished].
Proof. vm_compute. split; reflexivity. Qed.

(** A redraw in the middle of a drag deletes the dotted rectangle; the
    next move of the mouse then raises. *)
Example move_after_redraw_raises :
  (g1 <- eventFilter qt_normalized qt_point_bool (MouseMove (point 50 50))
           pending_press ;;
   g2 <- wheelEvent true 120 g1 ;;
   eventFilter qt_normalized qt_point_bool (MouseMove (point 60 60)) g2)
  = Error (Raise RuntimeError
             "wrapped C/C++ object of type QGraphicsRectItem has been deleted").
Proof. vm_compute. reflexivity. Qed.

(** * Further properties of the worker *)

Lemma indices_in (n : nat) :
  forall idx i, In i (indices idx n) <-> idx <= i < idx + Z.of_nat n.
Proof.
  induction n as [|n IH]; intros idx i; cbn [indices In].
  - lia.
  - rewrite IH. lia.
Qed.

Lemma progress_percent_range (i n : Z) :
  0 <= i < n -> 0 <= progress_percent i n <= 100.
Proof.
  intro Hi. split.
  - unfold progress_percent, float_times, true_divide.
    pose proof (true_divide_positive (i + 1) n ltac:(lia) ltac:(lia)) as Hq.
    pose proof (round53_positive _ Hq) as Hr.
    assert (H100 : (0 < round53 (inject_Z (i + 1) / inject_Z n) * 100)%Q)
      by lra.
    pose proof (round53_positive _ H100) as Hp.
    change 0 with (int_of_float 0).
    apply int_of_float_mono; [apply Qle_refl | apply Qlt_le_weak, Hp].
  - rewrite <- (progress_percent_last n) by lia.
    apply progress_percent_mono; lia.
Qed.

Lemma finished_count_app (a b : list event) :
  finished_count (a ++ b) = (finished_count a + finished_count b)%nat.
Proof.
  induction a as [|ev a IH]; [reflexivity|].
  destruct ev; simpl; rewrite IH; reflexivity.
Qed.

Lemma finished_count_progress_events (n idx : Z) (k : nat) :
  finished_count (progress_events n idx k) = O.
Proof.
  unfold progress_events. revert idx.
  induction k as [|k IH]; intro idx; simpl; auto.
Qed.

(** X1: every run, whatever happens in it, is a number of progress
    signals, then either the written sheet (after the progress of all the
    documents) or one printed error line, then [finished]; [finished] is
    emitted exactly once, and last. *)
Theorem run_trace_shape (w : world) (template_path : string)
  (pdf_paths : list string) (output_path : string) :
  exists k outcome,
    (k <= List.length pdf_paths)%nat
    /\ run w template_path pdf_paths output_path
       = (progress_events (Z.of_nat (List.length pdf_paths)) 0 k
          ++ [outcome; Finished])%list
    /\ ((exists rows,
           outcome = Saved output_path rows /\ k = List.length pdf_paths)
        \/ (exists e, outcome = Print ("Error: " ++ message e)))
    /\ finished_count (run w template_path pdf_paths output_path) = 1%nat.
Proof.
  destruct (run_try_cases w template_path pdf_paths output_path)
    as [(rows & Hr) | (k & e & Hk & Hr)].
  - exists (List.length pdf_paths), (Saved output_path rows).
    rewrite (run_of_success _ _ _ _ _ Hr).
    split; [lia|]. split; [reflexivity|]. split; [left; eauto|].
    rewrite finished_count_app, finished_count_progress_events. reflexivity.
  - exists k, (Print ("Error: " ++ message e)).
    rewrite (run_of_error _ _ _ _ _ _ Hr).
    split; [exact Hk|]. split; [reflexivity|]. split; [right; eauto|].
    rewrite finished_count_app, finished_count_progress_events. reflexivity.
Qed.

(** X2: every progress value that a run emits, completed or not, lies
    between 0 and 100. *)
Theorem progress_values_in_range (w : world) (template_path : string)
  (pdf_paths : list string) (output_path : string) (p : Z) :
  In p (progress_of (run w template_path pdf_paths output_path)) ->
  0 <= p <= 100.
Proof.
  intro Hin.
  assert (Hvalues : exists k,
             (k <= List.length pdf_paths)%nat
             /\ progress_of (run w template_path pdf_paths output_path)
                = map (fun i => progress_percent i
                                  (Z.of_nat (List.length pdf_paths)))
                    (indices 0 k)).
  { destruct (run_try_cases w template_path pdf_paths output_path)
      as [(rows & Hr) | (k & e & Hk & Hr)].
    - exists (List.length pdf_paths). split; [lia|].
      rewrite (run_of_success _ _ _ _ _ Hr), progress_of_app,
        progress_of_progress_events. simpl. now rewrite app_nil_r.
    - exists k. split; [exact Hk|].
      rewrite (run_of_error _ _ _ _ _ _ Hr), progress_of_app,
        progress_of_progress_events. simpl. now rewrite app_nil_r. }
  destruct Hvalues as (k & Hk & Heq). rewrite Heq in Hin.
  apply in_map_iff in Hin. destruct Hin as (i & <- & Hi).
  apply indices_in in Hi. apply progress_percent_range. lia.
Qed.

Lemma progress_values_in_range_witness :
  In 66 (progress_of (run three_documents_world "t.json"
                        ["doc1"; "doc2"; "doc3"] "out.xlsx"))
  /\ 0 <= 66 <= 100.
Proof.
  assert (H : In 66 (progress_of (run three_documents_world "t.json"
                                    ["doc1"; "doc2"; "doc3"] "out.xlsx")))
    by (vm_compute; auto).
  split; [exact H|].
  exact (progress_values_in_range three_documents_world "t.json"
           ["doc1"; "doc2"; "doc3"] "out.xlsx" 66 H).
Defined.

(** X3: when every document is extracted and writing the sheet raises,
    the progress of all the documents has been emitted, the last value being
    the one of a completed run, and the run ends with the printed error of
    the write; no sheet is recorded. *)
Theorem write_failure_after_all_progress (w : world)
  (template_path : string) (pdf_paths : list string) (output_path : string)
  (pages : list json) (rows : list string) (e : exn) :
  load_json w template_path = OK (JList pages) ->
  validate (JList pages) = OK tt ->
  sheet_rows w pages pdf_paths rows ->
  to_excel w rows output_path = Error e ->
  run w template_path pdf_paths output_path
  = (progress_events (Z.of_nat (List.length pdf_paths)) 0
       (List.length pdf_paths)
     ++ [Print ("Error: " ++ message e); Finished])%list.
Proof.
  intros Hload Hvalid (pd & Hpd & ->) Hx.
  assert (Hshape : Forall page_shape pages).
  { apply validate_ok_iff in Hvalid.
    destruct Hvalid as (pages' & Heq & H). now injection Heq as <-. }
  assert (Hl : docs_loop w (JList pages)
                 (Z.of_nat (List.length pdf_paths)) 0 pdf_paths []
               = (progress_events (Z.of_nat (List.length pdf_paths)) 0
                    (List.length pdf_paths),
                  OK ([] ++ List.concat
                              (map (fun r => r ++ [""]) pd))%list))
    by (apply docs_loop_ok; eauto).
  unfold run, run_try. rewrite Hload, Hvalid, Hl. cbn [app]. rewrite Hx.
  reflexivity.
Qed.

Lemma write_failure_after_all_progress_witness :
  run read_only_output "t.json" ["doc1"; "doc2"] "out.xlsx"
  = [Progress 50; Progress 100; Print "Error: Permission denied"; Finished].
Proof.
  apply (write_failure_after_all_progress read_only_output "t.json"
           ["doc1"; "doc2"] "out.xlsx"
           [JDict [("page", JInt 0);
                   ("coordinates",
                    JList [int_area 1 10 30 5; int_area 2 20 30 5])]]
           ["doc1-region1"; "doc1-region2"; "";
            "doc2-region1"; "doc2-region2"; ""]
           (Raise OSError "Permission denied")).
  - reflexivity.
  - reflexivity.
  - exists [["doc1-region1"; "doc1-region2"];
            ["doc2-region1"; "doc2-region2"]].
    split; [|reflexivity].
    constructor; [|constructor; [|constructor]].
    + exists ("doc1", 1), [["doc1-region1"; "doc1-region2"]].
      split; [reflexivity|]. split; [|reflexivity].
      constructor; [|constructor].
      exists (JInt 0), [int_area 1 10 30 5; int_area 2 20 30 5], ("doc1", 0).
      repeat split. repeat constructor.
    + exists ("doc2", 3), [["doc2-region1"; "doc2-region2"]].
      split; [reflexivity|]. split; [|reflexivity].
      constructor; [|constructor].
      exists (JInt 0), [int_area 1 10 30 5; int_area 2 20 30 5], ("doc2", 0).
      repeat split. repeat constructor.
  - reflexivity.
Defined.

Lemma blank_rows (n : nat) :
  List.concat (map (fun r : list string => (r ++ [""])%list) (repeat [] n))
  = repeat "" n.
Proof. induction n as [|n IH]; simpl; [|rewrite IH]; reflexivity. Qed.

(** X4: with a template that has no page entry, a run over documents that
    all open writes one blank row per document and nothing else. *)
Theorem empty_template_gives_blank_rows (w : world)
  (template_path : string) (pdf_paths : list string)
  (output_path : string) :
  load_json w template_path = OK (JList []) ->
  (forall pdf_path, In pdf_path pdf_paths ->
                    exists d, Document w pdf_path = OK d) ->
  to_excel w (repeat "" (List.length pdf_paths)) output_path = OK tt ->
  saved_of (run w template_path pdf_paths output_path)
  = [(output_path, repeat "" (List.length pdf_paths))].
Proof.
  intros Hload Hopen Hx.
  apply (saved_rows w template_path pdf_paths output_path []
           (repeat "" (List.length pdf_paths)) Hload eq_refl).
  split; [|exact Hx].
  exists (repeat [] (List.length pdf_paths)). split; [|now rewrite blank_rows].
  clear Hx Hload. induction pdf_paths as [|p rest IH]; [constructor|].
  cbn [List.length repeat]. constructor.
  - destruct (Hopen p (or_introl eq_refl)) as (d & Hd).
    exists d, []. split; [exact Hd|]. split; [constructor | reflexivity].
  - apply IH. intros q Hq. apply Hopen. right. exact Hq.
Qed.

Lemma empty_template_gives_blank_rows_witness :
  saved_of (run empty_template_world "t.json" ["doc1"; "doc2"] "out.xlsx")
  = [("out.xlsx", [""; ""])].
Proof.
  apply (empty_template_gives_blank_rows empty_template_world "t.json"
           ["doc1"; "doc2"] "out.xlsx").
  - reflexivity.
  - intros pdf_path [<- | [<- | []]]; eexists; reflexivity.
  - reflexivity.
Defined.

Lemma check_pages_head (p : json) (rest : list json) :
  check_pages (p :: rest)
  = match check_pages [p] with
    | OK _ => check_pages rest
    | Error e => Error e
    end.
Proof.
  cbn [check_pages].
  destruct (negb (isinstance_dict p) || negb (contains "page" p)
            || negb (contains "coordinates" p)); [reflexivity|].
  destruct (subscript p "coordinates") as [c|e]; [|reflexivity].
  cbn [bind].
  destruct (negb (isinstance_list c)); [reflexivity|].
  destruct (iterate c) as [areas|e]; [|reflexivity]. cbn [bind].
  destruct (check_areas areas) as [[]|e]; reflexivity.
Qed.

(** X5: validation stops at the first entry that breaks a rule: when the
    entries before an entry are well formed and the entry on its own is
    rejected, the template is rejected with that entry's error, whatever
    follows it. *)
Theorem first_broken_entry_decides (before : list json) (p : json)
  (after : list json) (e : exn) :
  Forall page_shape before ->
  check_pages [p] = Error e ->
  validate (JList (before ++ p :: after)) = Error e.
Proof.
  intros Hbefore Hp. unfold validate. cbn [isinstance_list negb iterate bind].
  induction Hbefore as [|q rest Hq _ IH].
  - cbn [app]. rewrite check_pages_head, Hp. reflexivity.
  - cbn [app]. rewrite check_pages_head.
    assert (Hone : check_pages [q] = OK tt).
    { pose proof (proj2 (validate_ok_iff (JList [q]))) as H.
      unfold validate in H. cbn [isinstance_list negb iterate bind] in H.
      apply H. exists [q]. split; [reflexivity|]. constructor; auto. }
    rewrite Hone. exact IH.
Qed.

Lemma first_broken_entry_decides_witness :
  validate (JList broken_second_entry)
  = Error (Raise ValueError msg_page_keys).
Proof.
  apply (first_broken_entry_decides
           [JDict [("page", JInt 0); ("coordinates", JList [])]]
           (JDict [("coordinates", JList [])])
           [JStr "not an entry"]
           (Raise ValueError msg_page_keys)).
  - constructor; [|constructor].
    eexists _, _. split; [reflexivity|]. split; [discriminate|].
    split; [reflexivity | constructor].
  - reflexivity.
Defined.

(** Where an exception of the loops over a validated template comes
    from. *)
Section ErrorOrigin.
Variable w : world.

Lemma extract_area_error_origin (pg : page w) (area : json) (e : exn) :
  area_shape area -> extract_area w pg area = Error e -> raised_in_area w e.
Proof.
  intros (d & -> & Hk) H. unfold extract_area in H. cbn [subscript] in H.
  destruct (lookup "x" d) as [x|] eqn:Ex;
    [|exfalso; apply (Hk "x"); [simpl; auto | exact Ex]].
  destruct (lookup "y" d) as [y|] eqn:Ey;
    [|exfalso; apply (Hk "y"); [simpl; auto | exact Ey]].
  destruct (lookup "width" d) as [wd|] eqn:Ew;
    [|exfalso; apply (Hk "width"); [simpl; auto | exact Ew]].
  destruct (lookup "height" d) as [h|] eqn:Eh;
    [|exfalso; apply (Hk "height"); [simpl; auto | exact Eh]].
  cbn [bind] in H. unfold raised_in_area.
  destruct (py_add x wd) as [x1|e0] eqn:Ex1; cbn [bind] in H;
    [|injection H as ->; left; eauto].
  destruct (py_add y h) as [y1|e0] eqn:Ey1; cbn [bind] in H;
    [|injection H as ->; left; eauto].
  destruct (Rect w x y x1 y1) as [clip|e0] eqn:Er; cbn [bind] in H;
    [|injection H as ->; right; left; eauto].
  destruct (get_text_blocks w pg clip) as [text|e0] eqn:Et; cbn [bind] in H;
    [discriminate|].
  injection H as ->. right. right. eauto.
Qed.

Lemma areas_loop_error_origin (pg : page w) (areas : list json) (e : exn) :
  Forall area_shape areas ->
  forall data, areas_loop w pg areas data = Error e -> raised_in_area w e.
Proof.
  induction 1 as [|a rest Ha _ IH]; intros data H; cbn [areas_loop] in H;
    [discriminate|].
  destruct (extract_area w pg a) as [row|e0] eqn:E; cbn [bind] in H.
  - exact (IH _ H).
  - injection H as ->. exact (extract_area_error_origin pg a _ Ha E).
Qed.

Lemma pages_loop_error_origin (d : doc w) (pages : list json) (e : exn) :
  Forall page_shape pages ->
  forall data,
    pages_loop w d pages data = Error e ->
    (exists page_num, getitem w d page_num = Error e) \/ raised_in_area w e.
Proof.
  induction 1 as [|p rest Hp _ IH]; intros data H; cbn [pages_loop] in H;
    [discriminate|].
  destruct Hp as (dict & areas & -> & Hpage & Hc & Hareas).
  cbn [subscript] in H.
  destruct (lookup "page" dict) as [page_num|]; [|congruence].
  rewrite Hc in H. cbn [bind iterate] in H.
  destruct (getitem w d page_num) as [pg|e0] eqn:Eg; cbn [bind] in H;
    [|injection H as ->; left; eauto].
  destruct (areas_loop w pg areas data) as [data'|e0] eqn:Ea;
    cbn [bind] in H.
  - exact (IH _ H).
  - injection H as ->. right.
    exact (areas_loop_error_origin pg areas _ Hareas _ Ea).
Qed.

End ErrorOrigin.

(** X6: after validation no key access of the extraction loops can fail:
    whatever a validated template makes the worker raise while it handles a
    document is raised by opening the document, by [doc[page_num]], by one
    of the two additions, by [Rect] or by [get_text], never by reading
    [page], [coordinates], [x], [y], [width] or [height] or by iterating over
    the entries or the areas. *)
Theorem validated_template_is_readable (w : world) (pages : list json)
  (pdf_path : string) (data : list string) (e : exn) :
  validate (JList pages) = OK tt ->
  one_document w (JList pages) pdf_path data = Error e ->
  Document w pdf_path = Error e
  \/ (exists d page_num, getitem w d page_num = Error e)
  \/ (exists a b, py_add a b = Error e)
  \/ (exists x0 y0 x1 y1, Rect w x0 y0 x1 y1 = Error e)
  \/ (exists pg clip, get_text_blocks w pg clip = Error e).
Proof.
  intros Hvalid H.
  assert (Hshape : Forall page_shape pages).
  { apply validate_ok_iff in Hvalid.
    destruct Hvalid as (pages' & Heq & Hall). now injection Heq as <-. }
  unfold one_document in H.
  destruct (Document w pdf_path) as [d|e0]; cbn [bind iterate] in H;
    [|left; injection H as ->; reflexivity].
  destruct (pages_loop w d pages data) as [data'|e0] eqn:Ep;
    cbn [bind] in H; [discriminate|].
  injection H as ->. right.
  destruct (pages_loop_error_origin w d pages _ Hshape _ Ep)
    as [(page_num & Hg) | Harea].
  - left. eauto.
  - right. exact Harea.
Qed.

Lemma validated_template_is_readable_witness :
  validate string_width_template = OK tt
  /\ one_document demo string_width_template "doc1" []
     = Error (unsupported_add (JInt 1) (JStr "wide"))
  /\ (Document demo "doc1" = Error (unsupported_add (JInt 1) (JStr "wide"))
      \/ (exists d page_num,
            getitem demo d page_num
            = Error (unsupported_add (JInt 1) (JStr "wide")))
      \/ (exists a b,
            py_add a b = Error (unsupported_add (JInt 1) (JStr "wide")))
      \/ (exists x0 y0 x1 y1,
            Rect demo x0 y0 x1 y1
            = Error (unsupported_add (JInt 1) (JStr "wide")))
      \/ (exists pg clip,
            get_text_blocks demo pg clip
            = Error (unsupported_add (JInt 1) (JStr "wide")))).
Proof.
  assert (Hv : validate string_width_template = OK tt) by reflexivity.
  assert (He : one_document demo string_width_template "doc1" []
               = Error (unsupported_add (JInt 1) (JStr "wide")))
    by reflexivity.
  split; [exact Hv|]. split; [exact He|].
  exact (validated_template_is_readable demo _ "doc1" [] _ Hv He).
Defined.

Section FailurePosition.
Variable w : world.

Lemma docs_loop_stops_at_first_failure (pages : list json) (n : Z)
  (before : list string) (pdf_path : string) (after : list string) :
  Forall page_shape pages ->
  Forall (fun q => exists rows, document_rows w pages q rows) before ->
  (forall rows, ~ document_rows w pages pdf_path rows) ->
  forall idx data,
  exists e,
    docs_loop w (JList pages) n idx (before ++ pdf_path :: after) data
    = (progress_events n idx (List.length before), Error e)
    /\ (forall e', Document w pdf_path = Error e' -> e = e').
Proof.
  intros Hshape Hbefore Hfail.
  induction Hbefore as [|q rest (rows & Hq) _ IH]; intros idx data;
    cbn [app docs_loop List.length].
  - destruct (one_document w (JList pages) pdf_path data) as [data'|e] eqn:E.
    + exfalso. apply (one_document_spec w pages pdf_path Hshape) in E.
      destruct E as (rows & Hrows & _). exact (Hfail rows Hrows).
    + exists e. split; [reflexivity|].
      intros e' Hd. unfold one_document in E. rewrite Hd in E.
      cbn [bind] in E. congruence.
  - assert (Hone : one_document w (JList pages) q data
                   = OK (data ++ rows ++ [""])%list)
      by (apply one_document_spec; eauto).
    rewrite Hone.
    destruct (IH (idx + 1) (data ++ rows ++ [""])%list) as (e & Hl & He).
    rewrite Hl. exists e. split; [reflexivity | exact He].
Qed.

End FailurePosition.

(** X7: the number of progress signals tells which document failed: when
    the documents before one are extracted and that one is not (it does not
    open, a page index does not resolve, or an area raises), the run emits
    the progress of exactly the documents before it, prints the error and
    finishes; the documents after it are not touched, and the error of a
    document that does not open is the one printed. *)
Theorem run_stops_at_first_failing_document (w : world)
  (template_path : string) (before : list string) (pdf_path : string)
  (after : list string) (output_path : string) (pages : list json) :
  load_json w template_path = OK (JList pages) ->
  validate (JList pages) = OK tt ->
  Forall (fun q => exists rows, document_rows w pages q rows) before ->
  (forall rows, ~ document_rows w pages pdf_path rows) ->
  exists e,
    run w template_path (before ++ pdf_path :: after) output_path
    = (progress_events
         (Z.of_nat (List.length (before ++ pdf_path :: after))) 0
         (List.length before)
       ++ [Print ("Error: " ++ message e); Finished])%list
    /\ (forall e', Document w pdf_path = Error e' -> e = e').
Proof.
  intros Hload Hvalid Hbefore Hfail.
  assert (Hshape : Forall page_shape pages).
  { apply validate_ok_iff in Hvalid.
    destruct Hvalid as (pages' & Heq & H). now injection Heq as <-. }
  destruct (docs_loop_stops_at_first_failure w pages
              (Z.of_nat (List.length (before ++ pdf_path :: after)))
              before pdf_path after Hshape Hbefore Hfail 0 [])
    as (e & Hl & He).
  exists e. split; [|exact He].
  unfold run, run_try. rewrite Hload, Hvalid, Hl. reflexivity.
Qed.

Lemma run_stops_at_first_failing_document_witness :
  exists e,
    run demo "t.json" (["doc1"] ++ "missing" :: ["doc2"]) "out.xlsx"
    = (progress_events 3 0 1
       ++ [Print ("Error: " ++ message e); Finished])%list
    /\ (forall e', Document demo "missing" = Error e' -> e = e').
Proof.
  apply (run_stops_at_first_failing_document demo "t.json" ["doc1"]
           "missing" ["doc2"] "out.xlsx"
           [JDict [("page", JInt 0);
                   ("coordinates",
                    JList [int_area 1 10 30 5; int_area 2 20 30 5])]]).
  - reflexivity.
  - reflexivity.
  - constructor; [|constructor].
    exists ["doc1-region1"; "doc1-region2"].
    exists ("doc1", 1), [["doc1-region1"; "doc1-region2"]].
    split; [reflexivity|]. split; [|reflexivity].
    constructor; [|constructor].
    exists (JInt 0), [int_area 1 10 30 5; int_area 2 20 30 5], ("doc1", 0).
    repeat split. repeat constructor.
  - intros rows (d & pp & Hd & _). discriminate Hd.
Defined.

(** * Further properties of the editor *)

Lemma show_page_result (g g' : gui) :
  show_page g = OK g' ->
  (no_document g = true /\ g' = g)
  \/ (no_document g = false
      /\ (exists n, pdf_document g = Some n /\ n <> 0
                    /\ current_page_index g < n)
      /\ selected_areas g' = selected_areas g
      /\ pdf_document g' = pdf_document g
      /\ current_page_index g' = current_page_index g
      /\ rect_list g' = labels 0 (List.length (selected_areas g))
      /\ List.length (rect_items g') = List.length (selected_areas g)
      /\ shown_pages (scene g') = [current_page_index g]).
Proof.
  intro Hs. destruct (no_document g) eqn:Hno.
  - left. unfold show_page in Hs. rewrite Hno in Hs. injection Hs as <-.
    auto.
  - right. split; [reflexivity|]. unfold no_document in Hno.
    destruct (pdf_document g) as [n|] eqn:Hdoc; [|discriminate].
    apply Z.eqb_neq in Hno.
    destruct (Z.lt_ge_cases (current_page_index g) n) as [Hlt | Hge].
    + destruct (show_page_redraws g n Hdoc Hno Hlt)
        as (g1 & H1 & Ha & Hd & Hi & Hl & Hr & _ & Hp).
      rewrite Hs in H1. injection H1 as <-.
      split; [eauto|]. rewrite <- Hdoc. auto 10.
    + exfalso. unfold show_page, no_document in Hs. rewrite Hdoc in Hs.
      apply Z.eqb_neq in Hno. rewrite Hno in Hs. cbn in Hs.
      rewrite Hdoc in Hs. apply Z.ltb_ge in Hge. rewrite Hge in Hs.
      discriminate.
Qed.

Lemma labels_snoc (n : nat) :
  forall idx,
    (labels idx n
     ++ [{| frame_no := idx + Z.of_nat n + 1;
            remove_arg := idx + Z.of_nat n |}])%list
    = labels idx (S n).
Proof.
  induction n as [|n IH]; intro idx.
  - cbn. now rewrite Z.add_0_r.
  - rewrite labels_cons. cbn [app]. rewrite labels_cons. f_equal.
    rewrite <- (IH (idx + 1)).
    replace (idx + Z.of_nat (S n)) with (idx + 1 + Z.of_nat n) by lia.
    reflexivity.
Qed.

Ltac nothing_changed :=
  cbn; split; [reflexivity|]; split; [reflexivity|]; left; repeat split.

(** What a mouse event on the viewport can change: nothing of the areas,
    or one area more at the end, with its row in the side list. *)
Lemma eventFilter_effect (normalized : QPointF -> QPointF -> QRectF)
  (point_bool : QPointF -> bool) (ev : mouse_event) (g g' : gui) :
  eventFilter normalized point_bool ev g = OK g' ->
  pdf_document g' = pdf_document g
  /\ current_page_index g' = current_page_index g
  /\ ((selected_areas g' = selected_areas g
       /\ rect_list g' = rect_list g
       /\ rect_items g' = rect_items g)
      \/ (exists pos start,
            ev = MouseButtonRelease true pos
            /\ is_shift_pressed g = true
            /\ start_pos g = Some start
            /\ point_bool start = true
            /\ is_zero (scale_factor g) = false
            /\ selected_areas g'
               = (selected_areas g
                  ++ [unscaled (normalized start pos) (scale_factor g)])%list
            /\ rect_list g'
               = (rect_list g
                  ++ [entry_at (List.length (selected_areas g))])%list
            /\ List.length (rect_items g') = S (List.length (rect_items g))
            /\ start_pos g' = None
            /\ rect_item g' = None)).
Proof.
  intro He. destruct ev as [left pos|pos|left pos]; cbn [eventFilter] in He.
  - destruct (is_shift_pressed g); [destruct left|]; injection He as <-;
      nothing_changed.
  - destruct (is_shift_pressed g && start_pos_set point_bool g);
      [|injection He as <-; nothing_changed].
    destruct (start_pos g); [|injection He as <-; nothing_changed].
    destruct (rect_item g) as [old|];
      [unfold remove_pending in He; destruct (in_scene old g);
       [|discriminate]|];
      cbn [bind] in He; injection He as <-; nothing_changed.
  - destruct (is_shift_pressed g) eqn:Hshift;
      [|injection He as <-; nothing_changed].
    destruct left; [|injection He as <-; nothing_changed].
    unfold start_pos_set in He.
    destruct (start_pos g) as [start|] eqn:Hstart;
      [|injection He as <-; nothing_changed].
    destruct (point_bool start) eqn:Hpb; [|injection He as <-; nothing_changed].
    cbn [andb] in He. unfold on_release, py_truediv in He.
    destruct (is_zero (scale_factor g)) eqn:Hz; [discriminate|].
    cbn [bind] in He. injection He as <-.
    match goal with
    | |- context [add_frame ?r ?i ?s] =>
        destruct (add_frame_fields r i s)
          as (Ha & Hd & Hi & _ & Hl & Hr & _)
    end.
    cbn zeta in Ha, Hd, Hi, Hl, Hr.
    cbn [pdf_document current_page_index selected_areas rect_list
           rect_items start_pos rect_item set_rect_item set_start_pos].
    rewrite Ha, Hd, Hi, Hl, Hr.
    cbn [pdf_document current_page_index selected_areas rect_list
           rect_items set_selected_areas].
    split; [reflexivity|]. split; [reflexivity|]. right.
    exists pos, start. repeat split; try assumption.
    unfold entry_at. rewrite length_app. cbn [List.length].
    replace (Z.of_nat (List.length (selected_areas g) + 1) - 1)
      with (Z.of_nat (List.length (selected_areas g))) by lia.
    reflexivity.
Qed.

Lemma show_page_succeeds (g : gui) :
  page_in_range g -> exists g', show_page g = OK g'.
Proof.
  unfold page_in_range. intro Hr.
  destruct (pdf_document g) as [n|] eqn:Hdoc.
  - destruct (Z.eq_dec n 0) as [-> | Hn].
    + exists g. unfold show_page, no_document. rewrite Hdoc. reflexivity.
    + destruct Hr as [[Hz _] | Hin]; [contradiction|].
      destruct (show_page_redraws g n Hdoc Hn (proj2 Hin)) as (g' & Hs & _).
      eauto.
  - exists g. unfold show_page, no_document. rewrite Hdoc. reflexivity.
Qed.

(** What [remove_rect] does when it returns. *)
Lemma remove_rect_effect (index : Z) (g g' : gui) :
  remove_rect index g = OK g' ->
  pdf_document g' = pdf_document g
  /\ current_page_index g' = current_page_index g
  /\ ((~ 0 <= index < Z.of_nat (List.length (rect_items g)) /\ g' = g)
      \/ (0 <= index < Z.of_nat (List.length (rect_items g))
          /\ 0 <= index < Z.of_nat (List.length (selected_areas g))
          /\ selected_areas g'
             = delete (Z.to_nat index) (selected_areas g)
          /\ (no_document g = false ->
              rect_list g'
              = labels 0 (pred (List.length (selected_areas g)))))).
Proof.
  intro Hr. unfold remove_rect in Hr.
  destruct ((0 <=? index)
            && (index <? Z.of_nat (List.length (rect_items g)))) eqn:Hguard.
  - apply andb_true_iff in Hguard. destruct Hguard as [H0 Hlt].
    apply Z.leb_le in H0. apply Z.ltb_lt in Hlt.
    unfold del, remove_item in Hr.
    cbn [rect_items selected_areas set_scene set_rect_items] in Hr.
    replace ((0 <=? index)
             && (index <? Z.of_nat (List.length (rect_items g))))
      with true in Hr
      by (symmetry; apply andb_true_iff; split;
          [apply Z.leb_le | apply Z.ltb_lt]; lia).
    cbn [bind rect_items selected_areas set_scene set_rect_items] in Hr.
    destruct ((0 <=? index)
              && (index <? Z.of_nat (List.length (selected_areas g))))
      eqn:Hguard2; [|discriminate].
    apply andb_true_iff in Hguard2. destruct Hguard2 as [_ Hlt2].
    apply Z.ltb_lt in Hlt2. cbn [bind] in Hr.
    apply show_page_result in Hr.
    assert (Hd : List.length (delete (Z.to_nat index) (selected_areas g))
                 = pred (List.length (selected_areas g)))
      by (apply delete_length; lia).
    destruct Hr as [(Hno & ->) | (Hno & _ & Ha & Hdoc & Hi & Hl & _)].
    + cbn. split; [reflexivity|]. split; [reflexivity|]. right.
      repeat split; try lia.
      intro Hno'. unfold no_document in Hno, Hno'. cbn in Hno.
      congruence.
    + cbn in Ha, Hdoc, Hi, Hl. rewrite Hd in Hl.
      split; [exact Hdoc|]. split; [exact Hi|]. right.
      repeat split; try lia; try assumption. intros _. exact Hl.
  - injection Hr as <-. split; [reflexivity|]. split; [reflexivity|].
    left. split; [|reflexivity].
    apply andb_false_iff in Hguard.
    destruct Hguard as [H | H];
      [apply Z.leb_gt in H | apply Z.ltb_ge in H]; lia.
Qed.

Lemma remove_rect_succeeds (index : Z) (g : gui) :
  same_lengths g -> page_in_range g ->
  exists g', remove_rect index g = OK g'.
Proof.
  intros Hlen Hrange. unfold remove_rect.
  destruct ((0 <=? index)
            && (index <? Z.of_nat (List.length (rect_items g)))) eqn:Hguard;
    [|eauto].
  unfold del, remove_item.
  cbn [rect_items selected_areas set_scene set_rect_items].
  rewrite Hguard.
  cbn [bind rect_items selected_areas set_scene set_rect_items].
  unfold same_lengths in Hlen. rewrite <- Hlen, Hguard. cbn [bind].
  apply show_page_succeeds. exact Hrange.
Qed.

Lemma consistent_init : consistent init.
Proof.
  split; [reflexivity|]. split; [reflexivity|]. intro H. discriminate H.
Qed.

Lemma page_in_range_facts (g : gui) :
  page_in_range g ->
  0 <= current_page_index g
  /\ (no_document g = true -> current_page_index g = 0).
Proof.
  unfold page_in_range, no_document.
  destruct (pdf_document g) as [n|].
  - intros [[-> ->] | Hin]; split; try lia; try reflexivity;
      intro Hz; apply Z.eqb_eq in Hz; lia.
  - intros ->. split; [lia | reflexivity].
Qed.

(** The result of [show_page] is consistent when the lists agree and the
    page index is not negative, and is 0 if there is nothing to show. *)
Lemma show_page_consistent (g g' : gui) :
  same_lengths g ->
  0 <= current_page_index g ->
  (no_document g = true -> current_page_index g = 0) ->
  show_page g = OK g' -> consistent g'.
Proof.
  intros Hlen H0 Hzero Hs.
  pose proof (show_page_same_lengths _ _ Hlen Hs) as Hlen'.
  destruct (show_page_result _ _ Hs)
    as [(Hno & ->) | (Hno & (n & Hn & Hnz & Hlt) & Ha & Hdoc & Hi & Hl & _)].
  - split; [exact Hlen|]. split.
    + pose proof (Hzero Hno) as Hz.
      unfold page_in_range. unfold no_document in Hno.
      destruct (pdf_document g) as [n|]; [|exact Hz].
      apply Z.eqb_eq in Hno. left. split; [exact Hno | exact Hz].
    + intro H. congruence.
  - split; [exact Hlen'|]. split.
    + unfold page_in_range. rewrite Hdoc, Hi, Hn. right. lia.
    + intros _. rewrite Ha. exact Hl.
Qed.

(** Every action keeps the state consistent. *)
Lemma reachable_invariant (normalized : QPointF -> QPointF -> QRectF)
  (point_bool : QPointF -> bool) (g : gui) :
  reachable normalized point_bool g -> consistent g.
Proof.
  induction 1 as [|a g g' Hreach IH Hstep]; [exact consistent_init|].
  destruct IH as (Hlen & Hrange & Hlabels).
  destruct (page_in_range_facts g Hrange) as (H0 & Hzero).
  destruct a; cbn [perform] in Hstep.
  - unfold load_pdf in Hstep. destruct (String.eqb file_path "").
    + injection Hstep as <-. repeat split; assumption.
    + destruct opened as [n|e]; [|discriminate]. cbn [bind] in Hstep.
      apply (fun A B C => show_page_consistent _ _ A B C Hstep).
      * exact Hlen.
      * cbn. lia.
      * intros _. reflexivity.
  - unfold prev_page in Hstep.
    destruct (0 <? current_page_index g) eqn:Hpos.
    + apply Z.ltb_lt in Hpos.
      apply (fun A B C => show_page_consistent _ _ A B C Hstep).
      * exact Hlen.
      * cbn. lia.
      * intro Hno. apply Hzero in Hno. lia.
    + injection Hstep as <-. repeat split; assumption.
  - unfold next_page in Hstep.
    destruct (pdf_document g) as [n|] eqn:Hdoc; [|discriminate].
    destruct (current_page_index g <? n - 1) eqn:Hnext.
    + apply Z.ltb_lt in Hnext.
      apply (fun A B C => show_page_consistent _ _ A B C Hstep).
      * exact Hlen.
      * cbn. lia.
      * intro Hno. unfold no_document in Hno. cbn in Hno.
        rewrite Hdoc in Hno. apply Z.eqb_eq in Hno. lia.
    + injection Hstep as <-. repeat split; assumption.
  - injection Hstep as <-. destruct shift; repeat split; assumption.
  - injection Hstep as <-. destruct shift; repeat split; assumption.
  - unfold wheelEvent in Hstep. destruct control.
    + apply (fun A B C => show_page_consistent _ _ A B C Hstep).
      * exact Hlen.
      * exact H0.
      * exact Hzero.
    + injection Hstep as <-. repeat split; assumption.
  - pose proof (eventFilter_same_lengths _ _ _ _ _ Hlen Hstep) as Hlen'.
    destruct (eventFilter_effect _ _ _ _ _ Hstep) as (Hdoc & Hi & Hcases).
    split; [exact Hlen'|]. split.
    + unfold page_in_range. rewrite Hdoc, Hi. exact Hrange.
    + unfold labels_in_place, no_document. rewrite Hdoc. intro Hno.
      destruct Hcases as [(Ha & Hl & _)
                         | (pos & start & _ & _ & _ & _ & _ & Ha & Hl & _)].
      * rewrite Ha, Hl. apply Hlabels. exact Hno.
      * rewrite Ha, Hl, (Hlabels Hno), length_app. cbn [List.length].
        rewrite Nat.add_1_r. rewrite <- labels_snoc. reflexivity.
  - pose proof (remove_rect_same_lengths _ _ _ Hlen Hstep) as Hlen'.
    destruct (remove_rect_effect _ _ _ Hstep) as (Hdoc & Hi & Hcases).
    split; [exact Hlen'|]. split.
    + unfold page_in_range. rewrite Hdoc, Hi. exact Hrange.
    + destruct Hcases as [(_ & ->) | (Hin & Hin2 & Ha & Hl)];
        [exact Hlabels|].
      unfold labels_in_place, no_document. rewrite Hdoc. intro Hno.
      rewrite Ha, delete_length by lia. apply Hl. exact Hno.
  - injection Hstep as <-. destruct ev; repeat split; assumption.
Qed.

Lemma reachable_perform_all (normalized : QPointF -> QPointF -> QRectF)
  (point_bool : QPointF -> bool) (actions : list action) :
  forall g g',
    reachable normalized point_bool g ->
    perform_all normalized point_bool actions g = OK g' ->
    reachable normalized point_bool g'.
Proof.
  induction actions as [|a rest IH]; intros g g' Hg Hall;
    cbn [perform_all] in Hall.
  - injection Hall as <-. exact Hg.
  - destruct (perform normalized point_bool a g) as [g1|e] eqn:Hstep;
      [|discriminate].
    cbn [bind] in Hall.
    exact (IH g1 g' (reachable_step _ _ a g g1 Hg Hstep) Hall).
Qed.

Lemma three_areas_reachable :
  reachable qt_normalized qt_point_bool three_areas.
Proof.
  apply (reachable_perform_all _ _ three_areas_actions init);
    [apply reachable_init | vm_compute; reflexivity].
Qed.

Lemma three_areas_no_document_reachable :
  reachable qt_normalized qt_point_bool three_areas_no_document.
Proof.
  apply (reachable_perform_all _ _ no_document_actions init);
    [apply reachable_init | vm_compute; reflexivity].
Qed.

(** X8: in every state the editor reaches, there is one rectangle item per
    selected area; the page index is never negative, is below the page count
    of an open document with pages, and is 0 otherwise; and, while a
    document with pages is open, the side list has exactly one row per area,
    the row at position i labelled i + 1 with its button bound to i. *)
Theorem reachable_states_are_consistent
  (normalized : QPointF -> QPointF -> QRectF) (point_bool : QPointF -> bool)
  (g : gui) :
  reachable normalized point_bool g ->
  List.length (rect_items g) = List.length (selected_areas g)
  /\ 0 <= current_page_index g
  /\ (forall n, pdf_document g = Some n -> n <> 0 ->
                current_page_index g < n)
  /\ (no_document g = true -> current_page_index g = 0)
  /\ (no_document g = false ->
      List.length (rect_list g) = List.length (selected_areas g)
      /\ forall i,
           (i < List.length (selected_areas g))%nat ->
           nth_error (rect_list g) i = Some (entry_at i)).
Proof.
  intro Hreach.
  destruct (reachable_invariant _ _ _ Hreach) as (Hlen & Hrange & Hlabels).
  destruct (page_in_range_facts g Hrange) as (H0 & Hzero).
  split; [exact Hlen|]. split; [exact H0|]. split; [|split].
  - intros n Hdoc Hn. unfold page_in_range in Hrange. rewrite Hdoc in Hrange.
    destruct Hrange as [[Hz _] | Hin]; [contradiction | lia].
  - exact Hzero.
  - intro Hno. rewrite (Hlabels Hno). unfold labels. split.
    + rewrite length_map. apply indices_length.
    + intros i Hi. rewrite nth_error_map.
      assert (Hnth : nth_error (indices 0 (List.length (selected_areas g))) i
                     = Some (Z.of_nat i)).
      { rewrite (nth_error_nth' _ 0) by (rewrite indices_length; exact Hi).
        rewrite indices_nth by exact Hi. reflexivity. }
      rewrite Hnth. reflexivity.
Qed.

Lemma reachable_states_are_consistent_witness :
  reachable qt_normalized qt_point_bool three_areas
  /\ List.length (rect_items three_areas)
     = List.length (selected_areas three_areas)
  /\ 0 <= current_page_index three_areas.
Proof.
  split; [exact three_areas_reachable|].
  destruct (reachable_states_are_consistent qt_normalized qt_point_bool
              three_areas three_areas_reachable) as (Hlen & H0 & _).
  split; [exact Hlen | exact H0].
Defined.

Lemma labels_in (n : nat) (entry : list_entry) :
  In entry (labels 0 n) ->
  frame_no entry = remove_arg entry + 1
  /\ 0 <= remove_arg entry < Z.of_nat n.
Proof.
  unfold labels. intro Hin. apply in_map_iff in Hin.
  destruct Hin as (i & <- & Hi). apply indices_in in Hi. cbn. lia.
Qed.

(** X9: while a document with pages is open, every row of the side list
    carries the label of its button's index plus one, and clicking that
    button succeeds, deletes exactly the area at that index and leaves the
    list with the labels 1 .. n - 1. *)
Theorem every_remove_button_removes_its_area
  (normalized : QPointF -> QPointF -> QRectF) (point_bool : QPointF -> bool)
  (g : gui) (entry : list_entry) :
  reachable normalized point_bool g ->
  no_document g = false ->
  In entry (rect_list g) ->
  frame_no entry = remove_arg entry + 1
  /\ 0 <= remove_arg entry < Z.of_nat (List.length (selected_areas g))
  /\ exists g',
       remove_rect (remove_arg entry) g = OK g'
       /\ selected_areas g'
          = delete (Z.to_nat (remove_arg entry)) (selected_areas g)
       /\ rect_list g' = labels 0 (pred (List.length (selected_areas g))).
Proof.
  intros Hreach Hno Hin.
  destruct (reachable_invariant _ _ _ Hreach) as (Hlen & Hrange & Hlabels).
  rewrite (Hlabels Hno) in Hin. apply labels_in in Hin.
  destruct Hin as (Hframe & Hidx).
  split; [exact Hframe|]. split; [exact Hidx|].
  destruct (remove_rect_succeeds (remove_arg entry) g Hlen Hrange)
    as (g' & Hr).
  exists g'. split; [exact Hr|].
  destruct (remove_rect_effect _ _ _ Hr)
    as (_ & _ & [(Hout & _) | (_ & _ & Ha & Hl)]).
  - exfalso. apply Hout. unfold same_lengths in Hlen. rewrite Hlen.
    exact Hidx.
  - split; [exact Ha | exact (Hl Hno)].
Qed.

Lemma every_remove_button_removes_its_area_witness :
  In {| frame_no := 2; remove_arg := 1 |} (rect_list three_areas)
  /\ exists g',
       remove_rect 1 three_areas = OK g'
       /\ selected_areas g'
          = delete 1 (selected_areas three_areas)
       /\ rect_list g' = labels 0 2.
Proof.
  assert (Hin : In {| frame_no := 2; remove_arg := 1 |}
                  (rect_list three_areas))
    by (vm_compute; auto).
  split; [exact Hin|].
  exact (proj2 (proj2 (every_remove_button_removes_its_area
                         qt_normalized qt_point_bool three_areas
                         {| frame_no := 2; remove_arg := 1 |}
                         three_areas_reachable eq_refl Hin))).
Defined.

(** X10: in every state the editor reaches, the previous-page button never
    raises; the next-page button never raises while a document is open, and
    raises [TypeError] (the length of [None]) when none is. *)
Theorem navigation_on_reachable_states
  (normalized : QPointF -> QPointF -> QRectF) (point_bool : QPointF -> bool)
  (g : gui) :
  reachable normalized point_bool g ->
  (exists g', prev_page g = OK g')
  /\ (pdf_document g <> None -> exists g', next_page g = OK g')
  /\ (pdf_document g = None ->
      next_page g
      = Error (Raise TypeError "object of type 'NoneType' has no len()")).
Proof.
  intro Hreach.
  destruct (reachable_invariant _ _ _ Hreach) as (_ & Hrange & _).
  unfold page_in_range in Hrange. split; [|split].
  - unfold prev_page. destruct (0 <? current_page_index g) eqn:Hpos;
      [|eauto].
    apply Z.ltb_lt in Hpos. apply show_page_succeeds.
    unfold page_in_range. cbn.
    destruct (pdf_document g) as [n|]; [|lia].
    destruct Hrange as [[_ Hz] | Hin]; [lia | right; lia].
  - intro Hdoc. unfold next_page.
    destruct (pdf_document g) as [n|] eqn:Hd; [|congruence].
    destruct (current_page_index g <? n - 1) eqn:Hnext; [|eauto].
    apply Z.ltb_lt in Hnext. apply show_page_succeeds.
    unfold page_in_range. cbn. rewrite Hd.
    destruct Hrange as [[Hn Hz] | Hin]; [lia | right; lia].
  - intro Hdoc. unfold next_page. rewrite Hdoc. reflexivity.
Qed.

Lemma navigation_on_reachable_states_witness :
  reachable qt_normalized qt_point_bool three_areas_no_document
  /\ pdf_document three_areas_no_document = None
  /\ next_page three_areas_no_document
     = Error (Raise TypeError "object of type 'NoneType' has no len()")
  /\ exists g', prev_page three_areas_no_document = OK g'.
Proof.
  split; [exact three_areas_no_document_reachable|].
  split; [reflexivity|].
  destruct (navigation_on_reachable_states qt_normalized qt_point_bool
              three_areas_no_document three_areas_no_document_reachable)
    as (Hprev & _ & Hnext).
  split; [exact (Hnext eq_refl) | exact Hprev].
Defined.

(** X11: only two actions change the selected areas: a completed drag
    adds one area at the end, and a removal deletes one.  Loading a
    document, changing the page, zooming, keys, other mouse events and the
    worker's signals leave the areas as they are. *)
Theorem areas_change_only_by_drawing_or_removal
  (normalized : QPointF -> QPointF -> QRectF) (point_bool : QPointF -> bool)
  (a : action) (g g' : gui) :
  perform normalized point_bool a g = OK g' ->
  selected_areas g' = selected_areas g
  \/ (exists pos start,
        a = Mouse (MouseButtonRelease true pos)
        /\ start_pos g = Some start
        /\ selected_areas g'
           = (selected_areas g
              ++ [unscaled (normalized start pos) (scale_factor g)])%list)
  \/ (exists index,
        a = RemoveRect index
        /\ 0 <= index < Z.of_nat (List.length (selected_areas g))
        /\ selected_areas g' = delete (Z.to_nat index) (selected_areas g)).
Proof.
  intro Hstep. destruct a; cbn [perform] in Hstep.
  - left. unfold load_pdf in Hstep. destruct (String.eqb file_path "").
    + now injection Hstep as <-.
    + destruct opened as [n|e]; [|discriminate]. cbn [bind] in Hstep.
      apply show_page_keeps in Hstep. cbn in Hstep. tauto.
  - left. unfold prev_page in Hstep. destruct (0 <? current_page_index g).
    + apply show_page_keeps in Hstep. cbn in Hstep. tauto.
    + now injection Hstep as <-.
  - left. unfold next_page in Hstep.
    destruct (pdf_document g) as [n|]; [|discriminate].
    destruct (current_page_index g <? n - 1).
    + apply show_page_keeps in Hstep. cbn in Hstep. tauto.
    + now injection Hstep as <-.
  - left. injection Hstep as <-. destruct shift; reflexivity.
  - left. injection Hstep as <-. destruct shift; reflexivity.
  - left. unfold wheelEvent in Hstep. destruct control.
    + apply show_page_keeps in Hstep. cbn in Hstep. tauto.
    + now injection Hstep as <-.
  - destruct (eventFilter_effect _ _ _ _ _ Hstep)
      as (_ & _ & [(Ha & _)
                  | (pos & start & -> & _ & Hs & _ & _ & Ha & _)]).
    + left. exact Ha.
    + right. left. exists pos, start. auto.
  - destruct (remove_rect_effect _ _ _ Hstep)
      as (_ & _ & [(_ & ->) | (_ & Hin & Ha & _)]).
    + left. reflexivity.
    + right. right. exists index. auto.
  - left. injection Hstep as <-. destruct ev; reflexivity.
Qed.

Lemma areas_change_only_by_drawing_or_removal_witness :
  perform qt_normalized qt_point_bool (LoadPdf "b.pdf" (OK 5)) three_areas
  = OK (or_init (load_pdf "b.pdf" (OK 5) three_areas))
  /\ selected_areas (or_init (load_pdf "b.pdf" (OK 5) three_areas))
     = selected_areas three_areas.
Proof.
  assert (H : perform qt_normalized qt_point_bool (LoadPdf "b.pdf" (OK 5))
                three_areas
              = OK (or_init (load_pdf "b.pdf" (OK 5) three_areas)))
    by (vm_compute; reflexivity).
  split; [exact H|].
  destruct (areas_change_only_by_drawing_or_removal _ _ _ _ _ H)
    as [Ha | [(pos & start & Habs & _) | (index & Habs & _)]].
  - exact Ha.
  - discriminate Habs.
  - discriminate Habs.
Defined.

(** What a completed drag does when the zoom is not zero. *)
Lemma release_appends (normalized : QPointF -> QPointF -> QRectF)
  (point_bool : QPointF -> bool) (pos start : QPointF) (g : gui) :
  is_shift_pressed g = true ->
  start_pos g = Some start ->
  point_bool start = true ->
  is_zero (scale_factor g) = false ->
  exists g',
    eventFilter normalized point_bool (MouseButtonRelease true pos) g = OK g'
    /\ selected_areas g'
       = (selected_areas g
          ++ [unscaled (normalized start pos) (scale_factor g)])%list
    /\ rect_list g'
       = (rect_list g ++ [entry_at (List.length (selected_areas g))])%list
    /\ List.length (rect_items g') = S (List.length (rect_items g))
    /\ start_pos g' = None
    /\ pdf_document g' = pdf_document g
    /\ current_page_index g' = current_page_index g.
Proof.
  intros Hshift Hstart Hpb Hz.
  assert (Hok : exists g',
             eventFilter normalized point_bool (MouseButtonRelease true pos) g
             = OK g').
  { cbn [eventFilter]. unfold start_pos_set. rewrite Hshift, Hstart, Hpb.
    cbn [andb]. unfold on_release, py_truediv. rewrite Hz. cbn [bind].
    eauto. }
  destruct Hok as (g' & He). exists g'. split; [exact He|].
  destruct (eventFilter_effect _ _ _ _ _ He)
    as (Hdoc & Hi & [(Ha & Hl & Hr)
                    | (pos' & start' & Hev & _ & Hs & _ & _ & Ha & Hl & Hr
                       & Hnone & _)]).
  - exfalso. cbn [eventFilter] in He. unfold start_pos_set in He.
    rewrite Hshift, Hstart, Hpb in He. cbn [andb] in He.
    unfold on_release, py_truediv in He. rewrite Hz in He.
    cbn [bind] in He. injection He as <-.
    match type of Ha with
    | context [add_frame ?r ?i ?s] =>
        destruct (add_frame_fields r i s) as (Ha' & _)
    end.
    cbn zeta in Ha'. cbn [selected_areas set_rect_item set_start_pos] in Ha.
    rewrite Ha' in Ha. cbn [selected_areas set_selected_areas] in Ha.
    apply (f_equal (@List.length QRectF)) in Ha.
    rewrite length_app in Ha. simpl in Ha. lia.
  - injection Hev as <-. rewrite Hstart in Hs. injection Hs as <-.
    auto 10.
Qed.



(** X13: without shift no mouse event changes anything; nor does a press
    or release of another button than the left one, nor a move or a release
    when no press is pending. *)
Theorem mouse_events_need_shift_and_a_pending_press
  (normalized : QPointF -> QPointF -> QRectF) (point_bool : QPointF -> bool)
  (ev : mouse_event) (g : gui) :
  is_shift_pressed g = false
  \/ (exists pos,
        ev = MouseButtonPress false pos \/ ev = MouseButtonRelease false pos)
  \/ (start_pos g = None /\ forall pos, ev <> MouseButtonPress true pos) ->
  eventFilter normalized point_bool ev g = OK g.
Proof.
  intros [Hshift | [(pos & [-> | ->]) | (Hstart & Hev)]].
  - destruct ev; cbn [eventFilter]; rewrite Hshift; reflexivity.
  - cbn [eventFilter]. destruct (is_shift_pressed g); reflexivity.
  - cbn [eventFilter]. destruct (is_shift_pressed g); reflexivity.
  - destruct ev as [left pos|pos|left pos]; cbn [eventFilter];
      unfold start_pos_set; try rewrite Hstart.
    + destruct left; [exfalso; exact (Hev pos eq_refl)|].
      destruct (is_shift_pressed g); reflexivity.
    + destruct (is_shift_pressed g); reflexivity.
    + destruct (is_shift_pressed g), left; reflexivity.
Qed.

Lemma mouse_events_need_shift_and_a_pending_press_witness :
  is_shift_pressed init = false
  /\ eventFilter qt_normalized qt_point_bool
       (MouseButtonRelease true (point 50 50)) init = OK init.
Proof.
  split; [reflexivity|].
  apply (mouse_events_need_shift_and_a_pending_press qt_normalized
           qt_point_bool (MouseButtonRelease true (point 50 50)) init).
  left. reflexivity.
Defined.

(** X14: on an open document, going to the next page and back shows the
    page one started from, with the same areas, drawn and numbered again. *)
Theorem next_then_previous_page_returns (g : gui) (n : Z) :
  pdf_document g = Some n ->
  0 <= current_page_index g < n - 1 ->
  exists g1 g2,
    next_page g = OK g1
    /\ current_page_index g1 = current_page_index g + 1
    /\ prev_page g1 = OK g2
    /\ current_page_index g2 = current_page_index g
    /\ pdf_document g2 = Some n
    /\ selected_areas g2 = selected_areas g
    /\ shown_pages (scene g2) = [current_page_index g]
    /\ rect_list g2 = labels 0 (List.length (selected_areas g)).
Proof.
  intros Hdoc Hidx.
  assert (Hn : n <> 0) by lia.
  destruct (show_page_redraws
              (set_current_page_index (current_page_index g + 1) g) n
              Hdoc Hn ltac:(cbn; lia))
    as (g1 & Hs1 & Ha1 & Hd1 & Hi1 & _).
  cbn in Ha1, Hd1, Hi1.
  assert (Hdoc1 : pdf_document
                    (set_current_page_index (current_page_index g1 - 1) g1)
                  = Some n) by (cbn; congruence).
  destruct (show_page_redraws
              (set_current_page_index (current_page_index g1 - 1) g1) n
              Hdoc1 Hn ltac:(cbn; lia))
    as (g2 & Hs2 & Ha2 & Hd2 & Hi2 & Hl2 & _ & _ & Hp2).
  cbn in Ha2, Hd2, Hi2, Hl2, Hp2.
  exists g1, g2. split.
  - unfold next_page. rewrite Hdoc.
    replace (current_page_index g <? n - 1) with true
      by (symmetry; apply Z.ltb_lt; lia).
    exact Hs1.
  - split; [exact Hi1|]. split.
    + unfold prev_page.
      replace (0 <? current_page_index g1) with true
        by (symmetry; apply Z.ltb_lt; lia).
      exact Hs2.
    + rewrite Hi2, Hd2, Hd1, Ha2, Hp2, Hl2, Ha1, Hi1.
      repeat split; try assumption; f_equal; lia.
Qed.

Lemma next_then_previous_page_returns_witness :
  exists g1 g2,
    next_page one_area = OK g1
    /\ current_page_index g1 = 1
    /\ prev_page g1 = OK g2
    /\ current_page_index g2 = 0
    /\ selected_areas g2 = selected_areas one_area.
Proof.
  destruct (next_then_previous_page_returns one_area 2 eq_refl)
    as (g1 & g2 & Hn & Hi1 & Hp & Hi2 & _ & Ha & _).
  - vm_compute. split; [discriminate | reflexivity].
  - exists g1, g2. auto.
Defined.

Lemma delete_last {A : Type} (l : list A) (a : A) :
  delete (List.length l) (l ++ [a]) = l.
Proof.
  induction l as [|b l IH]; [reflexivity|]. simpl. now rewrite IH.
Qed.

(** X15: drawing an area and then removing the last area restores the
    selected areas: with shift held, a press pending and a zoom that is not
    zero, the release succeeds, the removal at the old length succeeds, and
    the areas are those from before the drag. *)
Theorem removing_the_drawn_area_restores
  (normalized : QPointF -> QPointF -> QRectF) (point_bool : QPointF -> bool)
  (pos start : QPointF) (g : gui) :
  same_lengths g -> page_in_range g ->
  is_shift_pressed g = true ->
  start_pos g = Some start ->
  point_bool start = true ->
  is_zero (scale_factor g) = false ->
  exists g1 g2,
    eventFilter normalized point_bool (MouseButtonRelease true pos) g = OK g1
    /\ remove_rect (Z.of_nat (List.length (selected_areas g))) g1 = OK g2
    /\ selected_areas g2 = selected_areas g.
Proof.
  intros Hlen Hrange Hshift Hstart Hpb Hz.
  destruct (release_appends normalized point_bool pos start g
              Hshift Hstart Hpb Hz)
    as (g1 & He & Ha & _ & Hr & _ & Hdoc & Hi).
  assert (Hlen1 : same_lengths g1).
  { unfold same_lengths in *. rewrite Hr, Ha, length_app, Hlen. simpl. lia. }
  assert (Hrange1 : page_in_range g1)
    by (unfold page_in_range in *; rewrite Hdoc, Hi; exact Hrange).
  destruct (remove_rect_succeeds
              (Z.of_nat (List.length (selected_areas g))) g1 Hlen1 Hrange1)
    as (g2 & Hrm).
  exists g1, g2. split; [exact He|]. split; [exact Hrm|].
  destruct (remove_rect_effect _ _ _ Hrm)
    as (_ & _ & [(Hout & _) | (_ & _ & Ha2 & _)]).
  - exfalso. apply Hout. unfold same_lengths in Hlen1.
    rewrite Hlen1, Ha, length_app. simpl. lia.
  - rewrite Ha2, Ha, Nat2Z.id. apply delete_last.
Qed.

Lemma removing_the_drawn_area_restores_witness :
  exists g1 g2,
    eventFilter qt_normalized qt_point_bool
      (MouseButtonRelease true (point 50 50)) pending_press = OK g1
    /\ remove_rect 0 g1 = OK g2
    /\ selected_areas g2 = [].
Proof.
  apply (removing_the_drawn_area_restores qt_normalized qt_point_bool
           (point 50 50) (point 10 10) pending_press).
  - reflexivity.
  - right. vm_compute. split; [discriminate | reflexivity].
  - reflexivity.
  - reflexivity.
  - reflexivity.
  - reflexivity.
Defined.

(** X16: a template saved from the editor is always accepted by the
    worker: it passes the worker's validation, and for each document the
    worker's loops resolve the page index that was displayed and ask, for
    every selected area in order, for the text in the rectangle from
    (x, y) to (x + width, y + height) of the area as it is stored. *)
Theorem saved_template_is_valid_input (g : gui) (file_path : string) :
  file_path <> "" ->
  exists raw,
    save_template file_path g = Some (file_path, raw)
    /\ validate raw = OK tt
    /\ forall (w : world) (pdf_path : string) (data : list string),
         one_document w raw pdf_path data
         = (d <- Document w pdf_path ;;
            pg <- getitem w d (JInt (current_page_index g)) ;;
            data' <- region_rows w pg (selected_areas g) data ;;
            OK (data' ++ [""])%list).
Proof.
  intro Hpath. exists (template_data g). split.
  - unfold save_template.
    destruct (String.eqb_spec file_path ""); [contradiction | reflexivity].
  - pose proof (encode_shape [(current_page_index g, selected_areas g)])
      as Hshape.
    apply validate_ok_iff in Hshape.
    change (encode [(current_page_index g, selected_areas g)])
      with (template_data g) in Hshape.
    split; [exact Hshape|].
    intros w pdf_path data.
    change (template_data g)
      with (encode [(current_page_index g, selected_areas g)]).
    rewrite one_document_encoded. unfold template_document.
    destruct (Document w pdf_path) as [d|e]; cbn [bind]; [|reflexivity].
    cbn [template_rows fst snd].
    destruct (getitem w d (JInt (current_page_index g))) as [pg|e];
      cbn [bind]; [|reflexivity].
    destruct (region_rows w pg (selected_areas g) data) as [data'|e];
      reflexivity.
Qed.

Lemma saved_template_is_valid_input_witness :
  "t.json" <> ""
  /\ exists raw,
       save_template "t.json" two_pages = Some ("t.json", raw)
       /\ validate raw = OK tt
       /\ forall (w : world) (pdf_path : string) (data : list string),
            one_document w raw pdf_path data
            = (d <- Document w pdf_path ;;
               pg <- getitem w d (JInt (current_page_index two_pages)) ;;
               data' <- region_rows w pg (selected_areas two_pages) data ;;
               OK (data' ++ [""])%list).
Proof.
  assert (H : "t.json" <> "") by discriminate.
  split; [exact H|].
  exact (saved_template_is_valid_input two_pages "t.json" H).
Defined.

Lemma finished_count_run (w : world) (template_path : string)
  (pdf_paths : list string) (output_path : string) :
  exists evs,
    run w template_path pdf_paths output_path = (evs ++ [Finished])%list
    /\ finished_count evs = O.
Proof.
  destruct (run_try_cases w template_path pdf_paths output_path)
    as [(rows & Hr) | (k & e & Hk & Hr)].
  - rewrite (run_of_success _ _ _ _ _ Hr).
    exists (progress_events (Z.of_nat (List.length pdf_paths)) 0
              (List.length pdf_paths) ++ [Saved output_path rows])%list.
    split; [now rewrite <- app_assoc|].
    rewrite finished_count_app, finished_count_progress_events. reflexivity.
  - rewrite (run_of_error _ _ _ _ _ _ Hr).
    exists (progress_events (Z.of_nat (List.length pdf_paths)) 0 k
            ++ [Print ("Error: " ++ message e)])%list.
    split; [now rewrite <- app_assoc|].
    rewrite finished_count_app, finished_count_progress_events. reflexivity.
Qed.

(** What the delivered signals change in the window. *)
Lemma deliver_all (evs : list event) :
  forall g,
    selected_areas (fold_left deliver evs g) = selected_areas g
    /\ current_page_index (fold_left deliver evs g) = current_page_index g
    /\ pdf_document (fold_left deliver evs g) = pdf_document g
    /\ rect_list (fold_left deliver evs g) = rect_list g
    /\ message_boxes (fold_left deliver evs g)
       = (message_boxes g
          ++ repeat completion_box (finished_count evs))%list.
Proof.
  induction evs as [|ev rest IH]; intro g; cbn [fold_left].
  - cbn. rewrite app_nil_r. auto.
  - destruct (IH (deliver g ev)) as (Ha & Hi & Hd & Hl & Hm).
    rewrite Ha, Hi, Hd, Hl, Hm.
    destruct ev; cbn; repeat split.
    rewrite <- app_assoc. reflexivity.
Qed.

(** X17: the three dialogs gate the run: if any of them is cancelled
    nothing runs and the window is unchanged.  Otherwise the worker runs,
    and after its signals the progress bar is back at 0 and exactly one
    message box has been added, the one that reports success, whether the
    sheet was written or an error was printed; the editor's areas, page and
    document are untouched. *)
Theorem process_files_reports_completion (w : world)
  (template_path : string) (pdf_paths : list string) (output_path : string)
  (g : gui) :
  (template_path = "" \/ pdf_paths = [] \/ output_path = "" ->
   process_files w template_path pdf_paths output_path g = (g, []))
  /\ (template_path <> "" -> pdf_paths <> [] -> output_path <> "" ->
      let g' :=
        fst (process_files w template_path pdf_paths output_path g) in
      snd (process_files w template_path pdf_paths output_path g)
      = run w template_path pdf_paths output_path
      /\ progress_bar g' = 0
      /\ message_boxes g' = (message_boxes g ++ [completion_box])%list
      /\ selected_areas g' = selected_areas g
      /\ current_page_index g' = current_page_index g
      /\ pdf_document g' = pdf_document g).
Proof.
  split.
  - intro Hcancel. unfold process_files.
    destruct (String.eqb_spec template_path ""); [reflexivity|].
    destruct pdf_paths as [|p rest]; [reflexivity|].
    destruct (String.eqb_spec output_path ""); [reflexivity|].
    destruct Hcancel as [H | [H | H]]; congruence.
  - intros Ht Hp Ho. unfold process_files.
    destruct (String.eqb_spec template_path ""); [contradiction|].
    destruct pdf_paths as [|p rest]; [contradiction|].
    destruct (String.eqb_spec output_path ""); [contradiction|].
    cbn [fst snd]. split; [reflexivity|].
    destruct (finished_count_run w template_path (p :: rest) output_path)
      as (evs & Hrun & Hcount).
    rewrite Hrun, fold_left_app. cbn [fold_left deliver].
    destruct (deliver_all evs g) as (Ha & Hi & Hd & _ & Hm).
    unfold processing_finished. cbn.
    rewrite Ha, Hi, Hd, Hm, Hcount. cbn. rewrite app_nil_r.
    repeat split.
Qed.

Lemma process_files_reports_completion_witness :
  message_boxes
    (fst (process_files read_only_output "t.json" ["doc1"; "doc2"]
            "out.xlsx" three_areas))
  = (message_boxes three_areas ++ [completion_box])%list
  /\ progress_bar
       (fst (process_files read_only_output "t.json" ["doc1"; "doc2"]
               "out.xlsx" three_areas)) = 0
  /\ process_files read_only_output "t.json" ["doc1"; "doc2"] "" three_areas
     = (three_areas, []).
Proof.
  assert (Ht : "t.json" <> "") by discriminate.
  assert (Hp : ["doc1"; "doc2"] <> []) by discriminate.
  assert (Ho : "out.xlsx" <> "") by discriminate.
  pose proof (proj2 (process_files_reports_completion read_only_output
                       "t.json" ["doc1"; "doc2"] "out.xlsx" three_areas)
                Ht Hp Ho) as Hrun.
  cbv zeta in Hrun. destruct Hrun as (_ & Hbar & Hboxes & _).
  split; [exact Hboxes|]. split; [exact Hbar|].
  apply (proj1 (process_files_reports_completion read_only_output "t.json"
                  ["doc1"; "doc2"] "" three_areas)).
  right. right. reflexivity.
Defined.

Lemma shown_rects_app (a b : list (Z * scene_item)) :
  shown_rects (a ++ b) = (shown_rects a ++ shown_rects b)%list.
Proof.
  induction a as [|[id it] a IH]; [reflexivity|].
  destruct it as [| r [|] |]; simpl; rewrite IH; reflexivity.
Qed.

Lemma add_frame_shown_rects (shown : QRectF) (index : Z) (g : gui) :
  shown_rects (scene (add_frame shown index g))
  = (shown_rects (scene g) ++ [shown])%list.
Proof.
  unfold add_frame, add_item. cbn.
  rewrite !shown_rects_app. simpl. now rewrite app_nil_r.
Qed.

Lemma reapply_shown_rects (areas : list QRectF) :
  forall (index : Z) (g : gui),
    shown_rects (scene (reapply areas index g))
    = (shown_rects (scene g)
       ++ map (fun r => scaled r (scale_factor g)) areas)%list.
Proof.
  induction areas as [|r rest IH]; intros index g; cbn [reapply map].
  - now rewrite app_nil_r.
  - rewrite IH, add_frame_shown_rects.
    destruct (add_frame_fields (scaled r (scale_factor g)) index g)
      as (_ & _ & _ & Hs & _).
    cbn zeta in Hs. rewrite Hs, <- app_assoc. reflexivity.
Qed.

(** What [show_page] puts in the scene when there is a page to show. *)
Lemma show_page_frames (g g' : gui) :
  show_page g = OK g' -> no_document g = false ->
  shown_rects (scene g')
  = map (fun r => scaled r (scale_factor g)) (selected_areas g)
  /\ scale_factor g' = scale_factor g.
Proof.
  intros Hs Hno. unfold show_page in Hs. rewrite Hno in Hs.
  unfold no_document in Hno. cbn in Hs.
  destruct (pdf_document g) as [n|]; [|discriminate].
  destruct (current_page_index g <? n); [|discriminate].
  injection Hs as <-. rewrite reapply_shown_rects. cbn. split; [reflexivity|].
  match goal with
  | |- context [reapply ?a ?i ?s] =>
      destruct (reapply_fields a i s) as (_ & _ & _ & Hsc & _)
  end.
  cbn zeta in Hsc. rewrite Hsc. reflexivity.
Qed.



(** X19: loading a document shows its first page and keeps the areas
    selected so far, drawn and numbered again over it; cancelling the dialog
    changes nothing; if the document cannot be opened the exception leaves
    the handler. *)
Theorem load_pdf_shows_first_page_and_keeps_areas (file_path : string)
  (opened : result Z) (g : gui) :
  (file_path = "" -> load_pdf file_path opened g = OK g)
  /\ (forall e, file_path <> "" -> opened = Error e ->
                load_pdf file_path opened g = Error e)
  /\ (forall n, file_path <> "" -> opened = OK n -> 0 < n ->
      exists g',
        load_pdf file_path opened g = OK g'
        /\ pdf_document g' = Some n
        /\ current_page_index g' = 0
        /\ shown_pages (scene g') = [0]
        /\ selected_areas g' = selected_areas g
        /\ rect_list g' = labels 0 (List.length (selected_areas g))
        /\ shown_rects (scene g')
           = map (fun r => scaled r (scale_factor g)) (selected_areas g)).
Proof.
  split; [|split].
  - intros ->. reflexivity.
  - intros e Hpath ->. unfold load_pdf.
    destruct (String.eqb_spec file_path ""); [contradiction | reflexivity].
  - intros n Hpath -> Hn. unfold load_pdf.
    destruct (String.eqb_spec file_path ""); [contradiction|].
    cbn [bind].
    destruct (show_page_redraws
                (set_current_page_index 0 (set_pdf_document (Some n) g)) n
                eq_refl ltac:(lia) Hn)
      as (g' & Hs & Ha & Hd & Hi & Hl & _ & _ & Hp).
    cbn in Ha, Hd, Hi, Hl, Hp.
    exists g'. split; [exact Hs|].
    destruct (show_page_frames _ _ Hs) as (Hr & _).
    { unfold no_document. cbn. apply Z.eqb_neq. lia. }
    cbn in Hr. auto 10.
Qed.

Lemma load_pdf_shows_first_page_and_keeps_areas_witness :
  exists g',
    load_pdf "b.pdf" (OK 5) two_pages = OK g'
    /\ pdf_document g' = Some 5
    /\ current_page_index g' = 0
    /\ selected_areas g' = selected_areas two_pages.
Proof.
  destruct (proj2 (proj2 (load_pdf_shows_first_page_and_keeps_areas
                            "b.pdf" (OK 5) two_pages))
              5 ltac:(discriminate) eq_refl eq_refl)
    as (g' & Hl & Hd & Hi & _ & Ha & _).
  exists g'. auto.
Defined.

(** * The items handed to the scene *)

Lemma add_frame_items (shown : QRectF) (index : Z) (g : gui) :
  let g' := add_frame shown index g in
  rect_items g' = (rect_items g ++ [next_item g])%list
  /\ scene g'
     = (scene g
        ++ [(next_item g, RectItem shown false);
            (next_item g + 1, TextItem (index + 1) (rx shown) (ry shown))])%list
  /\ next_item g' = next_item g + 1 + 1
  /\ rect_item g' = rect_item g.
Proof.
  unfold add_frame, add_item. cbn. repeat split.
  now rewrite <- app_assoc.
Qed.

Lemma items_in_scene_add_frame (shown : QRectF) (index : Z) (g : gui) :
  items_in_scene g -> items_in_scene (add_frame shown index g).
Proof.
  intros (Hnodup & Hin & Hdrag).
  destruct (add_frame_items shown index g) as (Hitems & Hscene & Hnext & Hd).
  cbn zeta in *. unfold items_in_scene, in_scene.
  rewrite Hitems, Hscene, Hnext, Hd. split; [|split].
  - apply NoDup_app; [exact Hnodup | constructor; [intros []|constructor] |].
    intros a Ha [<- | []]. apply Hin in Ha. lia.
  - intros id Hid. rewrite existsb_app. apply in_app_or in Hid.
    destruct Hid as [Hid | [<- | []]].
    + apply Hin in Hid. destruct Hid as [Hs Hlt]. unfold in_scene in Hs.
      rewrite Hs. split; [reflexivity | lia].
    + cbn [existsb fst]. rewrite Z.eqb_refl, orb_true_r.
      split; [reflexivity | lia].
  - intros id Hid. apply Hdrag in Hid. destruct Hid as [Hout Hlt].
    split; [|lia]. intro Hid. apply in_app_or in Hid.
    destruct Hid as [Hid | [<- | []]]; [exact (Hout Hid) | lia].
Qed.

Lemma items_in_scene_reapply (areas : list QRectF) :
  forall index g,
    items_in_scene g -> items_in_scene (reapply areas index g).
Proof.
  induction areas as [|r rest IH]; intros index g Hinv; cbn [reapply];
    [exact Hinv|].
  apply IH, items_in_scene_add_frame, Hinv.
Qed.

Lemma show_page_items (g g' : gui) :
  show_page g = OK g' -> items_in_scene g -> items_in_scene g'.
Proof.
  unfold show_page. destruct (no_document g).
  - intro H. injection H as <-. auto.
  - cbn [pdf_document set_rect_list set_rect_items set_scene
         current_page_index].
    destruct (pdf_document g) as [n|]; [|intro H; injection H as <-; auto].
    destruct (current_page_index g <? n); [|discriminate].
    unfold add_item. intro H. injection H as <-.
    intros (_ & _ & Hdrag). apply items_in_scene_reapply.
    unfold items_in_scene, in_scene. cbn. split; [constructor|].
    split; [intros id []|].
    intros id Hid. apply Hdrag in Hid. split; [intros []|lia].
Qed.

Lemma delete_In {A : Type} (l : list A) :
  forall i a, In a (delete i l) -> In a l.
Proof.
  induction l as [|b l IH]; intros i a H; [destruct i; exact H|].
  destruct i; cbn [delete] in H; [right; exact H|].
  destruct H as [<- | H]; [left; reflexivity | right; exact (IH _ _ H)].
Qed.

Lemma delete_NoDup {A : Type} (l : list A) :
  forall i, NoDup l -> NoDup (delete i l).
Proof.
  induction l as [|b l IH]; intros i H; [destruct i; exact H|].
  inversion H as [|? ? Hb Hl]; subst.
  destruct i; cbn [delete]; [exact Hl|].
  constructor; [|exact (IH _ Hl)].
  intro Hin. exact (Hb (delete_In _ _ _ Hin)).
Qed.

Lemma delete_not_nth {A : Type} (l : list A) (d : A) :
  forall i a,
    NoDup l -> (i < List.length l)%nat -> In a (delete i l) -> a <> nth i l d.
Proof.
  induction l as [|b l IH]; intros i a H Hi Ha; [simpl in Hi; lia|].
  inversion H as [|? ? Hb Hl]; subst.
  cbn [List.length] in Hi. destruct i; cbn [delete nth] in *.
  - intros ->. exact (Hb Ha).
  - destruct Ha as [<- | Ha].
    + intros ->. apply Hb, nth_In. lia.
    + apply IH; [exact Hl | lia | exact Ha].
Qed.

Lemma existsb_other_removed (id old : Z) (items : list (Z * scene_item)) :
  id <> old ->
  existsb (fun p => fst p =? id)
    (filter (fun p => negb (fst p =? old)) items)
  = existsb (fun p => fst p =? id) items.
Proof.
  intro Hneq. induction items as [|[i it] rest IH]; [reflexivity|].
  cbn [filter existsb fst].
  destruct (i =? old) eqn:Hold; cbn [negb existsb fst].
  - apply Z.eqb_eq in Hold. subst i.
    assert (Hno : (old =? id) = false) by (apply Z.eqb_neq; congruence).
    rewrite Hno. exact IH.
  - rewrite IH. reflexivity.
Qed.

Lemma remove_rect_items (index : Z) (g g' : gui) :
  remove_rect index g = OK g' -> items_in_scene g -> items_in_scene g'.
Proof.
  unfold remove_rect.
  destruct ((0 <=? index)
            && (index <? Z.of_nat (List.length (rect_items g)))) eqn:Hguard;
    [|intro H; injection H as <-; auto].
  unfold del, remove_item.
  cbn [rect_items selected_areas set_scene set_rect_items].
  rewrite Hguard.
  cbn [bind rect_items selected_areas set_scene set_rect_items].
  destruct ((0 <=? index)
            && (index <? Z.of_nat (List.length (selected_areas g))));
    [|discriminate].
  cbn [bind]. intros Hshow (Hnodup & Hin & Hdrag).
  apply (show_page_items _ _ Hshow).
  apply andb_prop in Hguard. destruct Hguard as [H0 H1].
  apply Z.leb_le in H0. apply Z.ltb_lt in H1.
  unfold items_in_scene, in_scene. cbn. split; [|split].
  - apply delete_NoDup, Hnodup.
  - intros id Hid.
    assert (Hneq : id <> nth (Z.to_nat index) (rect_items g) 0)
      by (apply delete_not_nth; [exact Hnodup | lia | exact Hid]).
    rewrite (existsb_other_removed _ _ _ Hneq).
    apply Hin. exact (delete_In _ _ _ Hid).
  - intros id Hid. apply Hdrag in Hid. destruct Hid as [Hout Hlt].
    split; [|exact Hlt]. intro Hid. exact (Hout (delete_In _ _ _ Hid)).
Qed.

Lemma eventFilter_items (normalized : QPointF -> QPointF -> QRectF)
  (point_bool : QPointF -> bool) (ev : mouse_event) (g g' : gui) :
  eventFilter normalized point_bool ev g = OK g' ->
  items_in_scene g -> items_in_scene g'.
Proof.
  intros He Hinv.
  destruct ev as [left pos|pos|left pos]; cbn [eventFilter] in He.
  - destruct (is_shift_pressed g); [destruct left|]; injection He as <-;
      exact Hinv.
  - destruct (is_shift_pressed g && start_pos_set point_bool g);
      [|injection He as <-; exact Hinv].
    destruct (start_pos g); [|injection He as <-; exact Hinv].
    destruct Hinv as (Hnodup & Hin & Hdrag).
    destruct (rect_item g) as [old|] eqn:Hold.
    + unfold remove_pending in He. destruct (in_scene old g); [|discriminate].
      cbn [bind] in He. injection He as <-.
      destruct (Hdrag old eq_refl) as [Hout _].
      unfold items_in_scene, in_scene. cbn. split; [exact Hnodup|]. split.
      * intros id Hid. rewrite existsb_app.
        assert (Hneq : id <> old) by (intros ->; exact (Hout Hid)).
        rewrite (existsb_other_removed _ _ _ Hneq).
        destruct (Hin id Hid) as [Hs Hlt]. unfold in_scene in Hs.
        rewrite Hs. split; [reflexivity | lia].
      * intros id Hid. injection Hid as <-. split; [|lia].
        intro Hid. apply Hin in Hid. lia.
    + cbn [bind] in He. injection He as <-.
      unfold items_in_scene, in_scene. cbn. split; [exact Hnodup|]. split.
      * intros id Hid. rewrite existsb_app.
        destruct (Hin id Hid) as [Hs Hlt]. unfold in_scene in Hs.
        rewrite Hs. split; [reflexivity | lia].
      * intros id Hid. injection Hid as <-. split; [|lia].
        intro Hid. apply Hin in Hid. lia.
  - destruct (is_shift_pressed g && left && start_pos_set point_bool g);
      [|injection He as <-; exact Hinv].
    destruct (start_pos g) as [start|]; [|injection He as <-; exact Hinv].
    unfold on_release in He.
    destruct (py_truediv (rx (normalized start pos)) (scale_factor g));
      [|discriminate].
    destruct (py_truediv (ry (normalized start pos)) (scale_factor g));
      [|discriminate].
    destruct (py_truediv (rwidth (normalized start pos)) (scale_factor g));
      [|discriminate].
    destruct (py_truediv (rheight (normalized start pos)) (scale_factor g));
      [|discriminate].
    cbn [bind] in He. injection He as <-.
    match goal with
    | |- context [add_frame ?r ?i ?s] =>
        assert (Hframe : items_in_scene (add_frame r i s))
          by (apply items_in_scene_add_frame; exact Hinv);
        destruct Hframe as (Hnodup & Hin & _)
    end.
    split; [exact Hnodup|]. split; [exact Hin|]. intros id Hid.
    discriminate Hid.
Qed.

Lemma reachable_items (normalized : QPointF -> QPointF -> QRectF)
  (point_bool : QPointF -> bool) (g : gui) :
  reachable normalized point_bool g -> items_in_scene g.
Proof.
  induction 1 as [|a g g' _ IH Hstep].
  - split; [constructor|]. split; [intros id []|]. intros id Hid.
    discriminate Hid.
  - destruct a; cbn [perform] in Hstep.
    + unfold load_pdf in Hstep. destruct (String.eqb file_path "").
      * injection Hstep as <-. exact IH.
      * destruct opened as [n|e]; [|discriminate]. cbn [bind] in Hstep.
        exact (show_page_items _ _ Hstep IH).
    + unfold prev_page in Hstep. destruct (0 <? current_page_index g).
      * exact (show_page_items _ _ Hstep IH).
      * injection Hstep as <-. exact IH.
    + unfold next_page in Hstep.
      destruct (pdf_document g) as [n|]; [|discriminate].
      destruct (current_page_index g <? n - 1).
      * exact (show_page_items _ _ Hstep IH).
      * injection Hstep as <-. exact IH.
    + injection Hstep as <-. destruct shift; exact IH.
    + injection Hstep as <-. destruct shift; exact IH.
    + unfold wheelEvent in Hstep. destruct control.
      * exact (show_page_items _ _ Hstep IH).
      * injection Hstep as <-. exact IH.
    + exact (eventFilter_items _ _ _ _ _ Hstep IH).
    + exact (remove_rect_items _ _ _ Hstep IH).
    + injection Hstep as <-. destruct ev; exact IH.
Qed.

(** X20: in every state the editor can reach, the rectangle items that the
    side list's buttons refer to are different items, each in the scene, and
    the dotted rectangle of a drag is none of them: [remove_rect] never
    hands [scene.removeItem] an item that [scene.clear()] has deleted, and
    removing one frame takes no other frame out of the scene. *)
Theorem removed_frames_are_in_the_scene
  (normalized : QPointF -> QPointF -> QRectF) (point_bool : QPointF -> bool)
  (g : gui) (index : Z) :
  reachable normalized point_bool g ->
  0 <= index < Z.of_nat (List.length (rect_items g)) ->
  in_scene (nth (Z.to_nat index) (rect_items g) 0) g = true
  /\ NoDup (rect_items g)
  /\ rect_item g <> Some (nth (Z.to_nat index) (rect_items g) 0)
  /\ forall other,
       In other (rect_items g) ->
       other <> nth (Z.to_nat index) (rect_items g) 0 ->
       in_scene other (remove_item (nth (Z.to_nat index) (rect_items g) 0) g)
       = true.
Proof.
  intros Hreach Hindex.
  destruct (reachable_items _ _ _ Hreach) as (Hnodup & Hin & Hdrag).
  assert (Hnth : In (nth (Z.to_nat index) (rect_items g) 0) (rect_items g))
    by (apply nth_In; lia).
  split; [exact (proj1 (Hin _ Hnth))|]. split; [exact Hnodup|]. split.
  - intro Hd. apply Hdrag in Hd. exact (proj1 Hd Hnth).
  - intros other Hother Hneq. unfold in_scene, remove_item.
    cbn [scene set_scene].
    rewrite (existsb_other_removed _ _ _ Hneq).
    exact (proj1 (Hin _ Hother)).
Qed.

Lemma removed_frames_are_in_the_scene_witness :
  reachable qt_normalized qt_point_bool three_areas
  /\ 0 <= 1 < Z.of_nat (List.length (rect_items three_areas))
  /\ in_scene (nth (Z.to_nat 1) (rect_items three_areas) 0) three_areas = true.
Proof.
  assert (Hindex : 0 <= 1 < Z.of_nat (List.length (rect_items three_areas)))
    by (vm_compute; split; [discriminate | reflexivity]).
  split; [exact three_areas_reachable|]. split; [exact Hindex|].
  exact (proj1 (removed_frames_are_in_the_scene qt_normalized qt_point_bool
                  three_areas 1 three_areas_reachable Hindex)).
Defined.

(** * Saving after a session *)

(** Short of a removal, an action keeps every selected area, in place. *)
Lemma perform_extends_areas (normalized : QPointF -> QPointF -> QRectF)
  (point_bool : QPointF -> bool) (a : action) (g g' : gui) :
  perform normalized point_bool a g = OK g' ->
  (forall index, a <> RemoveRect index) ->
  exists later, selected_areas g' = (selected_areas g ++ later)%list.
Proof.
  intros Hstep Hkeep.
  assert (Hsame : selected_areas g' = selected_areas g ->
                  exists later,
                    selected_areas g' = (selected_areas g ++ later)%list).
  { intros ->. exists []. now rewrite app_nil_r. }
  destruct a; cbn [perform] in Hstep.
  - apply Hsame. unfold load_pdf in Hstep. destruct (String.eqb file_path "").
    + now injection Hstep as <-.
    + destruct opened as [n|e]; [|discriminate]. cbn [bind] in Hstep.
      apply show_page_keeps in Hstep. cbn in Hstep. tauto.
  - apply Hsame. unfold prev_page in Hstep.
    destruct (0 <? current_page_index g).
    + apply show_page_keeps in Hstep. cbn in Hstep. tauto.
    + now injection Hstep as <-.
  - apply Hsame. unfold next_page in Hstep.
    destruct (pdf_document g) as [n|]; [|discriminate].
    destruct (current_page_index g <? n - 1).
    + apply show_page_keeps in Hstep. cbn in Hstep. tauto.
    + now injection Hstep as <-.
  - apply Hsame. injection Hstep as <-. destruct shift; reflexivity.
  - apply Hsame. injection Hstep as <-. destruct shift; reflexivity.
  - apply Hsame. unfold wheelEvent in Hstep. destruct control.
    + apply show_page_keeps in Hstep. cbn in Hstep. tauto.
    + now injection Hstep as <-.
  - destruct (eventFilter_effect _ _ _ _ _ Hstep)
      as (_ & _ & [(Ha & _)
                  | (pos & start & _ & _ & _ & _ & _ & Ha & _)]).
    + apply Hsame. exact Ha.
    + eexists. exact Ha.
  - exfalso. exact (Hkeep index eq_refl).
  - apply Hsame. injection Hstep as <-. destruct ev; reflexivity.
Qed.

Lemma perform_all_extends_areas (normalized : QPointF -> QPointF -> QRectF)
  (point_bool : QPointF -> bool) (actions : list action) :
  forall g g',
    perform_all normalized point_bool actions g = OK g' ->
    (forall index, ~ In (RemoveRect index) actions) ->
    exists later, selected_areas g' = (selected_areas g ++ later)%list.
Proof.
  induction actions as [|a rest IH]; intros g g' Hrun Hkeep;
    cbn [perform_all] in Hrun.
  - injection Hrun as <-. exists []. now rewrite app_nil_r.
  - destruct (perform normalized point_bool a g) as [g1|e] eqn:Hstep;
      cbn [bind] in Hrun; [|discriminate].
    destruct (perform_extends_areas _ _ _ _ _ Hstep) as (first & H1).
    { intros index ->. apply (Hkeep index). left. reflexivity. }
    destruct (IH _ _ Hrun) as (second & H2).
    { intros index Hin. apply (Hkeep index). right. exact Hin. }
    exists (first ++ second)%list. rewrite H2, H1, app_assoc. reflexivity.
Qed.

(** C10: the value that [save_template] writes is a list of exactly one
    entry; its page is the page index now displayed and its coordinates are
    all the selected areas, in order, each with its own x, y, width and
    height.  Showing another page before saving changes the page of the
    entry and none of the areas; and whatever is done between two moments
    short of removing an area (loading, changing pages, zooming, drawing),
    every area selected at the first is saved at the second, under the one
    page displayed then. *)
Theorem save_template_writes_one_entry (g : gui) (file_path : string) :
  file_path <> "" ->
  save_template file_path g
  = Some (file_path,
          JList
            [JDict
               [("page", JInt (current_page_index g));
                ("coordinates",
                 JList
                   (map
                      (fun r =>
                         JDict [("x", JFloat (rx r));
                                ("y", JFloat (ry r));
                                ("width", JFloat (rwidth r));
                                ("height", JFloat (rheight r))])
                      (selected_areas g)))]])
  /\ (forall g',
        prev_page g = OK g' \/ next_page g = OK g' ->
        save_template file_path g'
        = Some (file_path,
                JList
                  [JDict
                     [("page", JInt (current_page_index g'));
                      ("coordinates",
                       JList
                         (map
                            (fun r =>
                               JDict [("x", JFloat (rx r));
                                      ("y", JFloat (ry r));
                                      ("width", JFloat (rwidth r));
                                      ("height", JFloat (rheight r))])
                            (selected_areas g)))]]))
  /\ (forall normalized point_bool actions g',
        perform_all normalized point_bool actions g = OK g' ->
        (forall index, ~ In (RemoveRect index) actions) ->
        exists later,
          save_template file_path g'
          = Some (file_path,
                  JList
                    [JDict
                       [("page", JInt (current_page_index g'));
                        ("coordinates",
                         JList
                           (map
                              (fun r =>
                                 JDict [("x", JFloat (rx r));
                                        ("y", JFloat (ry r));
                                        ("width", JFloat (rwidth r));
                                        ("height", JFloat (rheight r))])
                              (selected_areas g ++ later)))]])).
Proof.
  intro Hpath.
  assert (Hsave : forall s,
             save_template file_path s
             = Some (file_path,
                     JList
                       [JDict
                          [("page", JInt (current_page_index s));
                           ("coordinates",
                            JList
                              (map
                                 (fun r =>
                                    JDict [("x", JFloat (rx r));
                                           ("y", JFloat (ry r));
                                           ("width", JFloat (rwidth r));
                                           ("height", JFloat (rheight r))])
                                 (selected_areas s)))]])).
  { intro s. unfold save_template.
    destruct (String.eqb_spec file_path ""); [contradiction | reflexivity]. }
  split; [apply Hsave|]. split.
  - intros g' Hnav. rewrite Hsave.
    assert (Ha : selected_areas g' = selected_areas g).
    { destruct Hnav as [H | H].
      - unfold prev_page in H. destruct (0 <? current_page_index g).
        + apply show_page_keeps in H. cbn in H. tauto.
        + now injection H as <-.
      - unfold next_page in H.
        destruct (pdf_document g) as [n|]; [|discriminate].
        destruct (current_page_index g <? n - 1).
        + apply show_page_keeps in H. cbn in H. tauto.
        + now injection H as <-. }
    rewrite Ha. reflexivity.
  - intros normalized point_bool actions g' Hrun Hkeep.
    destruct (perform_all_extends_areas _ _ _ _ _ Hrun Hkeep)
      as (later & Ha).
    exists later. rewrite Hsave, Ha. reflexivity.
Qed.

(** One area is drawn on the first page and one on the second; the file
    holds one entry, for the second page, with both. *)
Lemma save_template_writes_one_entry_witness :
  two_pages_session = OK two_pages
  /\ "t.json" <> ""
  /\ save_template "t.json" two_pages
     = Some ("t.json",
             JList [JDict [("page", JInt 1);
                           ("coordinates",
                            JList [JDict [("x", JFloat (float_of_Z 10));
                                          ("y", JFloat (float_of_Z 10));
                                          ("width", JFloat (float_of_Z 40));
                                          ("height", JFloat (float_of_Z 40))];
                                   JDict [("x", JFloat (float_of_Z 60));
                                          ("y", JFloat (float_of_Z 20));
                                          ("width", JFloat (float_of_Z 30));
                                          ("height",
                                           JFloat (float_of_Z 20))]])]]).
Proof.
  split; [vm_compute; reflexivity|].
  assert (H : "t.json" <> "") by discriminate.
  split; [exact H|].
  exact (proj1 (save_template_writes_one_entry two_pages "t.json" H)).
Defined.
